(** * A shallow embedding of the calendar assistant (main.py)

    The program is four Python functions around the Google Calendar client
    library: [get_calendar_service], [fetch_events], [add_event] and
    [create_calendar].  Python values coming back from the service are
    modelled by the type [value]; a call of the program is a computation in
    a state-and-exception monad [M] whose state carries the token file and
    the trace of observable effects (requests executed against the service,
    lines printed, warnings issued).  Library code that is not part of the
    program (the OAuth helpers, the date parser beyond the calendar-day
    form, the time-zone table, the remote service) is taken as data: the
    record [Env] and the oracle inside [Session].  What differs between
    releases of the libraries or between platforms is a field of [Env]
    too, so the statements hold for each of them.

    The interpreter is the default one: [assert] statements are executed
    (no [-O]), and [warnings.warn] records its warning and returns (no
    filter turns it into an exception).  The DataFrame is the one of the
    pandas releases that have [DataFrame.append], which the program calls;
    whether the call issues a deprecation warning is left to [Env].
    Arguments have the types of the docstrings: strings for the fields of
    an event, for a title and for a date, a boolean for the flag, and a
    session or [None] for the service. *)

From Stdlib Require Import String Ascii List ZArith Bool Lia.
Import ListNotations.
Local Open Scope string_scope.
Local Open Scope list_scope.

Set Warnings "-register-all".

(* ================================================================== *)
(** * Python values, exceptions and the primitives the program uses *)
(* ================================================================== *)

Module Py.

(** JSON-shaped Python objects.  A [dict] keeps its insertion order, so it
    is an association list; [lookup] returns the first binding of a key. *)
Inductive value : Type :=
| VNone
| VBool (b : bool)
| VInt (n : Z)
| VStr (s : string)
| VList (items : list value)
| VDict (entries : list (string * value)).

Inductive exn : Type :=
| AssertionError (msg : string)
| KeyError (key : string)
| AttributeError (msg : string)
| TypeError (msg : string)
| ValueError (msg : string)
| OverflowError (msg : string)
| HttpError (status : Z) (reason : string)
| RefreshError (msg : string)
| TransportError (msg : string)
| FileNotFoundError (path : string)
| LibraryError (cls msg : string).

Inductive result (A : Type) : Type :=
| Ok (a : A)
| Raise (e : exn).
Arguments Ok {A} a.
Arguments Raise {A} e.

Definition type_name (v : value) : string :=
  match v with
  | VNone => "NoneType"
  | VBool _ => "bool"
  | VInt _ => "int"
  | VStr _ => "str"
  | VList _ => "list"
  | VDict _ => "dict"
  end.

(** Truth value testing, as [assert x], [not x] and [x and y] perform it. *)
Definition truthy (v : value) : bool :=
  match v with
  | VNone => false
  | VBool b => b
  | VInt n => negb (Z.eqb n 0)
  | VStr s => negb (String.eqb s "")
  | VList l => match l with [] => false | _ :: _ => true end
  | VDict d => match d with [] => false | _ :: _ => true end
  end.

Fixpoint lookup (k : string) (d : list (string * value)) : option value :=
  match d with
  | [] => None
  | (k', v) :: d' => if String.eqb k k' then Some v else lookup k d'
  end.

(** [obj.get(key, default)]: only a dict has the method. *)
Definition py_get (obj : value) (key : string) (default : value) : result value :=
  match obj with
  | VDict d => Ok (match lookup key d with Some v => v | None => default end)
  | _ => Raise (AttributeError
                  ("'" ++ type_name obj ++ "' object has no attribute 'get'"))
  end.

(** [obj[key]] with a string key. *)
Definition py_getitem (obj : value) (key : string) : result value :=
  match obj with
  | VDict d => match lookup key d with
               | Some v => Ok v
               | None => Raise (KeyError key)
               end
  | VList _ => Raise (TypeError "list indices must be integers or slices, not str")
  | VStr _ => Raise (TypeError "string indices must be integers")
  | _ => Raise (TypeError ("'" ++ type_name obj ++ "' object is not subscriptable"))
  end.

Fixpoint chars (s : string) : list value :=
  match s with
  | EmptyString => []
  | String c s' => VStr (String c EmptyString) :: chars s'
  end.

(** What [for x in obj] iterates over: the elements of a list, the keys of
    a dict, the characters of a string; anything else is not iterable. *)
Definition py_iter (obj : value) : result (list value) :=
  match obj with
  | VList l => Ok l
  | VDict d => Ok (map (fun kv => VStr (fst kv)) d)
  | VStr s => Ok (chars s)
  | _ => Raise (TypeError ("'" ++ type_name obj ++ "' object is not iterable"))
  end.

End Py.
Import Py.

(* ================================================================== *)
(** * Observable effects and the monad of a call *)
(* ================================================================== *)

(** The four operations of the calendar API surface the program consumes,
    with the keyword arguments the program passes. *)
Inductive request : Type :=
| CalendarList_list
| Events_list (calendarId : value) (timeMin timeMax : string)
              (singleEvents : bool) (orderBy : string)
| Events_insert (calendarId : string) (body : value)
| Calendars_insert (body : value).

(** An f-string: literal text and interpolated values.  How [str()] renders
    the values is not modelled. *)
Inductive piece : Type :=
| Lit (s : string)
| Interp (v : value).

Inductive effect : Type :=
| Net (r : request)            (* [....execute()]: a call to the service *)
| Refresh                      (* [creds.refresh(Request())] *)
| Consent                      (* [flow.run_local_server(port=0)] *)
| Stdout (line : list piece)   (* [print(...)] *)
| Warn (msg : string)          (* [warnings.warn(...)] of the program *)
| FutureWarning (msg : string). (* a deprecation warning of a library *)

Record state : Type := mkState {
  token_json : option string;  (* contents of token.json, if the file exists *)
  trace : list effect
}.

Definition log (e : effect) (st : state) : state :=
  mkState (token_json st) (trace st ++ [e]).

Fixpoint requests (t : list effect) : list request :=
  match t with
  | [] => []
  | Net r :: t' => r :: requests t'
  | _ :: t' => requests t'
  end.

(** The service handle returned by [build].  The remote service answers a
    request knowing the requests it has served before; its answer is the
    object [execute()] returns, or the exception it raises. *)
Record Session : Type := mkSession {
  api : list request -> request -> result value
}.

Definition M (A : Type) : Type := state -> result A * state.

Definition ret {A} (a : A) : M A := fun st => (Ok a, st).

Definition raise {A} (e : exn) : M A := fun st => (Raise e, st).

Definition bind {A B} (m : M A) (k : A -> M B) : M B :=
  fun st => match m st with
            | (Ok a, st') => k a st'
            | (Raise e, st') => (Raise e, st')
            end.

Notation "x <- m ;; k" := (bind m (fun x => k))
  (at level 61, m at next level, right associativity).
Notation "m ;;; k" := (bind m (fun _ => k))
  (at level 61, right associativity).

Definition lift {A} (r : result A) : M A := fun st => (r, st).

(** Sequencing of pure, fallible steps. *)
Definition rbind {A B} (r : result A) (k : A -> result B) : result B :=
  match r with
  | Ok a => k a
  | Raise e => Raise e
  end.

Notation "x <~ r ;; k" := (rbind r (fun x => k))
  (at level 61, r at next level, right associativity).

Definition emit (e : effect) : M unit := fun st => (Ok tt, log e st).

Definition print (line : list piece) : M unit := emit (Stdout line).

Definition warn (msg : string) : M unit := emit (Warn msg).

Definition when (b : bool) (m : M unit) : M unit := if b then m else ret tt.

(** [assert cond, msg] *)
Definition assert_ (cond : bool) (msg : string) : M unit :=
  if cond then ret tt else raise (AssertionError msg).

(** [assert service is not None, msg], giving access to the object. *)
Definition assert_not_none {A} (o : option A) (msg : string) : M A :=
  match o with
  | Some a => ret a
  | None => raise (AssertionError msg)
  end.

(** [request.execute()] *)
Definition execute (svc : Session) (r : request) : M value :=
  fun st => (api svc (requests (trace st)) r, log (Net r) st).

(** A [for] loop threading the variable the body reassigns. *)
Fixpoint for_each {A S} (xs : list A) (acc : S) (body : A -> S -> M S) : M S :=
  match xs with
  | [] => ret acc
  | x :: xs' => acc' <- body x acc ;; for_each xs' acc' body
  end.

(* ================================================================== *)
(** * Event Creator and Calendar Creator *)
(* ================================================================== *)

Definition event_body (summary start_time end_time description location : string)
  : value :=
  VDict [ ("summary", VStr summary);
          ("location", VStr location);
          ("description", VStr description);
          ("start", VDict [ ("dateTime", VStr start_time);
                            ("timeZone", VStr "Asia/Jerusalem") ]);
          ("end", VDict [ ("dateTime", VStr end_time);
                          ("timeZone", VStr "Asia/Jerusalem") ]) ].

(** The function has no [return] statement: a call that completes
    evaluates to [None]. *)
Definition add_event (service : option Session)
    (calendar_id summary start_time end_time description location : string)
    (verbosity : bool) : M value :=
  svc <- assert_not_none service "Service must be initialized." ;;
  assert_ (truthy (VStr calendar_id) && truthy (VStr summary)
           && truthy (VStr start_time) && truthy (VStr end_time))
          "Essential event details must be provided." ;;;
  let event := event_body summary start_time end_time description location in
  event <- execute svc (Events_insert calendar_id event) ;;
  when verbosity
       (link <- lift (py_get event "htmlLink" VNone) ;;
        print [Lit "Event created: "; Interp link]) ;;;
  ret VNone.

Definition calendar_body (summary : string) : value :=
  VDict [ ("summary", VStr summary); ("timeZone", VStr "Asia/Jerusalem") ].

Definition create_calendar (service : option Session) (summary : string)
    (verbosity : bool) : M value :=
  svc <- assert_not_none service "Service must be initialized." ;;
  assert_ (truthy (VStr summary)) "Calendar summary must be provided." ;;;
  let calendar := calendar_body summary in
  created_calendar <- execute svc (Calendars_insert calendar) ;;
  when verbosity
       (s <- lift (py_getitem created_calendar "summary") ;;
        i <- lift (py_getitem created_calendar "id") ;;
        print [Lit "Created calendar: "; Interp s; Lit ", ID: "; Interp i]) ;;;
  ret VNone.

(* ================================================================== *)
(** * Authenticator *)
(* ================================================================== *)

Definition SCOPES : list string := ["https://www.googleapis.com/auth/calendar"].

(** [google.oauth2.credentials.Credentials].  [expired] is what the
    property reads off the clock when the program looks at it; [valid] is
    the library's [token is not None and not expired]. *)
Record Credentials : Type := mkCredentials {
  token : option string;
  refresh_token : option string;
  expired : bool;
  scopes : list string
}.

Definition valid (c : Credentials) : bool :=
  match token c with
  | Some _ => negb (expired c)
  | None => false
  end.

Definition truthy_attr (o : option string) : bool :=
  match o with
  | Some s => truthy (VStr s)
  | None => false
  end.

(** A [datetime.datetime]: the wall-clock fields and, once localized, the
    offset of its zone in minutes east of UTC. *)
Record datetime : Type := mkDatetime {
  year : Z;
  month : Z;
  day : Z;
  hour : Z;
  minute : Z;
  second : Z;
  microsecond : Z;
  tzinfo : option Z
}.

(** A [pytz] zone: for a naive datetime, the UTC offset in minutes that
    the zone's table gives to that wall-clock time; and, for the first and
    the last day of the datetime range, where the arithmetic of some
    releases overflows, the error the installed release raises, if any. *)
Record timezone : Type := mkTimezone {
  zone : string;
  utcoffset : datetime -> Z;
  range_end : datetime -> option exn
}.

(** The collaborators the program calls but does not define. *)
Record Env : Type := mkEnv {
  (* Credentials.from_authorized_user_file, applied to the file's contents *)
  from_authorized_user_file : string -> list string -> result Credentials;
  (* creds.refresh(Request()): the refreshed credential, or the failure *)
  refresh_request : Credentials -> result Credentials;
  (* InstalledAppFlow.from_client_secrets_file('credentials.json', SCOPES) *)
  from_client_secrets_file : string -> list string -> result unit;
  (* flow.run_local_server(port=0): what it yields *)
  run_local_server : result Credentials;
  to_json : Credentials -> string;
  (* build('calendar', 'v3', credentials=creds) *)
  build : Credentials -> result Session;
  pytz_timezone : string -> timezone;
  (* flow.run_local_server(port=0): the lines it prints while it runs; by
     default the prompt with the authorization URL *)
  consent_prompt : list (list piece);
  (* datetime.fromisoformat on a string that is not of the form
     YYYY-MM-DD: which other forms are accepted depends on the release *)
  fromisoformat_other : string -> result datetime;
  (* strftime('%Y') for a year below 1000: the C library of the platform
     pads it to four digits or leaves it as it is *)
  short_year : Z -> string;
  (* the text of the FutureWarning DataFrame.append issues, in the releases
     of pandas that deprecate the method *)
  append_warning : option string
}.

Definition read_token : M (option string) := fun st => (Ok (token_json st), st).

Definition write_token (content : string) : M unit :=
  fun st => (Ok tt, mkState (Some content) (trace st)).

Definition refresh (env : Env) (c : Credentials) : M Credentials :=
  emit Refresh ;;; lift (refresh_request env c).

(** The lines a library prints on its own. *)
Fixpoint print_lines (lines : list (list piece)) : M unit :=
  match lines with
  | [] => ret tt
  | line :: lines' => print line ;;; print_lines lines'
  end.

Definition interactive_flow (env : Env) : M Credentials :=
  lift (from_client_secrets_file env "credentials.json" SCOPES) ;;;
  emit Consent ;;;
  print_lines (consent_prompt env) ;;;
  lift (run_local_server env).

(** The body of [if not creds or not creds.valid:]. *)
Definition renew (env : Env) (creds : option Credentials) : M Credentials :=
  creds' <- match creds with
            | Some c =>
                if expired c && truthy_attr (refresh_token c)
                then refresh env c
                else interactive_flow env
            | None => interactive_flow env
            end ;;
  write_token (to_json env creds') ;;;
  ret creds'.

Definition get_calendar_service (env : Env) (verbosity : bool) : M Session :=
  file <- read_token ;;
  creds <- match file with
           | Some content =>
               c <- lift (from_authorized_user_file env content SCOPES) ;;
               ret (Some c)
           | None => ret None
           end ;;
  creds <- match creds with
           | Some c => if valid c then ret c else renew env creds
           | None => renew env creds
           end ;;
  service <- lift (build env creds) ;;
  when verbosity (print [Lit "Authenticated Google Calendar API service."]) ;;;
  ret service.

(* ================================================================== *)
(** * Event Fetcher *)
(* ================================================================== *)

(** ** The calendar day *)

Definition digit (c : ascii) : option Z :=
  let n := Z.of_nat (nat_of_ascii c) in
  if (48 <=? n)%Z && (n <=? 57)%Z then Some (n - 48)%Z else None.

Definition number (ds : list ascii) : option Z :=
  fold_left (fun acc c =>
               match acc, digit c with
               | Some n, Some d => Some (10 * n + d)%Z
               | _, _ => None
               end) ds (Some 0%Z).

Definition is_leap (y : Z) : bool :=
  ((y mod 4 =? 0) && negb (y mod 100 =? 0) || (y mod 400 =? 0))%Z.

Definition days_in_month (y m : Z) : Z :=
  if (m =? 2)%Z then (if is_leap y then 29 else 28)%Z
  else if (m =? 4)%Z || (m =? 6)%Z || (m =? 9)%Z || (m =? 11)%Z then 30%Z
  else 31%Z.

(** The calendar-day form [YYYY-MM-DD] of the docstring: four, two and two
    decimal digits around two hyphens. *)
Definition parse_calendar_day (s : string) : option (Z * Z * Z) :=
  match list_ascii_of_string s with
  | [y1; y2; y3; y4; s1; m1; m2; s2; d1; d2] =>
      match number [y1; y2; y3; y4], number [m1; m2], number [d1; d2] with
      | Some y, Some m, Some d =>
          if Ascii.eqb s1 "-" && Ascii.eqb s2 "-" then Some (y, m, d) else None
      | _, _, _ => None
      end
  | _ => None
  end.

(** [datetime(year, month, day)]: midnight of the day, if the day exists. *)
Definition midnight (y m d : Z) : result datetime :=
  if negb ((1 <=? y) && (y <=? 9999))%Z
  then Raise (ValueError "year is out of range")
  else if negb ((1 <=? m) && (m <=? 12))%Z
  then Raise (ValueError "month must be in 1..12")
  else if negb ((1 <=? d) && (d <=? days_in_month y m))%Z
  then Raise (ValueError "day is out of range for month")
  else Ok (mkDatetime y m d 0 0 0 0 None).

(** [datetime.fromisoformat(date_string)].  A string of the calendar-day
    form is read by every release as midnight of that day, or refused with
    a [ValueError] when there is no such day.  Any other string (a date
    with a time of day, the compact and the week forms of later releases,
    or no date at all) is left to the installed release. *)
Definition fromisoformat (env : Env) (date_string : string) : result datetime :=
  match parse_calendar_day date_string with
  | Some (y, m, d) => midnight y m d
  | None => fromisoformat_other env date_string
  end.

(** 0001-01-01 and 9999-12-31: the days within a day of the ends of the
    datetime range. *)
Definition first_or_last_day (dt : datetime) : bool :=
  ((year dt =? 1) && (month dt =? 1) && (day dt =? 1)
   || (year dt =? 9999) && (month dt =? 12) && (day dt =? 31))%Z.

(** [tz.localize(dt)] of pytz, with its default [is_dst=False]: it refuses
    an aware datetime and otherwise returns the same wall-clock fields
    with the offset the zone gives them attached.  Its date arithmetic
    stays within a day of [dt], so that it can only overflow on the first
    and on the last day of the range. *)
Definition localize (tz : timezone) (dt : datetime) : result datetime :=
  match tzinfo dt with
  | Some _ => Raise (ValueError "Not naive datetime (tzinfo is already set)")
  | None =>
      match (if first_or_last_day dt then range_end tz dt else None) with
      | Some e => Raise e
      | None =>
          Ok (mkDatetime (year dt) (month dt) (day dt)
                         (hour dt) (minute dt) (second dt) (microsecond dt)
                         (Some (utcoffset tz dt)))
      end
  end.

Definition digit_char (d : Z) : ascii :=
  ascii_of_nat (Z.to_nat (48 + d mod 10)).

Definition pad2 (n : Z) : string :=
  String (digit_char (n / 10)) (String (digit_char n) "").

Definition pad4 (n : Z) : string :=
  String (digit_char (n / 1000)) (String (digit_char (n / 100))
    (String (digit_char (n / 10)) (String (digit_char n) ""))).

(** [%Y]: the four digits of a year from 1000 on; a year below 1000 as the
    platform writes it. *)
Definition year_text (env : Env) (y : Z) : string :=
  if ((1000 <=? y) && (y <=? 9999))%Z then pad4 y else short_year env y.

(** [dt.strftime(fmt)]: the directives [%Y], [%m], [%d] and [%%]; every
    other character of the format is copied.  [%m] and [%d] are in two
    digits. *)
Fixpoint strftime (env : Env) (dt : datetime) (fmt : string) : string :=
  match fmt with
  | EmptyString => EmptyString
  | String c rest =>
      if Ascii.eqb c "%" then
        match rest with
        | String d rest' =>
            if Ascii.eqb d "Y"
            then year_text env (year dt) ++ strftime env dt rest'
            else if Ascii.eqb d "m" then pad2 (month dt) ++ strftime env dt rest'
            else if Ascii.eqb d "d" then pad2 (day dt) ++ strftime env dt rest'
            else if Ascii.eqb d "%" then String "%" (strftime env dt rest')
            else String c (strftime env dt rest)
        | EmptyString => String c EmptyString
        end
      else String c (strftime env dt rest)
  end.

(** ** The report *)

(** A row of the DataFrame, with the columns the program names
    'Calendar Name', 'Event Summary', 'Event Start' and 'Event End'. *)
Record EventRow : Type := mkEventRow {
  Calendar_Name : value;
  Event_Summary : value;
  Event_Start : value;
  Event_End : value
}.

Definition DataFrame : Type := list EventRow.

(** [df.empty] *)
Definition empty (df : DataFrame) : bool :=
  match df with
  | [] => true
  | _ :: _ => false
  end.

(** The frame [df.append(event_data, ignore_index=True)] returns: a new
    frame with the row added after the existing ones. *)
Definition append (df : DataFrame) (row : EventRow) : DataFrame := df ++ [row].

(** The call [df.append(event_data, ignore_index=True)]: the releases of
    pandas that deprecate the method issue their FutureWarning first.
    Issuing is what is recorded; which of the warnings issued the filters
    of the interpreter display is not modelled. *)
Definition df_append (env : Env) (df : DataFrame) (row : EventRow)
  : M DataFrame :=
  match append_warning env with
  | Some msg => emit (FutureWarning msg)
  | None => ret tt
  end ;;;
  ret (append df row).

(** [event[key].get('dateTime', event[key].get('date'))]: the default
    argument is evaluated before the outer call. *)
Definition event_time (event : value) (key : string) : result value :=
  outer <~ py_getitem event key ;;
  inner <~ py_getitem event key ;;
  date <~ py_get inner "date" VNone ;;
  py_get outer "dateTime" date.

(** The dict literal [event_data] of the inner loop. *)
Definition event_data (calendar_name event : value) : result EventRow :=
  summary <~ py_get event "summary" (VStr "Unknown") ;;
  start <~ event_time event "start" ;;
  end_ <~ event_time event "end" ;;
  Ok (mkEventRow calendar_name summary start end_).

(** The body of [for calendar in calendar_list:]. *)
Definition calendar_events (env : Env) (svc : Session)
    (time_min time_max : string)
    (verbosity : bool) (calendar : value) (df : DataFrame) : M DataFrame :=
  calendar_id <- lift (py_getitem calendar "id") ;;
  calendar_name <- lift (py_getitem calendar "summary") ;;
  events_result <- execute svc (Events_list calendar_id time_min time_max
                                            true "startTime") ;;
  events <- lift (py_get events_result "items" (VList [])) ;;
  when (negb (truthy events) && verbosity)
       (print [Lit "No events found for calendar: "; Interp calendar_name]) ;;;
  events <- lift (py_iter events) ;;
  for_each events df (fun event df =>
    event_data <- lift (event_data calendar_name event) ;;
    df_append env df event_data).

Definition fetch_events (env : Env) (service : option Session) (date : string)
    (verbosity : bool) : M DataFrame :=
  svc <- assert_not_none service "Service must be initialized." ;;
  let tz := pytz_timezone env "Asia/Jerusalem" in
  dt <- lift (fromisoformat env date) ;;
  dt <- lift (localize tz dt) ;;
  let time_min := strftime env dt "%Y-%m-%dT00:00:00+02:00" in
  let time_max := strftime env dt "%Y-%m-%dT23:59:59+02:00" in
  when verbosity
       (print [Lit "Fetching events for "; Interp (VStr date); Lit "."]) ;;;
  response <- execute svc CalendarList_list ;;
  calendar_list <- lift (py_get response "items" (VList [])) ;;
  let df : DataFrame := [] in
  calendar_list <- lift (py_iter calendar_list) ;;
  df <- for_each calendar_list df
                 (calendar_events env svc time_min time_max verbosity) ;;
  when (empty df) (warn "No events found for the specified date.") ;;;
  ret df.

(* ================================================================== *)
(** * Vocabulary of the statements *)
(* ================================================================== *)

(** The elements a response carries under ['items'], as the two loops of
    [fetch_events] read them: [response.get('items', [])], then iteration. *)
Definition items_of (response : value) : result (list value) :=
  items <~ py_get response "items" (VList []) ;;
  py_iter items.

(** The rows of one calendar: every listed event projected in turn. *)
Fixpoint project_all (calendar_name : value) (events : list value)
  : result (list EventRow) :=
  match events with
  | [] => Ok []
  | event :: events' =>
      row <~ event_data calendar_name event ;;
      rows <~ project_all calendar_name events' ;;
      Ok (row :: rows)
  end.

(** The day [fetch_events] works with: the parsed and localized argument.
    A date input is valid when both steps succeed. *)
Definition calendar_day (env : Env) (date : string) : result datetime :=
  dt <~ fromisoformat env date ;;
  localize (pytz_timezone env "Asia/Jerusalem") dt.

Definition valid_date (env : Env) (date : string) : Prop :=
  exists dt, calendar_day env date = Ok dt.

(** The request listing the events of one calendar in a time window. *)
Definition list_request (time_min time_max : string) (calendar_id : value)
  : request :=
  Events_list calendar_id time_min time_max true "startTime".

(** Order of two timestamps written by the service in one notation (two
    RFC 3339 date-times with the same UTC offset, or two dates): the order
    of their text. *)
Definition timestamp_le (a b : value) : bool :=
  match a, b with
  | VStr s, VStr t => String.leb s t
  | _, _ => false
  end.

(** ** The projection in the specification's words

    "start/end use the date-time value if present, else the whole-day date
    value; title defaults to a fixed placeholder string when absent." *)
Definition placeholder_title : value := VStr "Unknown".

Definition spec_time (t : list (string * value)) : value :=
  match lookup "dateTime" t with
  | Some date_time => date_time
  | None => match lookup "date" t with
            | Some whole_day => whole_day
            | None => VNone
            end
  end.

Definition spec_title (event : list (string * value)) : value :=
  match lookup "summary" event with
  | Some title => title
  | None => placeholder_title
  end.

Definition spec_row (calendar_name : value)
    (event start end_ : list (string * value)) : EventRow :=
  mkEventRow calendar_name (spec_title event) (spec_time start) (spec_time end_).

(** [row] is the specification's projection of the service's [event]. *)
Definition projects (calendar_name event : value) (row : EventRow) : Prop :=
  exists e s t,
    event = VDict e /\
    lookup "start" e = Some (VDict s) /\
    lookup "end" e = Some (VDict t) /\
    row = spec_row calendar_name e s t.

(** The service listed [events] for [calendar], whose name is [name]. *)
Definition lists_events (svc : Session) (time_min time_max : string)
    (calendar name : value) (events : list value) : Prop :=
  py_getitem calendar "summary" = Ok name /\
  exists calendar_id history events_result,
    py_getitem calendar "id" = Ok calendar_id /\
    api svc history (list_request time_min time_max calendar_id)
      = Ok events_result /\
    items_of events_result = Ok events.

(** The progress line of [get_calendar_service]. *)
Definition authenticated_line : effect :=
  Stdout [Lit "Authenticated Google Calendar API service."].

(** The effects [fetch_events] produces besides its requests. *)
Definition fetching_line (date : string) : effect :=
  Stdout [Lit "Fetching events for "; Interp (VStr date); Lit "."].

Definition no_events_line (calendar_name : value) : effect :=
  Stdout [Lit "No events found for calendar: "; Interp calendar_name].

Definition no_events_warning : effect :=
  Warn "No events found for the specified date.".


(** The bounds of the window of the day of [date], as the two [strftime]
    patterns write them. *)
Definition time_min_of (env : Env) (date : string) : string :=
  match calendar_day env date with
  | Ok dt => strftime env dt "%Y-%m-%dT00:00:00+02:00"
  | Raise _ => ""
  end.

Definition time_max_of (env : Env) (date : string) : string :=
  match calendar_day env date with
  | Ok dt => strftime env dt "%Y-%m-%dT23:59:59+02:00"
  | Raise _ => ""
  end.

(** What the progress lines show of the service's answers: of an inserted
    event, an object (the link is looked up with [.get]); of a created
    calendar, an object with a title and an id. *)
Definition shows_link (reference : value) : Prop :=
  exists fields, reference = VDict fields.

Definition shows_title_and_id (created : value) : Prop :=
  exists fields title id,
    created = VDict fields /\
    lookup "summary" fields = Some title /\
    lookup "id" fields = Some id.


(** The day exists: the range checks of [midnight]. *)
Definition existing_day (y m d : Z) : bool :=
  ((1 <=? y) && (y <=? 9999) && (1 <=? m) && (m <=? 12)
   && (1 <=? d) && (d <=? days_in_month y m))%Z.

(** The rows projected before the first event that cannot be. *)
Fixpoint projected (calendar_name : value) (events : list value)
  : list EventRow :=
  match events with
  | [] => []
  | event :: events' =>
      match event_data calendar_name event with
      | Ok row => row :: projected calendar_name events'
      | Raise _ => []
      end
  end.

(** What [k] calls of [DataFrame.append] add to the trace. *)
Definition appending (env : Env) (k : nat) : list effect :=
  match append_warning env with
  | Some msg => repeat (FutureWarning msg) k
  | None => []
  end.

Definition appended (env : Env) (k : nat) (st : state) : state :=
  mkState (token_json st) (trace st ++ appending env k).

(** The rows a calendar contributes: the service listed some events for
    it, and the rows are their projections, in order. *)
Definition calendar_rows (svc : Session) (time_min time_max : string)
    (calendar : value) (rows : list EventRow) : Prop :=
  exists name events,
    lists_events svc time_min time_max calendar name events /\
    project_all name events = Ok rows.

(** Two states a service cannot tell apart. *)
Definition same_view (st1 st2 : state) : Prop :=
  token_json st1 = token_json st2 /\
  requests (trace st1) = requests (trace st2).

(** An event as the service documents it: an object with a start and an
    end, each an object too. *)
Definition well_formed_event (event : value) : Prop :=
  exists e s t,
    event = VDict e /\
    lookup "start" e = Some (VDict s) /\
    lookup "end" e = Some (VDict t).

(** A calendar entry with an id and a name, for which the service answers
    every listing over the window with well-formed events. *)
Definition served_calendar (svc : Session) (time_min time_max : string)
    (calendar : value) : Prop :=
  exists id name,
    py_getitem calendar "id" = Ok id /\
    py_getitem calendar "summary" = Ok name /\
    forall history, exists events_result events,
      api svc history (list_request time_min time_max id) = Ok events_result /\
      items_of events_result = Ok events /\
      Forall well_formed_event events.

(** Every event the service lists in the window has its start and end
    related by [le]. *)
Definition service_orders (svc : Session) (time_min time_max : string)
    (le : value -> value -> Prop) : Prop :=
  forall history calendar_id events_result events event s t,
    api svc history (list_request time_min time_max calendar_id)
      = Ok events_result ->
    items_of events_result = Ok events ->
    In event events ->
    event_time event "start" = Ok s ->
    event_time event "end" = Ok t ->
    le s t.

(* ================================================================== *)
(** * Fixtures: concrete services and environments *)
(* ================================================================== *)

Definition initial : state := mkState None [].

Definition demo_event (title start end_ : string) : value :=
  VDict [ ("summary", VStr title);
          ("start", VDict [("dateTime", VStr start)]);
          ("end", VDict [("dateTime", VStr end_)]) ].

Definition work_calendar : value :=
  VDict [("id", VStr "work@example.com"); ("summary", VStr "Work")].

Definition personal_calendar : value :=
  VDict [("id", VStr "me@example.com"); ("summary", VStr "Personal")].

Definition demo_event_ref : value :=
  VDict [ ("id", VStr "evt1");
          ("htmlLink", VStr "https://calendar.example/event?eid=evt1") ].

Definition demo_calendar_ref (summary : value) : value :=
  VDict [ ("id", VStr "cal1"); ("summary", summary) ].

(** Two calendars; "Work" holds one event, "Personal" none. *)
Definition demo_service : Session :=
  mkSession (fun _ r =>
    match r with
    | CalendarList_list =>
        Ok (VDict [("items", VList [work_calendar; personal_calendar])])
    | Events_list (VStr "work@example.com") _ _ _ _ =>
        Ok (VDict [("items",
                    VList [demo_event "Standup" "2023-09-13T09:00:00+02:00"
                                                "2023-09-13T10:00:00+02:00"])])
    | Events_list _ _ _ _ _ => Ok (VDict [])
    | Events_insert _ _ => Ok demo_event_ref
    | Calendars_insert (VDict body) =>
        Ok (demo_calendar_ref
              (match lookup "summary" body with Some s => s | None => VNone end))
    | Calendars_insert _ => Raise (HttpError 400 "Bad Request")
    end).


(** A service that stores what [add_event] is allowed to send: an event
    that ends before it starts. *)
Definition backwards_service : Session :=
  mkSession (fun _ r =>
    match r with
    | CalendarList_list => Ok (VDict [("items", VList [work_calendar])])
    | Events_list _ _ _ _ _ =>
        Ok (VDict [("items",
                    VList [demo_event "Rewind" "2023-09-13T10:00:00+02:00"
                                               "2023-09-13T09:00:00+02:00"])])
    | _ => Raise (HttpError 403 "Forbidden")
    end).

(** One calendar, whose listing is the same well-ordered event whatever
    is asked. *)
Definition standup_service : Session :=
  mkSession (fun _ r =>
    match r with
    | CalendarList_list => Ok (VDict [("items", VList [work_calendar])])
    | Events_list _ _ _ _ _ =>
        Ok (VDict [("items",
                    VList [demo_event "Standup" "2023-09-13T09:00:00+02:00"
                                                "2023-09-13T10:00:00+02:00"])])
    | _ => Raise (HttpError 403 "Forbidden")
    end).

(** A service whose answer to a calendar creation carries no summary. *)
Definition terse_service : Session :=
  mkSession (fun _ r =>
    match r with
    | Calendars_insert _ => Ok (VDict [("id", VStr "cal1")])
    | _ => Raise (HttpError 403 "Forbidden")
    end).

(** Asia/Jerusalem with a summer offset of three hours. *)
Definition jerusalem : timezone :=
  mkTimezone "Asia/Jerusalem"
             (fun dt => if ((4 <=? month dt) && (month dt <=? 10))%Z
                        then 180%Z else 120%Z)
             (fun dt => if (year dt =? 1)%Z
                        then Some (OverflowError "date value out of range")
                        else None).

(** The prompt of the consent flow. *)
Definition demo_prompt : list (list piece) :=
  [[ Lit "Please visit this URL to authorize this application: ";
     Interp (VStr "https://accounts.example/o/oauth2/auth") ]].

(** A release of [fromisoformat] that, besides calendar days, accepts a
    calendar day followed by any separator and [HH:MM:SS]. *)
Definition fromisoformat_seconds (s : string) : result datetime :=
  match list_ascii_of_string s with
  | [y1; y2; y3; y4; s1; m1; m2; s2; d1; d2; _;
     h1; h2; c1; n1; n2; c2; e1; e2] =>
      match parse_calendar_day
              (string_of_list_ascii [y1; y2; y3; y4; s1; m1; m2; s2; d1; d2]),
            number [h1; h2], number [n1; n2], number [e1; e2] with
      | Some (y, m, d), Some h, Some n, Some e =>
          if Ascii.eqb c1 ":" && Ascii.eqb c2 ":"
             && (h <? 24)%Z && (n <? 60)%Z && (e <? 60)%Z
          then dt <~ midnight y m d ;;
               Ok (mkDatetime (year dt) (month dt) (day dt) h n e 0 None)
          else Raise (ValueError ("Invalid isoformat string: '" ++ s ++ "'"))
      | _, _, _, _ =>
          Raise (ValueError ("Invalid isoformat string: '" ++ s ++ "'"))
      end
  | _ => Raise (ValueError ("Invalid isoformat string: '" ++ s ++ "'"))
  end.

(** [%Y] for a year below 1000 as the C library of Linux writes it: the
    digits of the year, without padding. *)
Definition unpadded_year (y : Z) : string :=
  if (y <? 10)%Z then String (digit_char y) ""
  else if (y <? 100)%Z then pad2 y
  else String (digit_char (y / 100)) (pad2 y).

Definition stale_credentials : Credentials :=
  mkCredentials (Some "ya29.old") (Some "1//refresh") true SCOPES.

Definition fresh_credentials : Credentials :=
  mkCredentials (Some "ya29.new") (Some "1//refresh") false SCOPES.

(** The token endpoint cannot be reached; consent would succeed if asked. *)
Definition offline_env : Env :=
  mkEnv (fun _ _ => Ok stale_credentials)
        (fun _ => Raise (TransportError "Connection refused"))
        (fun _ _ => Ok tt)
        (Ok fresh_credentials)
        (fun _ => "{token}")
        (fun _ => Ok demo_service)
        (fun _ => jerusalem)
        demo_prompt
        fromisoformat_seconds
        unpadded_year
        None.

(** The same collaborators with a release of pandas that deprecates
    [DataFrame.append]. *)
Definition deprecating_env : Env :=
  mkEnv (fun _ _ => Ok stale_credentials)
        (fun _ => Raise (TransportError "Connection refused"))
        (fun _ _ => Ok tt)
        (Ok fresh_credentials)
        (fun _ => "{token}")
        (fun _ => Ok demo_service)
        (fun _ => jerusalem)
        demo_prompt
        fromisoformat_seconds
        unpadded_year
        (Some "The frame.append method is deprecated and will be removed from pandas in a future version. Use pandas.concat instead.").

Definition stale_token_state : state := mkState (Some "{stale}") [].

(** An environment in which every collaborator answers. *)
Definition demo_env : Env :=
  mkEnv (fun _ _ => Ok fresh_credentials)
        (fun _ => Ok fresh_credentials)
        (fun _ _ => Ok tt)
        (Ok fresh_credentials)
        (fun _ => "{token}")
        (fun _ => Ok demo_service)
        (fun _ => jerusalem)
        demo_prompt
        fromisoformat_seconds
        unpadded_year
        None.

Definition standup_row : EventRow :=
  mkEventRow (VStr "Work") (VStr "Standup")
             (VStr "2023-09-13T09:00:00+02:00")
             (VStr "2023-09-13T10:00:00+02:00").

Definition rewind_row : EventRow :=
  mkEventRow (VStr "Work") (VStr "Rewind")
             (VStr "2023-09-13T10:00:00+02:00")
             (VStr "2023-09-13T09:00:00+02:00").

(* ================================================================== *)
(** * The entry point *)
(* ================================================================== *)

(** The frame as the object handed to [print]: one record per row, keyed
    by the names of the columns. *)
Definition row_value (row : EventRow) : value :=
  VDict [ ("Calendar Name", Calendar_Name row);
          ("Event Summary", Event_Summary row);
          ("Event Start", Event_Start row);
          ("Event End", Event_End row) ].

Definition frame_value (df : DataFrame) : value := VList (map row_value df).

(** The block under [if __name__ == '__main__':]. *)
Definition main (env : Env) : M unit :=
  service <- get_calendar_service env true ;;
  df <- fetch_events env (Some service) "2023-09-13" true ;;
  print [Interp (frame_value df)].

(* ================================================================== *)
(** * Vocabulary of the further statements *)
(* ================================================================== *)

Definition is_stdout (e : effect) : bool :=
  match e with
  | Stdout _ => true
  | _ => false
  end.

(** A trace without the lines printed. *)
Definition silent (t : list effect) : list effect :=
  filter (fun e => negb (is_stdout e)) t.

(** The state once the consent flow has been run: the flow has taken
    place and has printed its own lines. *)
Definition prompted (env : Env) (st : state) : state :=
  mkState (token_json st)
          (trace st ++ Consent :: map Stdout (consent_prompt env)).

(** [creds and creds.expired and creds.refresh_token] *)
Definition refreshable (creds : option Credentials) : bool :=
  match creds with
  | Some c => expired c && truthy_attr (refresh_token c)
  | None => false
  end.

(** What the file holds for the program: nothing, or a credential. *)
Definition stored_credentials (env : Env) (st : state)
  : result (option Credentials) :=
  match token_json st with
  | Some content =>
      c <~ from_authorized_user_file env content SCOPES ;; Ok (Some c)
  | None => Ok None
  end.

(** What a renewal leaves behind, from the state [st] it started in: at
    most one step [core], a refresh or a consent flow, and a token file
    that is either untouched or holds the credential just obtained. *)
Definition renewal_step (env : Env) (st st' : state) (core : list effect)
  : Prop :=
  trace st' = trace st ++ core /\
  (core = [] \/ core = [Refresh]
   \/ core = Consent :: map Stdout (consent_prompt env)) /\
  (token_json st' = token_json st
   \/ (core <> [] /\ exists c, token_json st' = Some (to_json env c))).

(** Two states that differ at most in the lines printed. *)
Definition same_effects (st1 st2 : state) : Prop :=
  token_json st1 = token_json st2 /\
  silent (trace st1) = silent (trace st2).

(** The effects a call of [fetch_events] may have. *)
Definition fetch_effect (env : Env) (verbosity : bool) (e : effect) : Prop :=
  match e with
  | Net CalendarList_list => True
  | Net (Events_list _ _ _ _ _) => True
  | Stdout _ => verbosity = true
  | Warn msg => msg = "No events found for the specified date."
  | FutureWarning msg => append_warning env = Some msg
  | _ => False
  end.

(** The warnings of the libraries in a trace. *)
Definition is_future_warning (e : effect) : bool :=
  match e with
  | FutureWarning _ => true
  | _ => false
  end.

Definition library_warnings (t : list effect) : list effect :=
  filter is_future_warning t.

(** The insertion request of [add_event] and the creation request of
    [create_calendar]. *)
Definition insertion (calendar_id summary start_time end_time
                      description location : string) : request :=
  Events_insert calendar_id
    (event_body summary start_time end_time description location).

Definition creation (summary : string) : request :=
  Calendars_insert (calendar_body summary).

Definition event_details_given (calendar_id summary start_time end_time : string)
  : bool :=
  truthy (VStr calendar_id) && truthy (VStr summary)
  && truthy (VStr start_time) && truthy (VStr end_time).

(** ** A test double that stores what is inserted

    The double enumerates a fixed list of calendars, answers an insertion
    with the inserted body, and lists for a calendar the bodies inserted
    into it so far, oldest first. *)
Definition same_calendar (calendar_id : value) (id : string) : bool :=
  match calendar_id with
  | VStr s => String.eqb s id
  | _ => false
  end.

Fixpoint inserted_into (calendar_id : value) (history : list request)
  : list value :=
  match history with
  | [] => []
  | Events_insert id body :: history' =>
      if same_calendar calendar_id id
      then body :: inserted_into calendar_id history'
      else inserted_into calendar_id history'
  | _ :: history' => inserted_into calendar_id history'
  end.

Definition store_service (calendars : list value) : Session :=
  mkSession (fun history r =>
    match r with
    | CalendarList_list => Ok (VDict [("items", VList calendars)])
    | Events_list id _ _ _ _ =>
        Ok (VDict [("items", VList (inserted_into id history))])
    | Events_insert _ body => Ok body
    | Calendars_insert body => Ok body
    end).

Definition calendar_entry (id name : string) : value :=
  VDict [("id", VStr id); ("summary", VStr name)].

(** Every body inserted so far is an event with a start and an end. *)
Definition stored_events_well_formed (history : list request) : Prop :=
  forall id body, In (Events_insert id body) history -> well_formed_event body.

(** ** Further fixtures *)

(** An environment that reads its own token file back: the file written
    after a renewal holds the fresh credential, an older one the stale
    credential. *)
Definition online_env : Env :=
  mkEnv (fun content _ =>
           if String.eqb content "{token}"
           then Ok fresh_credentials else Ok stale_credentials)
        (fun _ => Ok fresh_credentials)
        (fun _ _ => Ok tt)
        (Ok fresh_credentials)
        (fun _ => "{token}")
        (fun _ => Ok demo_service)
        (fun _ => jerusalem)
        demo_prompt
        fromisoformat_seconds
        unpadded_year
        None.

(** An environment without client configuration. *)
Definition unconfigured_env : Env :=
  mkEnv (fun _ _ => Raise (ValueError "Expecting value"))
        (fun _ => Ok fresh_credentials)
        (fun _ _ => Raise (FileNotFoundError "credentials.json"))
        (Ok fresh_credentials)
        (fun _ => "{token}")
        (fun _ => Ok demo_service)
        (fun _ => jerusalem)
        demo_prompt
        fromisoformat_seconds
        unpadded_year
        None.

(** An environment in which the user declines consent. *)
Definition declined_env : Env :=
  mkEnv (fun _ _ => Ok stale_credentials)
        (fun _ => Ok fresh_credentials)
        (fun _ _ => Ok tt)
        (Raise (LibraryError "AccessDeniedError" "access_denied"))
        (fun _ => "{token}")
        (fun _ => Ok demo_service)
        (fun _ => jerusalem)
        demo_prompt
        fromisoformat_seconds
        unpadded_year
        None.

Definition fresh_token_state : state := mkState (Some "{token}") [].

(** A service that refuses everything. *)
Definition failing_service : Session :=
  mkSession (fun _ _ => Raise (HttpError 500 "Backend Error")).

(** A service that enumerates two calendars and fails on the second. *)
Definition flaky_service : Session :=
  mkSession (fun _ r =>
    match r with
    | CalendarList_list =>
        Ok (VDict [("items", VList [work_calendar; personal_calendar])])
    | Events_list (VStr "work@example.com") _ _ _ _ =>
        Ok (VDict [("items",
                    VList [demo_event "Standup" "2023-09-13T09:00:00+02:00"
                                                "2023-09-13T10:00:00+02:00"])])
    | _ => Raise (HttpError 500 "Backend Error")
    end).

(** A service that lists, after a regular event, one without a start. *)
Definition undated_service : Session :=
  mkSession (fun _ r =>
    match r with
    | CalendarList_list => Ok (VDict [("items", VList [work_calendar])])
    | Events_list _ _ _ _ _ =>
        Ok (VDict [("items",
                    VList [demo_event "Standup" "2023-09-13T09:00:00+02:00"
                                                "2023-09-13T10:00:00+02:00";
                           VDict [("summary", VStr "Cancelled");
                                  ("status", VStr "cancelled")]])])
    | _ => Raise (HttpError 403 "Forbidden")
    end).

(* ================================================================== *)
(** * Basic facts about traces and the monad *)
(* ================================================================== *)

Lemma requests_app (t1 t2 : list effect) :
  requests (t1 ++ t2) = requests t1 ++ requests t2.
Proof.
  induction t1 as [| e t1 IH]; simpl; [reflexivity |].
  destruct e; simpl; rewrite IH; reflexivity.
Qed.

Lemma requests_log_net (r : request) (st : state) :
  requests (trace (log (Net r) st)) = requests (trace st) ++ [r].
Proof. unfold log; simpl. rewrite requests_app. reflexivity. Qed.

Lemma requests_log_stdout (line : list piece) (st : state) :
  requests (trace (log (Stdout line) st)) = requests (trace st).
Proof. unfold log; simpl. rewrite requests_app. simpl. apply app_nil_r. Qed.

Lemma requests_log_warn (msg : string) (st : state) :
  requests (trace (log (Warn msg) st)) = requests (trace st).
Proof. unfold log; simpl. rewrite requests_app. simpl. apply app_nil_r. Qed.

Lemma truthy_str_empty : truthy (VStr "") = false.
Proof. reflexivity. Qed.

Ltac unfold_monad :=
  unfold assert_, assert_not_none, when, print, warn,
         read_token, write_token in *;
  unfold emit, execute, lift in *;
  unfold bind, ret, raise in *;
  cbv beta iota zeta in *.

(* ================================================================== *)
(** * Event Creator and Calendar Creator: validation *)
(* ================================================================== *)

(** C1. Whenever [calendar_id], the title, [start] or [end] is empty,
    [add_event] fails with the [AssertionError] of one of its two local
    checks and leaves the state as it found it: no request was executed
    against the service.  With a session at hand the failing check is the
    one on the event details. *)
Theorem add_event_empty_field_fails_locally
    (service : option Session)
    (calendar_id summary start_time end_time description location : string)
    (verbosity : bool) (st : state) :
  calendar_id = "" \/ summary = "" \/ start_time = "" \/ end_time = "" ->
  exists msg,
    add_event service calendar_id summary start_time end_time
              description location verbosity st
      = (Raise (AssertionError msg), st)
    /\ (service <> None -> msg = "Essential event details must be provided.").
Proof.
  intros Hempty.
  assert (Hcond : truthy (VStr calendar_id) && truthy (VStr summary)
                  && truthy (VStr start_time) && truthy (VStr end_time) = false).
  { destruct Hempty as [-> | [-> | [-> | ->]]];
      rewrite truthy_str_empty;
      repeat rewrite ?andb_false_r, ?andb_false_l; reflexivity. }
  destruct service as [svc |].
  - exists "Essential event details must be provided.".
    unfold add_event. unfold_monad. rewrite Hcond. auto.
  - exists "Service must be initialized.".
    unfold add_event. unfold_monad. repeat split. intros H; now elim H.
Qed.

Lemma add_event_empty_field_fails_locally_witness :
  ("primary" = "" \/ "" = "" \/ "2023-09-13T10:00:00" = ""
   \/ "2023-09-13T11:00:00" = "") /\
  exists msg,
    add_event (Some demo_service) "primary" "" "2023-09-13T10:00:00"
              "2023-09-13T11:00:00" "" "" false initial
      = (Raise (AssertionError msg), initial)
    /\ (Some demo_service <> None ->
        msg = "Essential event details must be provided.").
Proof.
  split.
  - right; left; reflexivity.
  - apply (add_event_empty_field_fails_locally (Some demo_service)
             "primary" "" "2023-09-13T10:00:00" "2023-09-13T11:00:00"
             "" "" false initial).
    right; left; reflexivity.
Defined.

(** C8. [create_calendar] with an empty title fails with the
    [AssertionError] of a local check and leaves the state untouched: no
    request reaches the service. *)
Theorem create_calendar_empty_title_fails_locally
    (service : option Session) (verbosity : bool) (st : state) :
  exists msg,
    create_calendar service "" verbosity st = (Raise (AssertionError msg), st)
    /\ (service <> None -> msg = "Calendar summary must be provided.").
Proof.
  destruct service as [svc |].
  - exists "Calendar summary must be provided.".
    unfold create_calendar. unfold_monad. simpl. auto.
  - exists "Service must be initialized.".
    unfold create_calendar. unfold_monad. split; [reflexivity |].
    intros H; now elim H.
Qed.

(** C10. Called with [None] for the session, each of [fetch_events],
    [add_event] and [create_calendar] fails on its first statement with
    the [AssertionError] "Service must be initialized." and leaves the
    state untouched, so no request has been executed. *)
Theorem none_session_fails_assertion
    (env : Env) (date : string)
    (calendar_id summary start_time end_time description location : string)
    (verbosity : bool) (st : state) :
  fetch_events env None date verbosity st
    = (Raise (AssertionError "Service must be initialized."), st)
  /\ add_event None calendar_id summary start_time end_time
               description location verbosity st
    = (Raise (AssertionError "Service must be initialized."), st)
  /\ create_calendar None summary verbosity st
    = (Raise (AssertionError "Service must be initialized."), st).
Proof. repeat split. Qed.

(* ================================================================== *)
(** * Event Creator: what a successful call returns *)
(* ================================================================== *)

(** C2, as stated, fails: the service answers the insertion with a
    reference carrying a link, and the call evaluates to [None]. *)
Lemma add_event_discards_reference :
  api demo_service []
      (Events_insert "primary"
         (event_body "Meeting" "2023-09-13T10:00:00" "2023-09-13T11:00:00" "" ""))
    = Ok demo_event_ref
  /\ lookup "htmlLink"
            [ ("id", VStr "evt1");
              ("htmlLink", VStr "https://calendar.example/event?eid=evt1") ]
     = Some (VStr "https://calendar.example/event?eid=evt1")
  /\ fst (add_event (Some demo_service) "primary" "Meeting"
                    "2023-09-13T10:00:00" "2023-09-13T11:00:00" "" ""
                    false initial)
     = Ok VNone
  /\ fst (add_event (Some demo_service) "primary" "Meeting"
                    "2023-09-13T10:00:00" "2023-09-13T11:00:00" "" ""
                    false initial)
     <> Ok demo_event_ref.
Proof. repeat split; discriminate. Qed.

(** C2, amended. A call of [add_event] that completes evaluates to [None].
    It had a session and four non-empty fields, executed exactly one
    request, the insertion of the event body, which the service answered
    with a reference; the only use of that reference is the link printed
    when [verbosity] is set. *)
Theorem add_event_success_returns_none
    (service : option Session)
    (calendar_id summary start_time end_time description location : string)
    (verbosity : bool) (st st' : state) (r : value) :
  add_event service calendar_id summary start_time end_time
            description location verbosity st = (Ok r, st') ->
  r = VNone /\
  calendar_id <> "" /\ summary <> "" /\ start_time <> "" /\ end_time <> "" /\
  exists svc reference,
    let insertion :=
      Events_insert calendar_id
        (event_body summary start_time end_time description location) in
    service = Some svc /\
    api svc (requests (trace st)) insertion = Ok reference /\
    requests (trace st') = requests (trace st) ++ [insertion] /\
    token_json st' = token_json st /\
    (if verbosity
     then exists link,
         py_get reference "htmlLink" VNone = Ok link /\
         trace st' = trace st ++ [Net insertion;
                                  Stdout [Lit "Event created: "; Interp link]]
     else trace st' = trace st ++ [Net insertion]).
Proof.
  unfold add_event. intros Hrun.
  destruct service as [svc |]; unfold_monad; [| discriminate].
  destruct (truthy (VStr calendar_id) && truthy (VStr summary)
            && truthy (VStr start_time) && truthy (VStr end_time)) eqn:Hcond;
    [| discriminate].
  apply andb_prop in Hcond as [Hcond He].
  apply andb_prop in Hcond as [Hcond Hs].
  apply andb_prop in Hcond as [Hc Ht].
  assert (Hne : forall s, truthy (VStr s) = true -> s <> "").
  { intros s H ->. discriminate. }
  destruct (api svc (requests (trace st)) _) as [reference | e] eqn:Hapi;
    [| discriminate].
  destruct verbosity.
  - destruct (py_get reference "htmlLink" VNone) as [link | e] eqn:Hlink;
      [| discriminate].
    injection Hrun as <- <-.
    repeat (split; [now auto |]).
    exists svc, reference. cbv zeta.
    repeat (split; [now auto |]).
    split.
    + unfold log; simpl. rewrite <- app_assoc. simpl.
      rewrite !requests_app. simpl. reflexivity.
    + split; [reflexivity |].
      exists link. split; [exact Hlink |].
      unfold log; simpl. rewrite <- app_assoc. reflexivity.
  - injection Hrun as <- <-.
    repeat (split; [now auto |]).
    exists svc, reference. cbv zeta.
    repeat (split; [now auto |]).
    split; [apply requests_log_net |].
    split; reflexivity.
Qed.

Lemma add_event_success_returns_none_witness :
  add_event (Some demo_service) "primary" "Meeting" "2023-09-13T10:00:00"
            "2023-09-13T11:00:00" "" "" true initial
    = (Ok VNone,
       mkState None
         [ Net (Events_insert "primary"
                  (event_body "Meeting" "2023-09-13T10:00:00"
                              "2023-09-13T11:00:00" "" ""));
           Stdout [ Lit "Event created: ";
                    Interp (VStr "https://calendar.example/event?eid=evt1") ] ])
  /\ VNone = VNone
  /\ "primary" <> "" /\ "Meeting" <> "".
Proof.
  split; [reflexivity |].
  pose proof (add_event_success_returns_none
                (Some demo_service) "primary" "Meeting" "2023-09-13T10:00:00"
                "2023-09-13T11:00:00" "" "" true initial _ VNone eq_refl)
    as (Hr & Hc & Hs & _).
  auto.
Defined.

(* ================================================================== *)
(** * Authenticator: a refresh that fails *)
(* ================================================================== *)

(** C7, as stated, fails: with an expired credential that holds a refresh
    token on file and the token endpoint unreachable, the call ends with
    the transport error; the consent flow is never started, although it
    would have succeeded. *)
Lemma refresh_failure_no_fallback :
  token_json stale_token_state = Some "{stale}"
  /\ from_authorized_user_file offline_env "{stale}" SCOPES = Ok stale_credentials
  /\ expired stale_credentials = true
  /\ refresh_token stale_credentials = Some "1//refresh"
  /\ run_local_server offline_env = Ok fresh_credentials
  /\ get_calendar_service offline_env false stale_token_state
     = (Raise (TransportError "Connection refused"),
        mkState (Some "{stale}") [Refresh])
  /\ ~ In Consent
          (trace (snd (get_calendar_service offline_env false stale_token_state))).
Proof.
  repeat split. simpl. intros [H | []]. discriminate.
Qed.

(** C7, amended. When the persisted credential is expired and holds a
    refresh token, and the refresh call fails, [get_calendar_service]
    fails with that very error right after the refresh attempt: the
    consent flow is not started and token.json is not rewritten. *)
Theorem refresh_failure_propagates
    (env : Env) (verbosity : bool) (st : state)
    (content : string) (creds : Credentials) (e : exn) :
  token_json st = Some content ->
  from_authorized_user_file env content SCOPES = Ok creds ->
  expired creds = true ->
  truthy_attr (refresh_token creds) = true ->
  refresh_request env creds = Raise e ->
  get_calendar_service env verbosity st = (Raise e, log Refresh st)
  /\ token_json (log Refresh st) = Some content
  /\ trace (log Refresh st) = trace st ++ [Refresh].
Proof.
  intros Hfile Hparse Hexp Hrt Hfail.
  split; [| split; [exact Hfile | reflexivity]].
  unfold get_calendar_service, renew, refresh. unfold_monad.
  rewrite Hfile, Hparse. unfold valid. rewrite Hexp, Hrt.
  destruct (token creds); simpl; rewrite Hfail; reflexivity.
Qed.

Lemma refresh_failure_propagates_witness :
  (token_json stale_token_state = Some "{stale}"
   /\ from_authorized_user_file offline_env "{stale}" SCOPES
      = Ok stale_credentials
   /\ expired stale_credentials = true
   /\ truthy_attr (refresh_token stale_credentials) = true
   /\ refresh_request offline_env stale_credentials
      = Raise (TransportError "Connection refused"))
  /\ get_calendar_service offline_env true stale_token_state
     = (Raise (TransportError "Connection refused"),
        log Refresh stale_token_state).
Proof.
  split.
  - repeat split.
  - apply (refresh_failure_propagates offline_env true stale_token_state
             "{stale}" stale_credentials (TransportError "Connection refused"));
      reflexivity.
Defined.

(* ================================================================== *)
(** * Event Fetcher: the calendar day and its window *)
(* ================================================================== *)














(* ================================================================== *)
(** * Event Fetcher: the shape of a run *)
(* ================================================================== *)


(** Appending leaves token.json and the requests as they were. *)
Lemma appended_0 (env : Env) (st : state) : appended env 0 st = st.
Proof.
  unfold appended, appending. destruct st as [tok tr]. cbn [token_json trace].
  destruct (append_warning env); cbn [repeat]; rewrite app_nil_r; reflexivity.
Qed.

Lemma appended_S (env : Env) (k : nat) (st : state) :
  appended env k
    (match append_warning env with
     | Some msg => log (FutureWarning msg) st
     | None => st
     end)
  = appended env (S k) st.
Proof.
  unfold appended, appending, log.
  destruct (append_warning env) as [msg |]; cbn [token_json trace repeat].
  - rewrite <- app_assoc. reflexivity.
  - reflexivity.
Qed.

Lemma requests_appending (env : Env) (k : nat) :
  requests (appending env k) = [].
Proof.
  unfold appending. destruct (append_warning env) as [msg |]; [| reflexivity].
  induction k as [| k IH]; [reflexivity | exact IH].
Qed.

Lemma requests_appended (env : Env) (k : nat) (st : state) :
  requests (trace (appended env k st)) = requests (trace st).
Proof.
  unfold appended. cbn [trace].
  rewrite requests_app, requests_appending. apply app_nil_r.
Qed.

Lemma same_view_appended (env : Env) (k : nat) (st1 st2 : state) :
  same_view st1 st2 ->
  same_view (appended env k st1) (appended env k st2).
Proof.
  intros [Htok Hreq]. split; [exact Htok |].
  rewrite !requests_appended. exact Hreq.
Qed.

(** The inner loop appends the projection of every event, or stops at the
    first event it cannot project; its only effects are those of the
    calls of [DataFrame.append], one for each row it has appended. *)
Lemma events_loop_run (env : Env) (calendar_name : value)
    (events : list value) :
  forall (df : DataFrame) (st : state),
    for_each events df
      (fun event df =>
         event_data <- lift (event_data calendar_name event) ;;
         df_append env df event_data) st
    = (rows <~ project_all calendar_name events ;; Ok (df ++ rows),
       appended env (length (projected calendar_name events)) st).
Proof.
  induction events as [| event events IH]; intros df st.
  - simpl. unfold ret. rewrite app_nil_r, appended_0. reflexivity.
  - cbn [for_each project_all projected]. unfold bind at 1. unfold bind at 1.
    unfold lift at 1, rbind at 1 3.
    destruct (event_data calendar_name event) as [row | e];
      [| cbn [length]; rewrite appended_0; reflexivity].
    assert (Happend : df_append env df row st
                      = (Ok (append df row),
                         match append_warning env with
                         | Some msg => log (FutureWarning msg) st
                         | None => st
                         end)).
    { unfold df_append, bind, emit, ret.
      destruct (append_warning env); reflexivity. }
    rewrite Happend, IH, appended_S. cbn [length]. unfold rbind, append.
    destruct (project_all calendar_name events) as [rows | e]; [| reflexivity].
    rewrite <- app_assoc. reflexivity.
Qed.

(** One iteration of the loop over the calendars, step by step. *)
Lemma calendar_events_run (env : Env) (svc : Session)
    (time_min time_max : string)
    (verbosity : bool) (calendar : value) (df : DataFrame) (st : state) :
  calendar_events env svc time_min time_max verbosity calendar df st =
  match py_getitem calendar "id" with
  | Raise e => (Raise e, st)
  | Ok calendar_id =>
    match py_getitem calendar "summary" with
    | Raise e => (Raise e, st)
    | Ok calendar_name =>
      let st1 := log (Net (list_request time_min time_max calendar_id)) st in
      match api svc (requests (trace st))
                (list_request time_min time_max calendar_id) with
      | Raise e => (Raise e, st1)
      | Ok events_result =>
        match py_get events_result "items" (VList []) with
        | Raise e => (Raise e, st1)
        | Ok events =>
          let st2 := if negb (truthy events) && verbosity
                     then log (no_events_line calendar_name) st1 else st1 in
          match py_iter events with
          | Raise e => (Raise e, st2)
          | Ok events =>
              (rows <~ project_all calendar_name events ;; Ok (df ++ rows),
               appended env (length (projected calendar_name events)) st2)
          end
        end
      end
    end
  end.
Proof.
  unfold calendar_events, list_request, no_events_line.
  unfold bind at 1. unfold lift at 1.
  destruct (py_getitem calendar "id") as [calendar_id | e]; [| reflexivity].
  unfold bind at 1. unfold lift at 1.
  destruct (py_getitem calendar "summary") as [calendar_name | e];
    [| reflexivity].
  unfold bind at 1. unfold execute at 1.
  destruct (api svc (requests (trace st)) _) as [events_result | e];
    [| reflexivity].
  unfold bind at 1. unfold lift at 1.
  destruct (py_get events_result "items" (VList [])) as [events | e];
    [| reflexivity].
  unfold bind at 1.
  destruct (negb (truthy events) && verbosity); cbn [when];
    unfold print, emit, ret; unfold bind at 1; unfold lift at 1;
    (destruct (py_iter events) as [evs | e]; [| reflexivity]);
    apply events_loop_run.
Qed.

(** A whole call with a session at hand, step by step. *)
Lemma fetch_events_run (env : Env) (svc : Session) (date : string)
    (verbosity : bool) (st : state) :
  fetch_events env (Some svc) date verbosity st =
  match calendar_day env date with
  | Raise e => (Raise e, st)
  | Ok _ =>
    let st0 := if verbosity then log (fetching_line date) st else st in
    let st1 := log (Net CalendarList_list) st0 in
    match api svc (requests (trace st)) CalendarList_list with
    | Raise e => (Raise e, st1)
    | Ok response =>
      match items_of response with
      | Raise e => (Raise e, st1)
      | Ok calendar_list =>
        match for_each calendar_list ([] : DataFrame)
                (calendar_events env svc (time_min_of env date)
                                 (time_max_of env date) verbosity) st1 with
        | (Raise e, st2) => (Raise e, st2)
        | (Ok df, st2) =>
            (Ok df, if empty df then log no_events_warning st2 else st2)
        end
      end
    end
  end.
Proof.
  unfold fetch_events.
  unfold assert_not_none. unfold bind at 1. unfold ret at 1.
  unfold bind at 1. unfold lift at 1.
  unfold time_min_of, time_max_of.
  destruct (calendar_day env date) as [day_ |] eqn:Hday.
  - unfold calendar_day, rbind in Hday.
    destruct (fromisoformat env date) as [dt0 |] eqn:Hparse; [| discriminate].
    unfold bind at 1. unfold lift at 1. rewrite Hday.
    unfold bind at 1.
    assert (Hreq : requests (trace (if verbosity
                                    then log (fetching_line date) st else st))
                   = requests (trace st)).
    { destruct verbosity; [apply requests_log_stdout | reflexivity]. }
    replace (when verbosity (print [Lit "Fetching events for ";
                                    Interp (VStr date); Lit "."]) st)
      with (Ok tt, if verbosity then log (fetching_line date) st else st)
      by (destruct verbosity; reflexivity).
    unfold bind at 1. unfold execute at 1. rewrite Hreq.
    destruct (api svc (requests (trace st)) CalendarList_list)
      as [response | e]; [| reflexivity].
    unfold bind at 1. unfold lift at 1. unfold items_of, rbind.
    destruct (py_get response "items" (VList [])) as [items | e];
      [| reflexivity].
    unfold bind at 1. unfold lift at 1.
    destruct (py_iter items) as [calendar_list | e]; [| reflexivity].
    unfold bind at 1.
    match goal with
    | |- context [@for_each ?A ?S ?xs ?acc ?body ?s] =>
        destruct (@for_each A S xs acc body s) as [[df | e] st2];
        [| reflexivity]
    end.
    unfold bind at 1.
    destruct df; reflexivity.
  - unfold calendar_day, rbind in Hday.
    destruct (fromisoformat env date) as [dt0 |] eqn:Hparse.
    + unfold bind at 1. unfold lift at 1. rewrite Hday. reflexivity.
    + injection Hday as <-. reflexivity.
Qed.

(** ** The loop over the calendars *)

Section CalendarsLoop.

Variable env : Env.
Variable svc : Session.
Variables time_min time_max : string.

(** A loop that completes has appended, calendar after calendar, the rows
    of each calendar to the frame it started from. *)
Lemma calendars_loop_ok (verbosity : bool) (calendar_list : list value) :
  forall (df df' : DataFrame) (st st' : state),
    for_each calendar_list df
      (calendar_events env svc time_min time_max verbosity) st = (Ok df', st') ->
    exists rowss,
      df' = df ++ concat rowss /\
      Forall2 (calendar_rows svc time_min time_max) calendar_list rowss.
Proof.
  induction calendar_list as [| calendar calendar_list IH];
    intros df df' st st' Hrun.
  - injection Hrun as <- <-. exists []. simpl. rewrite app_nil_r. auto.
  - cbn [for_each] in Hrun. unfold bind in Hrun.
    rewrite calendar_events_run in Hrun.
    destruct (py_getitem calendar "id") as [cid |] eqn:Hid; [| discriminate].
    destruct (py_getitem calendar "summary") as [name |] eqn:Hname;
      [| discriminate].
    cbv zeta in Hrun.
    destruct (api svc (requests (trace st)) _) as [events_result |] eqn:Hapi;
      [| discriminate].
    destruct (py_get events_result "items" (VList [])) as [items |] eqn:Hitems;
      [| discriminate].
    destruct (py_iter items) as [events |] eqn:Hiter; [| discriminate].
    unfold rbind in Hrun.
    destruct (project_all name events) as [rows |] eqn:Hrows; [| discriminate].
    apply IH in Hrun as (rowss & -> & Hall).
    exists (rows :: rowss). split.
    + simpl. rewrite app_assoc. reflexivity.
    + constructor; [| exact Hall].
      exists name, events. split; [| exact Hrows].
      split; [exact Hname |].
      exists cid, (requests (trace st)), events_result.
      repeat split; try assumption.
      unfold items_of, rbind. rewrite Hitems. exact Hiter.
Qed.

(** Whatever its outcome, the loop leaves token.json alone and executes
    nothing but event listings over the given window: one for each of the
    calendars it got to, in their order, under the id of that calendar;
    a loop that completes got to all of them. *)
Lemma calendars_loop_listed (verbosity : bool) (calendar_list : list value) :
  forall (df : DataFrame) (st st' : state) (r : result DataFrame),
    for_each calendar_list df
      (calendar_events env svc time_min time_max verbosity) st = (r, st') ->
    token_json st' = token_json st /\
    exists listed rest ids,
      calendar_list = listed ++ rest /\
      Forall2 (fun calendar id => py_getitem calendar "id" = Ok id)
              listed ids /\
      requests (trace st')
      = requests (trace st) ++ map (list_request time_min time_max) ids /\
      (forall df', r = Ok df' -> rest = []).
Proof.
  induction calendar_list as [| calendar calendar_list IH];
    intros df st st' r Hrun.
  - injection Hrun as <- <-. split; [reflexivity |].
    exists [], [], []. simpl. rewrite app_nil_r. auto.
  - cbn [for_each] in Hrun. unfold bind in Hrun.
    rewrite calendar_events_run in Hrun.
    assert (Hstop : forall e, (Raise e, st) = (r, st') ->
              token_json st' = token_json st /\
              exists listed rest ids,
                calendar :: calendar_list = listed ++ rest /\
                Forall2 (fun calendar id => py_getitem calendar "id" = Ok id)
                        listed ids /\
                requests (trace st')
                = requests (trace st) ++ map (list_request time_min time_max) ids /\
                (forall df', r = Ok df' -> rest = [])).
    { intros e H. injection H as <- <-. split; [reflexivity |].
      exists [], (calendar :: calendar_list), []. simpl. rewrite app_nil_r.
      repeat split; [constructor | discriminate]. }
    destruct (py_getitem calendar "id") as [cid | e] eqn:Hid;
      [| exact (Hstop e Hrun)].
    destruct (py_getitem calendar "summary") as [name | e] eqn:Hname;
      [| exact (Hstop e Hrun)].
    clear Hstop. cbv zeta in Hrun.
    set (st1 := log (Net (list_request time_min time_max cid)) st) in *.
    assert (Hst1 : requests (trace st1)
                   = requests (trace st) ++ [list_request time_min time_max cid])
      by apply requests_log_net.
    assert (Hstop : forall e st2,
              token_json st2 = token_json st ->
              requests (trace st2) = requests (trace st1) ->
              (Raise e, st2) = (r, st') ->
              token_json st' = token_json st /\
              exists listed rest ids,
                calendar :: calendar_list = listed ++ rest /\
                Forall2 (fun calendar id => py_getitem calendar "id" = Ok id)
                        listed ids /\
                requests (trace st')
                = requests (trace st) ++ map (list_request time_min time_max) ids /\
                (forall df', r = Ok df' -> rest = [])).
    { intros e st2 Htok Hreq H. injection H as <- <-. split; [exact Htok |].
      exists [calendar], calendar_list, [cid]. rewrite Hreq, Hst1.
      repeat split; [repeat constructor; exact Hid | discriminate]. }
    destruct (api svc (requests (trace st)) _) as [events_result | e];
      [| exact (Hstop e st1 eq_refl eq_refl Hrun)].
    destruct (py_get events_result "items" (VList [])) as [items | e];
      [| exact (Hstop e st1 eq_refl eq_refl Hrun)].
    set (st2 := if negb (truthy items) && verbosity
                then log (no_events_line name) st1 else st1) in *.
    assert (Htok2 : token_json st2 = token_json st)
      by (unfold st2; destruct (negb (truthy items) && verbosity); reflexivity).
    assert (Hreq2 : requests (trace st2) = requests (trace st1)).
    { unfold st2; destruct (negb (truthy items) && verbosity);
        [apply requests_log_stdout | reflexivity]. }
    destruct (py_iter items) as [events | e];
      [| exact (Hstop e st2 Htok2 Hreq2 Hrun)].
    set (st3 := appended env (length (projected name events)) st2) in *.
    assert (Htok3 : token_json st3 = token_json st) by exact Htok2.
    assert (Hreq3 : requests (trace st3) = requests (trace st1)).
    { unfold st3. rewrite requests_appended. exact Hreq2. }
    unfold rbind in Hrun.
    destruct (project_all name events) as [rows | e];
      [| exact (Hstop e st3 Htok3 Hreq3 Hrun)].
    apply IH in Hrun as (Htok & listed & rest & ids & Hsplit & Hids & Hreq & Hrest).
    split; [congruence |].
    exists (calendar :: listed), rest, (cid :: ids). repeat split.
    + rewrite Hsplit. reflexivity.
    + constructor; [exact Hid | exact Hids].
    + rewrite Hreq, Hreq3, Hst1, <- app_assoc. reflexivity.
    + exact Hrest.
Qed.

Lemma calendars_loop_requests (verbosity : bool) (calendar_list : list value) :
  forall (df : DataFrame) (st st' : state) (r : result DataFrame),
    for_each calendar_list df
      (calendar_events env svc time_min time_max verbosity) st = (r, st') ->
    token_json st' = token_json st /\
    exists ids,
      requests (trace st')
      = requests (trace st) ++ map (list_request time_min time_max) ids /\
      (forall df', r = Ok df' ->
         Forall2 (fun calendar id => py_getitem calendar "id" = Ok id)
                 calendar_list ids).
Proof.
  intros df st st' r Hrun.
  apply calendars_loop_listed in Hrun
    as (Htok & listed & rest & ids & Hsplit & Hids & Hreq & Hrest).
  split; [exact Htok |]. exists ids. split; [exact Hreq |].
  intros df' Hr. rewrite Hsplit, (Hrest df' Hr), app_nil_r. exact Hids.
Qed.


(** The flag changes neither the outcome of the loop nor what the service
    has seen of it. *)
Lemma calendars_loop_verbosity (calendar_list : list value) :
  forall (df : DataFrame) (st1 st2 : state),
    same_view st1 st2 ->
    let loud := for_each calendar_list df
                  (calendar_events env svc time_min time_max true) st1 in
    let quiet := for_each calendar_list df
                   (calendar_events env svc time_min time_max false) st2 in
    fst loud = fst quiet /\ same_view (snd loud) (snd quiet).
Proof.
  induction calendar_list as [| calendar calendar_list IH];
    intros df st1 st2 Hview; cbv zeta.
  - simpl. auto.
  - cbn [for_each]. unfold bind. rewrite !calendar_events_run.
    destruct Hview as [Htok Hreq].
    destruct (py_getitem calendar "id") as [cid | e];
      [| split; [reflexivity | split; assumption]].
    destruct (py_getitem calendar "summary") as [name | e];
      [| split; [reflexivity | split; assumption]].
    cbv zeta. rewrite Hreq.
    assert (Hview1 : same_view
                       (log (Net (list_request time_min time_max cid)) st1)
                       (log (Net (list_request time_min time_max cid)) st2)).
    { split; [exact Htok |]. rewrite !requests_log_net, Hreq. reflexivity. }
    destruct (api svc (requests (trace st2)) _) as [events_result | e];
      [| split; [reflexivity | exact Hview1]].
    destruct (py_get events_result "items" (VList [])) as [items | e];
      [| split; [reflexivity | exact Hview1]].
    rewrite andb_false_r, andb_true_r.
    assert (Hview2 : same_view
                       (if negb (truthy items)
                        then log (no_events_line name)
                               (log (Net (list_request time_min time_max cid)) st1)
                        else log (Net (list_request time_min time_max cid)) st1)
                       (log (Net (list_request time_min time_max cid)) st2)).
    { destruct (negb (truthy items)); [| exact Hview1].
      destruct Hview1 as [Htok1 Hreq1]. split; [exact Htok1 |].
      unfold no_events_line. rewrite requests_log_stdout. exact Hreq1. }
    destruct (py_iter items) as [events | e];
      [| split; [reflexivity | exact Hview2]].
    apply (same_view_appended env (length (projected name events))) in Hview2.
    unfold rbind.
    destruct (project_all name events) as [rows | e];
      [| split; [reflexivity | exact Hview2]].
    apply IH. exact Hview2.
Qed.

End CalendarsLoop.

(** ** Calls that complete *)

Lemma project_all_well_formed (calendar_name : value) (events : list value) :
  Forall well_formed_event events ->
  exists rows, project_all calendar_name events = Ok rows.
Proof.
  induction 1 as [| event events (e & s & t & -> & Hs & Ht) _ [rows IH]].
  - exists []. reflexivity.
  - exists (spec_row calendar_name e s t :: rows).
    cbn [project_all]. unfold rbind.
    assert (Hrow : event_data calendar_name (VDict e)
                   = Ok (spec_row calendar_name e s t)).
    { unfold event_data, event_time, rbind. cbn [py_get py_getitem].
      rewrite Hs, Ht. reflexivity. }
    rewrite Hrow, IH. reflexivity.
Qed.

(** When the service answers as documented, the loop runs to its end. *)
Lemma calendars_loop_completes (env : Env) (svc : Session) (time_min time_max : string)
    (verbosity : bool) (calendar_list : list value) :
  Forall (served_calendar svc time_min time_max) calendar_list ->
  forall (df : DataFrame) (st : state),
  exists df' st',
    for_each calendar_list df
      (calendar_events env svc time_min time_max verbosity) st = (Ok df', st').
Proof.
  induction 1 as [| calendar calendar_list Hcal _ IH]; intros df st.
  - exists df, st. reflexivity.
  - destruct Hcal as (id & name & Hid & Hname & Hlist).
    destruct (Hlist (requests (trace st)))
      as (events_result & events & Hapi & Hitems & Hwf).
    destruct (project_all_well_formed name events Hwf) as [rows Hrows].
    cbn [for_each]. unfold bind. rewrite calendar_events_run.
    rewrite Hid, Hname. cbv zeta. rewrite Hapi.
    unfold items_of, rbind in Hitems.
    destruct (py_get events_result "items" (VList [])) as [items |];
      [| discriminate].
    rewrite Hitems, Hrows. cbn [rbind]. apply IH.
Qed.

(** X20. On a valid date, with calendars enumerated and listings answered
    as the service documents them (every calendar with an id and a name,
    every event with a start and an end), [fetch_events] returns a frame. *)
Lemma fetch_events_completes (env : Env) (svc : Session) (date : string)
    (verbosity : bool) (st : state) (response : value)
    (calendar_list : list value) :
  valid_date env date ->
  api svc (requests (trace st)) CalendarList_list = Ok response ->
  items_of response = Ok calendar_list ->
  Forall (served_calendar svc (time_min_of env date) (time_max_of env date))
         calendar_list ->
  exists df st', fetch_events env (Some svc) date verbosity st = (Ok df, st').
Proof.
  intros [dt Hday] Hapi Hitems Hserved.
  rewrite fetch_events_run, Hday. cbv zeta. rewrite Hapi, Hitems.
  match goal with
  | |- context [@for_each ?A ?S ?xs ?acc ?body ?s] =>
      destruct (calendars_loop_completes env svc (time_min_of env date)
                  (time_max_of env date) verbosity calendar_list Hserved acc s)
        as (df & st' & Hloop)
  end.
  rewrite Hloop. eauto.
Qed.

(** ** The projection of one event *)

Lemma event_time_dict (e : list (string * value)) (key : string) (v : value) :
  event_time (VDict e) key = Ok v <->
  exists t, lookup key e = Some (VDict t) /\ v = spec_time t.
Proof.
  unfold event_time, rbind, py_getitem, py_get, spec_time.
  destruct (lookup key e) as [inner |]; [| split; [discriminate |]].
  - destruct inner as [| b | n | s | l | t];
      try (split; [discriminate | intros (t' & H & _); discriminate]).
    split.
    + intros H. exists t. split; [reflexivity |]. congruence.
    + intros (t' & H & ->). injection H as <-. reflexivity.
  - intros (t & H & _). discriminate.
Qed.

(** The dict literal of the source builds the row the specification
    describes, and it is built exactly for the events that carry a start
    and an end. *)
Lemma event_data_projects (calendar_name event : value) (row : EventRow) :
  event_data calendar_name event = Ok row <-> projects calendar_name event row.
Proof.
  unfold projects, spec_row, spec_title, placeholder_title. split.
  - intros H. destruct event as [| b | n | x | l | e]; try discriminate.
    unfold event_data, rbind in H. cbn [py_get] in H.
    destruct (event_time (VDict e) "start") as [start |] eqn:Hs;
      [| discriminate].
    destruct (event_time (VDict e) "end") as [end_ |] eqn:He; [| discriminate].
    apply event_time_dict in Hs as (s & Hs & ->).
    apply event_time_dict in He as (t & He & ->).
    exists e, s, t. repeat split; try assumption.
    injection H as <-. reflexivity.
  - intros (e & s & t & -> & Hs & He & ->).
    unfold event_data, rbind. cbn [py_get].
    assert (Hstart : event_time (VDict e) "start" = Ok (spec_time s))
      by (apply event_time_dict; eauto).
    assert (Hend : event_time (VDict e) "end" = Ok (spec_time t))
      by (apply event_time_dict; eauto).
    rewrite Hstart, Hend. reflexivity.
Qed.

Lemma project_all_each (calendar_name : value) (events : list value) :
  forall rows,
    project_all calendar_name events = Ok rows ->
    Forall2 (fun event row => event_data calendar_name event = Ok row)
            events rows.
Proof.
  induction events as [| event events IH]; intros rows H.
  - injection H as <-. constructor.
  - cbn [project_all] in H. unfold rbind in H.
    destruct (event_data calendar_name event) as [row |] eqn:Hrow;
      [| discriminate].
    destruct (project_all calendar_name events) as [rows' |]; [| discriminate].
    injection H as <-. constructor; [exact Hrow | apply IH; reflexivity].
Qed.

Lemma Forall2_forall_r {A B} (R : A -> B -> Prop) (xs : list A) (ys : list B) :
  Forall2 R xs ys -> forall y, In y ys -> exists x, In x xs /\ R x y.
Proof.
  induction 1 as [| x y xs ys Hxy _ IH]; intros y' Hin; [destruct Hin |].
  destruct Hin as [<- | Hin].
  - exists x. split; [left; reflexivity | exact Hxy].
  - destruct (IH y' Hin) as (x' & Hx' & HR).
    exists x'. split; [right; exact Hx' | exact HR].
Qed.

(** ** A call that completes *)

(** The frame returned by a call that completes is, calendar after
    calendar of the enumeration, the rows of that calendar. *)
Lemma fetch_events_success (env : Env) (svc : Session) (date : string)
    (verbosity : bool) (st st' : state) (df : DataFrame) :
  fetch_events env (Some svc) date verbosity st = (Ok df, st') ->
  valid_date env date /\
  exists response calendar_list rowss,
    api svc (requests (trace st)) CalendarList_list = Ok response /\
    items_of response = Ok calendar_list /\
    df = concat rowss /\
    Forall2 (calendar_rows svc (time_min_of env date) (time_max_of env date))
            calendar_list rowss.
Proof.
  rewrite fetch_events_run. intros Hrun.
  destruct (calendar_day env date) as [dt |] eqn:Hday; [| discriminate].
  split; [exists dt; exact Hday |].
  cbv zeta in Hrun.
  destruct (api svc (requests (trace st)) CalendarList_list)
    as [response |] eqn:Hapi; [| discriminate].
  destruct (items_of response) as [calendar_list |] eqn:Hitems;
    [| discriminate].
  match type of Hrun with
  | context [@for_each ?A ?S ?xs ?acc ?body ?s] =>
      destruct (@for_each A S xs acc body s) as [[df0 | e] st2] eqn:Hloop;
      [| discriminate]
  end.
  apply calendars_loop_ok in Hloop as (rowss & Hdf & Hall).
  exists response, calendar_list, rowss.
  repeat split; try assumption.
  injection Hrun as <- _. exact Hdf.
Qed.

(* ================================================================== *)
(** * Event Fetcher: the claims *)
(* ================================================================== *)



(** C4, as stated, fails: the service lists an event that ends before it
    starts, and the row of that event is returned as it is. *)
Lemma fetch_events_returns_backwards_row :
  fst (fetch_events demo_env (Some backwards_service) "2023-09-13"
                    false initial)
  = Ok [rewind_row]
  /\ Event_Start rewind_row = VStr "2023-09-13T10:00:00+02:00"
  /\ Event_End rewind_row = VStr "2023-09-13T09:00:00+02:00"
  /\ timestamp_le (Event_Start rewind_row) (Event_End rewind_row) = false.
Proof. repeat split. Qed.

(** C4, amended. In the frame of a call that completes, every row carries
    the name of one of the enumerated calendars, and its start and end are
    the start and end of an event the service listed: whatever relation
    holds between start and end of all the listed events holds for every
    row.  [fetch_events] compares no two times itself. *)
Theorem fetch_events_rows_come_from_service
    (env : Env) (svc : Session) (date : string) (verbosity : bool)
    (st st' : state) (df : DataFrame) (le : value -> value -> Prop) :
  fetch_events env (Some svc) date verbosity st = (Ok df, st') ->
  service_orders svc (time_min_of env date) (time_max_of env date) le ->
  exists response calendar_list,
    api svc (requests (trace st)) CalendarList_list = Ok response /\
    items_of response = Ok calendar_list /\
    forall row, In row df ->
      le (Event_Start row) (Event_End row) /\
      exists calendar,
        In calendar calendar_list /\
        py_getitem calendar "summary" = Ok (Calendar_Name row).
Proof.
  intros Hrun Hle.
  apply fetch_events_success
    in Hrun as (_ & response & calendar_list & rowss & Hapi & Hitems & -> & Hall).
  exists response, calendar_list.
  split; [exact Hapi |]. split; [exact Hitems |].
  intros row Hin. split.
  - apply in_concat in Hin as (rows & Hrows & Hrow).
    apply (Forall2_forall_r _ _ _ Hall) in Hrows
      as (calendar & _ & name & events & Hlists & Hproj).
    destruct Hlists as (_ & id & history & events_result & _ & Hlist & Hevents).
    apply project_all_each in Hproj.
    apply (Forall2_forall_r _ _ _ Hproj) in Hrow as (event & Hev & Hdata).
    unfold event_data, rbind in Hdata.
    destruct (py_get event "summary" (VStr "Unknown")); [| discriminate].
    destruct (event_time event "start") as [s |] eqn:Hs; [| discriminate].
    destruct (event_time event "end") as [t |] eqn:Ht; [| discriminate].
    injection Hdata as <-. cbn [Event_Start Event_End].
    exact (Hle history id events_result events event s t
               Hlist Hevents Hev Hs Ht).
  - apply in_concat in Hin as (rows & Hrows & Hrow).
    apply (Forall2_forall_r _ _ _ Hall) in Hrows
      as (calendar & Hcal & name & events & Hlists & Hproj).
    exists calendar. split; [exact Hcal |].
    destruct Hlists as (Hname & _).
    apply project_all_each in Hproj.
    apply (Forall2_forall_r _ _ _ Hproj) in Hrow as (event & Hev & Hdata).
    unfold event_data, rbind in Hdata.
    destruct (py_get event "summary" (VStr "Unknown")); [| discriminate].
    destruct (event_time event "start"); [| discriminate].
    destruct (event_time event "end"); [| discriminate].
    injection Hdata as <-. exact Hname.
Qed.

Lemma fetch_events_rows_come_from_service_witness :
  fetch_events demo_env (Some standup_service) "2023-09-13" true initial
  = (Ok [standup_row],
     mkState None
       [ fetching_line "2023-09-13";
         Net CalendarList_list;
         Net (list_request "2023-09-13T00:00:00+02:00"
                           "2023-09-13T23:59:59+02:00"
                           (VStr "work@example.com")) ])
  /\ forall row, In row [standup_row] ->
       timestamp_le (Event_Start row) (Event_End row) = true /\
       exists calendar,
         In calendar [work_calendar] /\
         py_getitem calendar "summary" = Ok (Calendar_Name row).
Proof.
  split; [reflexivity |].
  destruct (fetch_events_rows_come_from_service
              demo_env standup_service "2023-09-13" true initial _ [standup_row]
              (fun s t => timestamp_le s t = true) eq_refl)
    as (response & calendar_list & Hapi & Hitems & Hrows).
  - intros history id events_result events event s t Hlist Hevents Hin Hs Ht.
    cbn in Hlist. injection Hlist as <-.
    cbn in Hevents. injection Hevents as <-.
    destruct Hin as [<- | []].
    cbn in Hs, Ht. injection Hs as <-. injection Ht as <-. reflexivity.
  - cbn in Hapi. injection Hapi as <-.
    cbn in Hitems. injection Hitems as <-.
    exact Hrows.
Defined.

(** C5. In the frame of a call that completes, the rows are, calendar
    after calendar and event after event, the projections of the events
    the service listed: the row of an event has the calendar's name, the
    event's title or the placeholder "Unknown" when it has none, and for
    start and for end the date-time value when present and the whole-day
    date value otherwise. *)
Theorem fetch_events_projects_every_event
    (env : Env) (svc : Session) (date : string) (verbosity : bool)
    (st st' : state) (df : DataFrame) :
  fetch_events env (Some svc) date verbosity st = (Ok df, st') ->
  exists response calendar_list rowss,
    api svc (requests (trace st)) CalendarList_list = Ok response /\
    items_of response = Ok calendar_list /\
    df = concat rowss /\
    Forall2 (fun calendar rows =>
               exists name events,
                 lists_events svc (time_min_of env date) (time_max_of env date)
                              calendar name events /\
                 Forall2 (projects name) events rows)
            calendar_list rowss.
Proof.
  intros Hrun.
  apply fetch_events_success
    in Hrun as (_ & response & calendar_list & rowss & Hapi & Hitems & Hdf & Hall).
  exists response, calendar_list, rowss. repeat split; try assumption.
  clear - Hall. induction Hall as [| calendar rows cs rs Hcal _ IH];
    constructor; [| exact IH].
  destruct Hcal as (name & events & Hlists & Hproj).
  exists name, events. split; [exact Hlists |].
  apply project_all_each in Hproj.
  clear - Hproj. induction Hproj as [| event row es rs Hrow _ IH];
    constructor; [| exact IH].
  apply event_data_projects. exact Hrow.
Qed.

Lemma fetch_events_projects_every_event_witness :
  fetch_events demo_env (Some demo_service) "2023-09-13" false initial
  = (Ok [standup_row],
     mkState None
       [ Net CalendarList_list;
         Net (list_request "2023-09-13T00:00:00+02:00"
                           "2023-09-13T23:59:59+02:00"
                           (VStr "work@example.com"));
         Net (list_request "2023-09-13T00:00:00+02:00"
                           "2023-09-13T23:59:59+02:00"
                           (VStr "me@example.com")) ])
  /\ exists response calendar_list rowss,
       api demo_service [] CalendarList_list = Ok response /\
       items_of response = Ok calendar_list /\
       [standup_row] = concat rowss /\
       Forall2 (fun calendar rows =>
                  exists name events,
                    lists_events demo_service
                                 (time_min_of demo_env "2023-09-13")
                                 (time_max_of demo_env "2023-09-13")
                                 calendar name events /\
                    Forall2 (projects name) events rows)
               calendar_list rowss.
Proof.
  split; [reflexivity |].
  exact (fetch_events_projects_every_event
           demo_env demo_service "2023-09-13" false initial _ [standup_row]
           eq_refl).
Defined.



(** The window of an argument that carries a time of day, where the
    installed release reads such arguments: the day alone counts. *)
Example fetch_events_window_of_a_date_time :
  requests (trace (snd (fetch_events demo_env (Some demo_service)
                                     "2023-07-01T10:30:00" false initial)))
  = [ CalendarList_list;
      Events_list (VStr "work@example.com") "2023-07-01T00:00:00+02:00"
                  "2023-07-01T23:59:59+02:00" true "startTime";
      Events_list (VStr "me@example.com") "2023-07-01T00:00:00+02:00"
                  "2023-07-01T23:59:59+02:00" true "startTime" ].
Proof. reflexivity. Qed.

(** The window of a day before the year 1000, where the platform writes
    such years without leading zeros. *)
Example fetch_events_window_of_an_early_year :
  requests (trace (snd (fetch_events demo_env (Some demo_service)
                                     "0999-05-05" false initial)))
  = [ CalendarList_list;
      Events_list (VStr "work@example.com") "999-05-05T00:00:00+02:00"
                  "999-05-05T23:59:59+02:00" true "startTime";
      Events_list (VStr "me@example.com") "999-05-05T00:00:00+02:00"
                  "999-05-05T23:59:59+02:00" true "startTime" ].
Proof. reflexivity. Qed.

(* ================================================================== *)
(** * The verbosity flag *)
(* ================================================================== *)

Lemma bind_fst_ext {A B} (m : M A) (k1 k2 : A -> M B) (st : state) :
  (forall a st', fst (k1 a st') = fst (k2 a st')) ->
  fst (bind m k1 st) = fst (bind m k2 st).
Proof.
  intros H. unfold bind. destruct (m st) as [[a | e] st']; [apply H | reflexivity].
Qed.

Lemma get_calendar_service_verbosity (env : Env) (st : state) :
  fst (get_calendar_service env true st)
  = fst (get_calendar_service env false st).
Proof.
  unfold get_calendar_service.
  apply bind_fst_ext. intros file st0.
  apply bind_fst_ext. intros creds st1.
  apply bind_fst_ext. intros creds' st2.
  apply bind_fst_ext. intros service st3.
  reflexivity.
Qed.

Lemma fetch_events_verbosity (env : Env) (service : option Session)
    (date : string) (st : state) :
  fst (fetch_events env service date true st)
  = fst (fetch_events env service date false st).
Proof.
  destruct service as [svc |]; [| reflexivity].
  rewrite !fetch_events_run.
  destruct (calendar_day env date) as [dt | e]; [| reflexivity].
  cbv zeta.
  destruct (api svc (requests (trace st)) CalendarList_list)
    as [response | e]; [| reflexivity].
  destruct (items_of response) as [calendar_list | e]; [| reflexivity].
  assert (Hview : same_view
                    (log (Net CalendarList_list) (log (fetching_line date) st))
                    (log (Net CalendarList_list) st)).
  { split; [reflexivity |].
    rewrite !requests_log_net. unfold fetching_line.
    rewrite requests_log_stdout. reflexivity. }
  pose proof (calendars_loop_verbosity env svc (time_min_of env date)
                (time_max_of env date) calendar_list [] _ _ Hview) as [Hfst _].
  cbv zeta in Hfst.
  match goal with
  | |- fst (match ?loud with _ => _ end) = fst (match ?quiet with _ => _ end) =>
      destruct loud as [[df1 | e1] s1]; destruct quiet as [[df2 | e2] s2];
      cbn [fst] in *; congruence
  end.
Qed.

Lemma add_event_verbosity (service : option Session)
    (calendar_id summary start_time end_time description location : string)
    (st : state) :
  let add v := fst (add_event service calendar_id summary start_time end_time
                              description location v st) in
  (forall e, add false = Raise e -> add true = Raise e) /\
  (forall v, add false = Ok v ->
     v = VNone /\
     exists svc reference,
       service = Some svc /\
       api svc (requests (trace st))
           (insertion calendar_id summary start_time end_time
                      description location)
       = Ok reference /\
       ((shows_link reference /\ add true = Ok VNone)
        \/ (~ shows_link reference /\
            exists msg, add true = Raise (AttributeError msg)))).
Proof.
  cbv zeta. unfold add_event, insertion, shows_link.
  destruct service as [svc |]; unfold_monad;
    [| split; [intros e H; exact H | intros v H; discriminate]].
  destruct (truthy (VStr calendar_id) && truthy (VStr summary)
            && truthy (VStr start_time) && truthy (VStr end_time));
    [| split; [intros e H; exact H | intros v H; discriminate]].
  destruct (api svc (requests (trace st)) _) as [reference | e] eqn:Hapi;
    [| split; [intros e' H; exact H | intros v H; discriminate]].
  split; [intros e H; discriminate |].
  intros v H. injection H as <-. split; [reflexivity |].
  exists svc, reference. split; [reflexivity |]. split; [exact Hapi |].
  destruct reference; cbn;
    first [ left; split; [eauto | reflexivity]
          | right; split; [intros [fields H]; discriminate | eauto] ].
Qed.

Lemma create_calendar_verbosity (service : option Session) (summary : string)
    (st : state) :
  let create v := fst (create_calendar service summary v st) in
  (forall e, create false = Raise e -> create true = Raise e) /\
  (forall v, create false = Ok v ->
     v = VNone /\
     exists svc created,
       service = Some svc /\
       api svc (requests (trace st)) (creation summary) = Ok created /\
       ((shows_title_and_id created /\ create true = Ok VNone)
        \/ (~ shows_title_and_id created /\
            exists e, create true = Raise e /\
                      ((exists key, e = KeyError key)
                       \/ (exists msg, e = TypeError msg))))).
Proof.
  cbv zeta. unfold create_calendar, creation, shows_title_and_id.
  destruct service as [svc |]; unfold_monad;
    [| split; [intros e H; exact H | intros v H; discriminate]].
  destruct (truthy (VStr summary));
    [| split; [intros e H; exact H | intros v H; discriminate]].
  destruct (api svc (requests (trace st)) _) as [created | e] eqn:Hapi;
    [| split; [intros e' H; exact H | intros v H; discriminate]].
  split; [intros e H; discriminate |].
  intros v H. injection H as <-. split; [reflexivity |].
  exists svc, created. split; [reflexivity |]. split; [exact Hapi |].
  destruct created as [| b | n | str | l | fields];
    try (right; split;
         [intros (fields & title & id & H & _); discriminate |];
         cbn; eexists; split; [reflexivity | right; eauto]).
  cbn [py_getitem].
  destruct (lookup "summary" fields) as [title |] eqn:Htitle.
  - destruct (lookup "id" fields) as [id |] eqn:Hid.
    + left. split; [| reflexivity]. exists fields, title, id. auto.
    + right. split.
      * intros (fields' & title' & id' & H & _ & Hid').
        injection H as <-. congruence.
      * eexists. split; [reflexivity |]. left. eauto.
  - right. split.
    + intros (fields' & title' & id' & H & Htitle' & _).
      injection H as <-. congruence.
    + eexists. split; [reflexivity |]. left. eauto.
Qed.

(** C9, as stated, fails: against a service whose answer to the creation
    of a calendar carries no title, the quiet call of [create_calendar]
    returns [None] and the verbose call, after the same request, raises
    [KeyError] and returns nothing. *)
Lemma create_calendar_outcome_depends_on_verbosity :
  create_calendar (Some terse_service) "Team" false initial
  = (Ok VNone, mkState None [Net (Calendars_insert (calendar_body "Team"))])
  /\ create_calendar (Some terse_service) "Team" true initial
     = (Raise (KeyError "summary"),
        mkState None [Net (Calendars_insert (calendar_body "Team"))])
  /\ fst (create_calendar (Some terse_service) "Team" true initial)
     <> fst (create_calendar (Some terse_service) "Team" false initial).
Proof. repeat split. discriminate. Qed.

(** C9, amended. Two calls that differ only in the verbosity flag, started
    in the same state against the same service, return the same value
    whenever both return.  For the Authenticator and [fetch_events] the
    outcomes coincide altogether.  For [add_event] and [create_calendar]
    a quiet call that fails has a verbose call failing with the same
    error, and a quiet call that returns returns [None] after the service
    has answered its request; the verbose call then returns [None] too
    when that answer has what the progress line shows (an object for the
    inserted event; an object with a title and an id for the created
    calendar), and otherwise raises while it builds the line
    ([AttributeError] in [add_event], [KeyError] or [TypeError] in
    [create_calendar]) and returns nothing. *)
Theorem verbosity_preserves_returned_values
    (env : Env) (service : option Session) (date : string)
    (calendar_id summary start_time end_time description location : string)
    (st : state) :
  let auth v := fst (get_calendar_service env v st) in
  let fetch v := fst (fetch_events env service date v st) in
  let add v := fst (add_event service calendar_id summary start_time end_time
                              description location v st) in
  let create v := fst (create_calendar service summary v st) in
  auth true = auth false
  /\ fetch true = fetch false
  /\ (forall v1 v2, add true = Ok v1 -> add false = Ok v2 -> v1 = v2)
  /\ (forall v1 v2, create true = Ok v1 -> create false = Ok v2 -> v1 = v2)
  /\ (forall e, add false = Raise e -> add true = Raise e)
  /\ (forall v, add false = Ok v ->
        v = VNone /\
        exists svc reference,
          service = Some svc /\
          api svc (requests (trace st))
              (insertion calendar_id summary start_time end_time
                         description location)
          = Ok reference /\
          ((shows_link reference /\ add true = Ok VNone)
           \/ (~ shows_link reference /\
               exists msg, add true = Raise (AttributeError msg))))
  /\ (forall e, create false = Raise e -> create true = Raise e)
  /\ (forall v, create false = Ok v ->
        v = VNone /\
        exists svc created,
          service = Some svc /\
          api svc (requests (trace st)) (creation summary) = Ok created /\
          ((shows_title_and_id created /\ create true = Ok VNone)
           \/ (~ shows_title_and_id created /\
               exists e, create true = Raise e /\
                         ((exists key, e = KeyError key)
                          \/ (exists msg, e = TypeError msg))))).
Proof.
  cbv zeta.
  pose proof (add_event_verbosity service calendar_id summary start_time
                end_time description location st) as [Hadd_e Hadd_v].
  pose proof (create_calendar_verbosity service summary st)
    as [Hcreate_e Hcreate_v].
  cbv zeta in Hadd_e, Hadd_v, Hcreate_e, Hcreate_v.
  split; [apply get_calendar_service_verbosity |].
  split; [apply fetch_events_verbosity |].
  split.
  { intros v1 v2 H1 H2.
    destruct (Hadd_v v2 H2)
      as (-> & _ & _ & _ & _ & [[_ H] | (_ & msg & H)]); congruence. }
  split.
  { intros v1 v2 H1 H2.
    destruct (Hcreate_v v2 H2)
      as (-> & _ & _ & _ & _ & [[_ H] | (_ & e & H & _)]); congruence. }
  split; [exact Hadd_e |]. split; [exact Hadd_v |].
  split; [exact Hcreate_e | exact Hcreate_v].
Qed.

Lemma verbosity_preserves_returned_values_witness :
  (fst (create_calendar (Some demo_service) "Team" false initial) = Ok VNone
   /\ fst (add_event (Some demo_service) "primary" "Meeting"
                     "2023-09-13T10:00:00" "2023-09-13T11:00:00" "" ""
                     false initial) = Ok VNone
   /\ fst (create_calendar (Some failing_service) "Team" false initial)
      = Raise (HttpError 500 "Backend Error"))
  /\ fst (fetch_events demo_env (Some demo_service) "2023-09-13" true initial)
     = fst (fetch_events demo_env (Some demo_service) "2023-09-13" false initial)
  /\ fst (fetch_events demo_env (Some demo_service) "2023-09-13" true initial)
     = Ok [standup_row]
  /\ fst (create_calendar (Some demo_service) "Team" true initial) = Ok VNone
  /\ fst (add_event (Some demo_service) "primary" "Meeting"
                    "2023-09-13T10:00:00" "2023-09-13T11:00:00" "" ""
                    true initial) = Ok VNone
  /\ fst (create_calendar (Some failing_service) "Team" true initial)
     = Raise (HttpError 500 "Backend Error").
Proof.
  pose proof (verbosity_preserves_returned_values
                demo_env (Some demo_service) "2023-09-13"
                "primary" "Meeting" "2023-09-13T10:00:00" "2023-09-13T11:00:00"
                "" "" initial)
    as (_ & Hfetch & _ & _ & _ & Hadd & _ & _).
  pose proof (verbosity_preserves_returned_values
                demo_env (Some demo_service) "2023-09-13"
                "primary" "Team" "2023-09-13T10:00:00" "2023-09-13T11:00:00"
                "" "" initial)
    as (_ & _ & _ & _ & _ & _ & _ & Hcreate).
  pose proof (verbosity_preserves_returned_values
                demo_env (Some failing_service) "2023-09-13"
                "primary" "Team" "2023-09-13T10:00:00" "2023-09-13T11:00:00"
                "" "" initial)
    as (_ & _ & _ & _ & _ & _ & Hfail & _).
  cbv zeta in *.
  split; [repeat split |].
  split; [exact Hfetch |]. split; [reflexivity |].
  split.
  { destruct (Hcreate VNone eq_refl)
      as (_ & svc & created & _ & _ & [[_ H] | (Hnot & _)]); [exact H |].
    reflexivity. }
  split.
  { destruct (Hadd VNone eq_refl)
      as (_ & svc & reference & _ & _ & [[_ H] | (Hnot & _)]); [exact H |].
    reflexivity. }
  exact (Hfail (HttpError 500 "Backend Error") eq_refl).
Defined.

(* ================================================================== *)
(** * Authenticator: the other paths *)
(* ================================================================== *)

(** X1. A valid credential on file is used as it is: the service is
    built from it without refresh and without consent flow, and token.json
    is left alone. *)
Lemma get_calendar_service_valid_token
    (env : Env) (verbosity : bool) (st : state)
    (content : string) (creds : Credentials) (service : Session) :
  token_json st = Some content ->
  from_authorized_user_file env content SCOPES = Ok creds ->
  valid creds = true ->
  build env creds = Ok service ->
  get_calendar_service env verbosity st
  = (Ok service, if verbosity then log authenticated_line st else st).
Proof.
  intros Hfile Hparse Hvalid Hbuild.
  unfold get_calendar_service. unfold_monad.
  rewrite Hfile, Hparse, Hvalid, Hbuild.
  destruct verbosity; reflexivity.
Qed.

(* ================================================================== *)
(** * Authenticator: every path *)
(* ================================================================== *)

Lemma print_lines_run (lines : list (list piece)) :
  forall st : state,
    print_lines lines st
    = (Ok tt, mkState (token_json st) (trace st ++ map Stdout lines)).
Proof.
  induction lines as [| line lines IH]; intros st.
  - destruct st as [tok tr]. cbn. rewrite app_nil_r. reflexivity.
  - cbn [print_lines map]. unfold bind, print, emit. rewrite IH.
    unfold log. cbn [token_json trace]. rewrite <- app_assoc. reflexivity.
Qed.

(** The consent path of [renew], step by step. *)
Lemma interactive_flow_run (env : Env) (st : state) :
  interactive_flow env st =
  match from_client_secrets_file env "credentials.json" SCOPES with
  | Raise e => (Raise e, st)
  | Ok _ => (run_local_server env, prompted env st)
  end.
Proof.
  unfold interactive_flow. unfold bind at 1. unfold lift at 1.
  destruct (from_client_secrets_file env "credentials.json" SCOPES);
    [| reflexivity].
  unfold bind at 1. unfold emit at 1. unfold bind at 1.
  rewrite print_lines_run. unfold lift, prompted, log.
  cbn [token_json trace]. rewrite <- app_assoc. reflexivity.
Qed.

Lemma requests_lines (lines : list (list piece)) :
  requests (Consent :: map Stdout lines) = [].
Proof.
  cbn [requests].
  induction lines as [| line lines IH]; [reflexivity | exact IH].
Qed.

Lemma requests_prompted (env : Env) (st : state) :
  requests (trace (prompted env st)) = requests (trace st).
Proof.
  unfold prompted. cbn [trace]. rewrite requests_app. cbn [requests].
  induction (consent_prompt env) as [| line lines IH];
    [apply app_nil_r | exact IH].
Qed.

Lemma silent_prompted (env : Env) (st : state) :
  silent (trace (prompted env st)) = silent (trace st) ++ [Consent].
Proof.
  unfold prompted, silent. cbn [trace]. rewrite filter_app. f_equal.
  cbn [filter is_stdout negb]. f_equal.
  induction (consent_prompt env) as [| line lines IH]; [reflexivity | exact IH].
Qed.

Lemma renew_run (env : Env) (creds : option Credentials) (st : state) :
  renew env creds st =
  match (match creds with
         | Some c =>
             if refreshable creds
             then (refresh_request env c, log Refresh st)
             else interactive_flow env st
         | None => interactive_flow env st
         end) with
  | (Ok c', st1) => (Ok c', mkState (Some (to_json env c')) (trace st1))
  | (Raise e, st1) => (Raise e, st1)
  end.
Proof.
  unfold renew, refresh, refreshable. unfold bind at 1.
  destruct creds as [c |].
  - destruct (expired c && truthy_attr (refresh_token c)).
    + unfold_monad. destruct (refresh_request env c); reflexivity.
    + destruct (interactive_flow env st) as [[c' | e] st1]; reflexivity.
  - destruct (interactive_flow env st) as [[c' | e] st1]; reflexivity.
Qed.

(** A whole call of the Authenticator, step by step. *)
Lemma get_calendar_service_run (env : Env) (verbosity : bool) (st : state) :
  get_calendar_service env verbosity st =
  match stored_credentials env st with
  | Raise e => (Raise e, st)
  | Ok creds =>
    match (match creds with
           | Some c => if valid c then (Ok c, st) else renew env creds st
           | None => renew env creds st
           end) with
    | (Raise e, st1) => (Raise e, st1)
    | (Ok c, st1) =>
      match build env c with
      | Raise e => (Raise e, st1)
      | Ok service =>
          (Ok service, if verbosity then log authenticated_line st1 else st1)
      end
    end
  end.
Proof.
  unfold get_calendar_service, stored_credentials, authenticated_line.
  unfold bind at 1. unfold read_token at 1.
  destruct (token_json st) as [content |].
  - unfold bind at 1. unfold bind at 1. unfold lift at 1, rbind.
    destruct (from_authorized_user_file env content SCOPES) as [c | e];
      [| reflexivity].
    unfold ret at 1. unfold bind at 1.
    destruct (valid c).
    + unfold ret at 1. unfold_monad.
      destruct (build env c); [destruct verbosity |]; reflexivity.
    + destruct (renew env (Some c) st) as [[c' | e] st1]; [| reflexivity].
      unfold_monad.
      destruct (build env c'); [destruct verbosity |]; reflexivity.
  - unfold bind at 1. unfold ret at 1. unfold bind at 1.
    destruct (renew env None st) as [[c' | e] st1]; [| reflexivity].
    unfold_monad.
    destruct (build env c'); [destruct verbosity |]; reflexivity.
Qed.

(** X2. An expired credential that holds a refresh token is refreshed by
    one call to the token endpoint, without consent flow; the refreshed
    credential replaces the contents of token.json and is the one the
    service is built from. *)
Theorem refresh_success_is_persisted
    (env : Env) (verbosity : bool) (st : state)
    (content : string) (creds creds' : Credentials) (service : Session) :
  token_json st = Some content ->
  from_authorized_user_file env content SCOPES = Ok creds ->
  expired creds = true ->
  truthy_attr (refresh_token creds) = true ->
  refresh_request env creds = Ok creds' ->
  build env creds' = Ok service ->
  get_calendar_service env verbosity st
  = (Ok service,
     mkState (Some (to_json env creds'))
             (trace st ++ Refresh
                :: (if verbosity then [authenticated_line] else []))).
Proof.
  intros Hfile Hparse Hexp Hrt Hrefresh Hbuild.
  rewrite get_calendar_service_run. unfold stored_credentials, rbind.
  rewrite Hfile, Hparse. unfold valid. rewrite Hexp.
  replace (match token creds with Some _ => negb true | None => false end)
    with false by (destruct (token creds); reflexivity).
  rewrite renew_run. unfold refreshable. rewrite Hexp, Hrt. cbn [andb].
  rewrite Hrefresh, Hbuild.
  destruct verbosity; unfold log; cbn [trace token_json];
    rewrite <- ?app_assoc; reflexivity.
Qed.

Lemma refresh_success_is_persisted_witness :
  get_calendar_service online_env true stale_token_state
  = (Ok demo_service,
     mkState (Some "{token}") [Refresh; authenticated_line]).
Proof.
  exact (refresh_success_is_persisted online_env true stale_token_state
           "{stale}" stale_credentials fresh_credentials demo_service
           eq_refl eq_refl eq_refl eq_refl eq_refl eq_refl).
Defined.

(** X3. Whenever there is no usable credential and no way to refresh one
    (no token file, or a credential on file that is invalid and either not
    expired or without a refresh token), the consent flow is run, no
    refresh is attempted, and the credential it yields is written to
    token.json and used to build the service. *)
Theorem consent_when_not_refreshable
    (env : Env) (verbosity : bool) (st : state)
    (creds : option Credentials) (creds' : Credentials) (service : Session) :
  stored_credentials env st = Ok creds ->
  (forall c, creds = Some c -> valid c = false) ->
  refreshable creds = false ->
  from_client_secrets_file env "credentials.json" SCOPES = Ok tt ->
  run_local_server env = Ok creds' ->
  build env creds' = Ok service ->
  get_calendar_service env verbosity st
  = (Ok service,
     mkState (Some (to_json env creds'))
             (trace st ++ Consent
                :: map Stdout (consent_prompt env)
                ++ (if verbosity then [authenticated_line] else []))).
Proof.
  intros Hstored Hinvalid Hnot Hsecrets Hflow Hbuild.
  rewrite get_calendar_service_run, Hstored.
  assert (Hrenew : renew env creds st
                   = (Ok creds', mkState (Some (to_json env creds'))
                                         (trace (prompted env st)))).
  { rewrite renew_run, Hnot, interactive_flow_run, Hsecrets, Hflow.
    destruct creds; reflexivity. }
  destruct creds as [c |].
  - rewrite (Hinvalid c eq_refl), Hrenew, Hbuild.
    destruct verbosity; unfold log, prompted; cbn [trace token_json];
      rewrite <- ?app_assoc, ?app_nil_r; reflexivity.
  - rewrite Hrenew, Hbuild.
    destruct verbosity; unfold log, prompted; cbn [trace token_json];
      rewrite <- ?app_assoc, ?app_nil_r; reflexivity.
Qed.

Lemma consent_when_not_refreshable_witness :
  get_calendar_service demo_env false initial
  = (Ok demo_service,
     mkState (Some "{token}")
       [ Consent;
         Stdout [ Lit "Please visit this URL to authorize this application: ";
                  Interp (VStr "https://accounts.example/o/oauth2/auth") ] ]).
Proof.
  apply (consent_when_not_refreshable demo_env false initial None
           fresh_credentials demo_service); try reflexivity.
  intros c H. discriminate.
Defined.

(** X4. On the consent path the failures are fatal and leave token.json
    alone: without client configuration the call fails before the consent
    flow is started, and a consent flow that fails ends the call with its
    error. *)
Theorem consent_path_failures
    (env : Env) (verbosity : bool) (st : state)
    (creds : option Credentials) (e : exn) :
  stored_credentials env st = Ok creds ->
  (forall c, creds = Some c -> valid c = false) ->
  refreshable creds = false ->
  (from_client_secrets_file env "credentials.json" SCOPES = Raise e ->
   get_calendar_service env verbosity st = (Raise e, st))
  /\ (from_client_secrets_file env "credentials.json" SCOPES = Ok tt ->
      run_local_server env = Raise e ->
      get_calendar_service env verbosity st = (Raise e, prompted env st)
      /\ token_json (prompted env st) = token_json st).
Proof.
  intros Hstored Hinvalid Hnot.
  assert (Hrun : get_calendar_service env verbosity st
                 = match renew env creds st with
                   | (Raise e, st1) => (Raise e, st1)
                   | (Ok c, st1) =>
                       match build env c with
                       | Raise e => (Raise e, st1)
                       | Ok service =>
                           (Ok service,
                            if verbosity then log authenticated_line st1
                            else st1)
                       end
                   end).
  { rewrite get_calendar_service_run, Hstored.
    destruct creds as [c |]; [rewrite (Hinvalid c eq_refl) |]; reflexivity. }
  assert (Hrenew : renew env creds st
                   = match interactive_flow env st with
                     | (Ok c', st1) =>
                         (Ok c', mkState (Some (to_json env c')) (trace st1))
                     | (Raise e, st1) => (Raise e, st1)
                     end).
  { rewrite renew_run, Hnot. destruct creds; reflexivity. }
  rewrite Hrun, Hrenew, interactive_flow_run. split.
  - intros ->. reflexivity.
  - intros -> ->. split; reflexivity.
Qed.

Lemma consent_path_failures_witness :
  get_calendar_service unconfigured_env true initial
  = (Raise (FileNotFoundError "credentials.json"), initial)
  /\ get_calendar_service declined_env true initial
     = (Raise (LibraryError "AccessDeniedError" "access_denied"),
        mkState None
          [ Consent;
            Stdout [ Lit "Please visit this URL to authorize this application: ";
                     Interp (VStr "https://accounts.example/o/oauth2/auth") ] ]).
Proof.
  split.
  - apply (consent_path_failures unconfigured_env true initial None
             (FileNotFoundError "credentials.json")); try reflexivity.
    intros c H. discriminate.
  - apply (consent_path_failures declined_env true initial None
             (LibraryError "AccessDeniedError" "access_denied"));
      try reflexivity.
    intros c H. discriminate.
Defined.

(** X5. A token file that cannot be read as a credential is fatal: the
    call fails with the error of the reader, and neither a refresh nor the
    consent flow is tried, nor is the file touched. *)
Theorem unreadable_token_is_fatal
    (env : Env) (verbosity : bool) (st : state) (content : string) (e : exn) :
  token_json st = Some content ->
  from_authorized_user_file env content SCOPES = Raise e ->
  get_calendar_service env verbosity st = (Raise e, st).
Proof.
  intros Hfile Hparse.
  rewrite get_calendar_service_run. unfold stored_credentials, rbind.
  rewrite Hfile, Hparse. reflexivity.
Qed.

Lemma unreadable_token_is_fatal_witness :
  run_local_server unconfigured_env = Ok fresh_credentials /\
  get_calendar_service unconfigured_env false fresh_token_state
  = (Raise (ValueError "Expecting value"), fresh_token_state).
Proof.
  split; [reflexivity |].
  apply (unreadable_token_is_fatal unconfigured_env false fresh_token_state
           "{token}" (ValueError "Expecting value")); reflexivity.
Defined.

Lemma silent_app (t1 t2 : list effect) :
  silent (t1 ++ t2) = silent t1 ++ silent t2.
Proof. apply filter_app. Qed.

Lemma silent_consent (lines : list (list piece)) :
  silent (Consent :: map Stdout lines) = [Consent].
Proof.
  unfold silent. cbn [filter is_stdout negb]. f_equal.
  induction lines as [| line lines IH]; [reflexivity | exact IH].
Qed.

Lemma requests_silent (t : list effect) : requests (silent t) = requests t.
Proof.
  induction t as [| e t IH]; [reflexivity |].
  destruct e; simpl; rewrite ?IH; reflexivity.
Qed.

Lemma renew_step (env : Env) (creds : option Credentials)
    (st st1 : state) (r : result Credentials) :
  renew env creds st = (r, st1) ->
  exists core, renewal_step env st st1 core.
Proof.
  rewrite renew_run. intros Hrun.
  assert (Hflow : forall r0 st0,
            interactive_flow env st = (r0, st0) ->
            (match r0 with
             | Ok c' => (Ok c', mkState (Some (to_json env c')) (trace st0))
             | Raise e => (Raise e, st0)
             end) = (r, st1) ->
            exists core, renewal_step env st st1 core).
  { intros r0 st0 Hflow Hout. rewrite interactive_flow_run in Hflow.
    destruct (from_client_secrets_file env "credentials.json" SCOPES).
    - injection Hflow as <- <-.
      exists (Consent :: map Stdout (consent_prompt env)).
      destruct (run_local_server env) as [c' | e]; injection Hout as <- <-;
        (split; [reflexivity |]); (split; [auto |]).
      + right. split; [discriminate | exists c'; reflexivity].
      + left. reflexivity.
    - injection Hflow as <- <-. injection Hout as <- <-. exists [].
      split; [symmetry; apply app_nil_r |]. auto. }
  destruct creds as [c |].
  - destruct (refreshable (Some c)).
    + exists [Refresh].
      destruct (refresh_request env c) as [c' | e]; injection Hrun as <- <-;
        (split; [reflexivity |]); (split; [auto |]).
      * right. split; [discriminate | exists c'; reflexivity].
      * left. reflexivity.
    + destruct (interactive_flow env st) as [r0 st0] eqn:E.
      exact (Hflow r0 st0 eq_refl Hrun).
  - destruct (interactive_flow env st) as [r0 st0] eqn:E.
    exact (Hflow r0 st0 eq_refl Hrun).
Qed.

(** What a call of the Authenticator adds to the trace: at most one
    renewal step, then at most its progress line. *)
Lemma get_calendar_service_step (env : Env) (verbosity : bool)
    (st st' : state) (r : result Session) :
  get_calendar_service env verbosity st = (r, st') ->
  exists core line st1,
    renewal_step env st st1 core /\
    trace st' = trace st1 ++ line /\
    token_json st' = token_json st1 /\
    (line = [] \/ (line = [authenticated_line] /\ verbosity = true)).
Proof.
  rewrite get_calendar_service_run. intros Hrun.
  assert (Hnone : renewal_step env st st []).
  { split; [symmetry; apply app_nil_r |]. auto. }
  assert (Hfinish : forall c st1 core,
            renewal_step env st st1 core ->
            match build env c with
            | Ok service =>
                (Ok service,
                 if verbosity then log authenticated_line st1 else st1)
            | Raise e => (Raise e, st1)
            end = (r, st') ->
            exists core line st1,
              renewal_step env st st1 core /\
              trace st' = trace st1 ++ line /\
              token_json st' = token_json st1 /\
              (line = [] \/ (line = [authenticated_line] /\ verbosity = true))).
  { intros c st1 core Hstep Hout.
    destruct (build env c) as [service | e]; [destruct verbosity |];
      injection Hout as <- <-.
    - exists core, [authenticated_line], st1.
      split; [exact Hstep |]. repeat split; auto.
    - exists core, [], st1. rewrite app_nil_r.
      split; [exact Hstep |]. repeat split; auto.
    - exists core, [], st1. rewrite app_nil_r.
      split; [exact Hstep |]. repeat split; auto. }
  assert (Hrenewed : forall creds,
            (let (r0, st1) := renew env creds st in
             match r0 with
             | Ok c =>
                 match build env c with
                 | Ok service =>
                     (Ok service,
                      if verbosity then log authenticated_line st1 else st1)
                 | Raise e => (Raise e, st1)
                 end
             | Raise e => (Raise e, st1)
             end) = (r, st') ->
            exists core line st1,
              renewal_step env st st1 core /\
              trace st' = trace st1 ++ line /\
              token_json st' = token_json st1 /\
              (line = [] \/ (line = [authenticated_line] /\ verbosity = true))).
  { intros creds Hout.
    destruct (renew env creds st) as [[c | e] st1] eqn:Hrenew;
      apply renew_step in Hrenew as [core Hstep].
    - exact (Hfinish c st1 core Hstep Hout).
    - injection Hout as <- <-. exists core, [], st1.
      rewrite app_nil_r. split; [exact Hstep |]. repeat split; auto. }
  destruct (stored_credentials env st) as [creds | e].
  - destruct creds as [c |]; [| exact (Hrenewed None Hrun)].
    destruct (valid c); [| exact (Hrenewed (Some c) Hrun)].
    exact (Hfinish c st [] Hnone Hrun).
  - injection Hrun as <- <-. exists [], [], st. rewrite app_nil_r.
    split; [exact Hnone |]. repeat split; auto.
Qed.

(** X6. Whatever its outcome, a call of the Authenticator executes no
    request of the calendar API and takes at most one renewal step, a
    refresh or a consent flow, never both; token.json is either left as it
    was or, after such a step, holds a credential the step produced. *)
Theorem get_calendar_service_effects
    (env : Env) (verbosity : bool) (st : state) :
  exists new,
    trace (snd (get_calendar_service env verbosity st)) = trace st ++ new /\
    requests new = [] /\
    (silent new = [] \/ silent new = [Refresh] \/ silent new = [Consent]) /\
    (token_json (snd (get_calendar_service env verbosity st)) = token_json st
     \/ (silent new <> [] /\
         exists c,
           token_json (snd (get_calendar_service env verbosity st))
           = Some (to_json env c))).
Proof.
  destruct (get_calendar_service env verbosity st) as [r st'] eqn:Hrun.
  apply get_calendar_service_step
    in Hrun as (core & line & st1 & (Htrace & Hcore & Htok) & Hline & Htok' & Hl).
  exists (core ++ line). cbn [snd].
  assert (Hsilent : silent (core ++ line) = silent core).
  { rewrite silent_app.
    assert (silent line = []) as -> by (destruct Hl as [-> | [-> _]]; reflexivity).
    apply app_nil_r. }
  assert (Hstep : silent core = [] /\ core = []
                  \/ silent core = [Refresh] \/ silent core = [Consent]).
  { destruct Hcore as [-> | [-> | ->]]; auto.
    right. right. apply silent_consent. }
  split; [rewrite Hline, Htrace, app_assoc; reflexivity |].
  split.
  { rewrite <- requests_silent, Hsilent.
    destruct Hstep as [[-> _] | [-> | ->]]; reflexivity. }
  rewrite Hsilent, Htok'. split; [tauto |].
  destruct Htok as [Htok | [Hne Hc]]; [left; exact Htok | right].
  split; [| exact Hc].
  destruct Hstep as [[_ ->] | [-> | ->]];
    [contradiction | discriminate | discriminate].
Qed.

Lemma renew_ok (env : Env) (creds : option Credentials)
    (st st1 : state) (c' : Credentials) :
  renew env creds st = (Ok c', st1) ->
  token_json st1 = Some (to_json env c') /\
  (run_local_server env = Ok c' \/ exists c, refresh_request env c = Ok c').
Proof.
  rewrite renew_run. intros Hrun.
  assert (Hflow : (let (r, st0) := interactive_flow env st in
                   match r with
                   | Ok c0 => (Ok c0, mkState (Some (to_json env c0)) (trace st0))
                   | Raise e => (Raise e, st0)
                   end) = (Ok c', st1) ->
                  token_json st1 = Some (to_json env c') /\
                  (run_local_server env = Ok c'
                   \/ exists c, refresh_request env c = Ok c')).
  { rewrite interactive_flow_run.
    destruct (from_client_secrets_file env "credentials.json" SCOPES);
      [| discriminate].
    destruct (run_local_server env) as [c0 | e]; [| discriminate].
    intros H. injection H as <- <-. auto. }
  destruct creds as [c |]; [| exact (Hflow Hrun)].
  destruct (refreshable (Some c)); [| exact (Hflow Hrun)].
  destruct (refresh_request env c) as [c0 | e] eqn:Hrefresh; [| discriminate].
  injection Hrun as <- <-. split; [reflexivity |]. right. eauto.
Qed.

Lemma get_calendar_service_stored_valid
    (env : Env) (verbosity : bool) (st : state)
    (creds : Credentials) (service : Session) :
  stored_credentials env st = Ok (Some creds) ->
  valid creds = true ->
  build env creds = Ok service ->
  get_calendar_service env verbosity st
  = (Ok service, if verbosity then log authenticated_line st else st).
Proof.
  intros Hstored Hvalid Hbuild.
  rewrite get_calendar_service_run, Hstored, Hvalid, Hbuild. reflexivity.
Qed.

(** X7. In an environment whose renewals yield valid credentials that
    token.json gives back when read, a call that follows a successful call
    takes no renewal step: it returns the same service and adds nothing to
    the trace but its progress line. *)
Theorem rerun_needs_no_renewal
    (env : Env) (first second : bool) (st st1 : state) (service : Session) :
  (forall c',
     run_local_server env = Ok c' \/ (exists c, refresh_request env c = Ok c') ->
     valid c' = true /\
     from_authorized_user_file env (to_json env c') SCOPES = Ok c') ->
  get_calendar_service env first st = (Ok service, st1) ->
  get_calendar_service env second st1
  = (Ok service, if second then log authenticated_line st1 else st1).
Proof.
  intros Hrenewals Hrun.
  rewrite get_calendar_service_run in Hrun.
  destruct (stored_credentials env st) as [creds |] eqn:Hstored;
    [| discriminate].
  assert (Hsame : forall st0 c,
            match build env c with
            | Ok service0 =>
                (Ok service0,
                 if first then log authenticated_line st0 else st0)
            | Raise e => (Raise e, st0)
            end = (Ok service, st1) ->
            build env c = Ok service /\ token_json st1 = token_json st0).
  { intros st0 c H. destruct (build env c) as [service0 |]; [| discriminate].
    injection H as <- <-. split; [reflexivity |].
    destruct first; reflexivity. }
  assert (Hrenewed :
            (let (r, st0) := renew env creds st in
             match r with
             | Ok c =>
                 match build env c with
                 | Ok service0 =>
                     (Ok service0,
                      if first then log authenticated_line st0 else st0)
                 | Raise e => (Raise e, st0)
                 end
             | Raise e => (Raise e, st0)
             end) = (Ok service, st1) ->
            get_calendar_service env second st1
            = (Ok service, if second then log authenticated_line st1 else st1)).
  { intros H.
    destruct (renew env creds st) as [[c' | e] st0] eqn:Hrenew; [| discriminate].
    apply renew_ok in Hrenew as [Htok Hfrom].
    apply Hsame in H as [Hbuild Htok1].
    destruct (Hrenewals c' Hfrom) as [Hvalid Hread].
    apply get_calendar_service_stored_valid with (creds := c');
      [| exact Hvalid | exact Hbuild].
    unfold stored_credentials, rbind. rewrite Htok1, Htok, Hread. reflexivity. }
  destruct creds as [c |]; [| exact (Hrenewed Hrun)].
  destruct (valid c) eqn:Hvalid; [| exact (Hrenewed Hrun)].
  apply Hsame in Hrun as [Hbuild Htok1].
  apply get_calendar_service_stored_valid with (creds := c);
    [| exact Hvalid | exact Hbuild].
  unfold stored_credentials in *. rewrite Htok1. exact Hstored.
Qed.

Lemma rerun_needs_no_renewal_witness :
  get_calendar_service online_env true stale_token_state
  = (Ok demo_service, mkState (Some "{token}") [Refresh; authenticated_line])
  /\ get_calendar_service online_env false
       (mkState (Some "{token}") [Refresh; authenticated_line])
     = (Ok demo_service,
        mkState (Some "{token}") [Refresh; authenticated_line]).
Proof.
  split; [reflexivity |].
  apply (rerun_needs_no_renewal online_env true false stale_token_state
           (mkState (Some "{token}") [Refresh; authenticated_line])
           demo_service).
  - intros c' [H | [c H]]; injection H as <-; split; reflexivity.
  - reflexivity.
Defined.

Lemma get_calendar_service_valid_token_witness :
  get_calendar_service demo_env true fresh_token_state
  = (Ok demo_service, mkState (Some "{token}") [authenticated_line]).
Proof.
  exact (get_calendar_service_valid_token demo_env true fresh_token_state
           "{token}" fresh_credentials demo_service
           eq_refl eq_refl eq_refl eq_refl).
Defined.

(* ================================================================== *)
(** * Event Creator and Calendar Creator: further properties *)
(* ================================================================== *)

(** X8. Whatever the outcome, [add_event] executes at most one request:
    the insertion of the event body, exactly when it has a session and
    [calendar_id], title, start and end are all non-empty.  Nothing else is
    checked: description and location may be empty, and start and end are
    sent in whatever order they come. *)
Theorem add_event_requests
    (service : option Session)
    (calendar_id summary start_time end_time description location : string)
    (verbosity : bool) (st : state) :
  requests (trace (snd (add_event service calendar_id summary start_time
                                  end_time description location verbosity st)))
  = requests (trace st)
    ++ match service with
       | Some _ =>
           if event_details_given calendar_id summary start_time end_time
           then [insertion calendar_id summary start_time end_time
                           description location]
           else []
       | None => []
       end
  /\ token_json (snd (add_event service calendar_id summary start_time
                                end_time description location verbosity st))
     = token_json st.
Proof.
  unfold add_event, event_details_given, insertion.
  destruct service as [svc |]; unfold_monad;
    [| cbn; rewrite app_nil_r; auto].
  destruct (truthy (VStr calendar_id) && truthy (VStr summary)
            && truthy (VStr start_time) && truthy (VStr end_time));
    [| cbn; rewrite app_nil_r; auto].
  destruct (api svc (requests (trace st)) _) as [reference | e];
    [| cbn [snd]; split; [apply requests_log_net | reflexivity]].
  destruct verbosity; [| cbn [snd]; split; [apply requests_log_net | reflexivity]].
  destruct (py_get reference "htmlLink" VNone) as [link | e]; cbn [snd].
  - split; [| reflexivity].
    rewrite requests_log_stdout. apply requests_log_net.
  - split; [apply requests_log_net | reflexivity].
Qed.

(** X9. An error of the service is passed on as it is: when the service
    rejects the insertion (or the creation), the call ends with that very
    error after its single request, and prints nothing. *)
Theorem creators_propagate_api_errors
    (svc : Session)
    (calendar_id summary start_time end_time description location : string)
    (verbosity : bool) (st : state) (e : exn) :
  (event_details_given calendar_id summary start_time end_time = true ->
   api svc (requests (trace st))
       (insertion calendar_id summary start_time end_time description location)
     = Raise e ->
   add_event (Some svc) calendar_id summary start_time end_time
             description location verbosity st
   = (Raise e,
      log (Net (insertion calendar_id summary start_time end_time
                          description location)) st))
  /\ (summary <> "" ->
      api svc (requests (trace st)) (creation summary) = Raise e ->
      create_calendar (Some svc) summary verbosity st
      = (Raise e, log (Net (creation summary)) st)).
Proof.
  split.
  - unfold event_details_given, insertion, add_event. intros Hgiven Hapi.
    unfold_monad. rewrite Hgiven, Hapi. reflexivity.
  - unfold creation, create_calendar. intros Hsummary Hapi.
    unfold_monad.
    assert (Htruthy : truthy (VStr summary) = true).
    { simpl. destruct (String.eqb summary "") eqn:E; [| reflexivity].
      apply String.eqb_eq in E. contradiction. }
    rewrite Htruthy, Hapi. reflexivity.
Qed.

Lemma creators_propagate_api_errors_witness :
  add_event (Some failing_service) "primary" "Meeting" "2023-09-13T10:00:00"
            "2023-09-13T11:00:00" "" "" true initial
  = (Raise (HttpError 500 "Backend Error"),
     mkState None [Net (insertion "primary" "Meeting" "2023-09-13T10:00:00"
                                  "2023-09-13T11:00:00" "" "")])
  /\ create_calendar (Some failing_service) "Team" true initial
     = (Raise (HttpError 500 "Backend Error"),
        mkState None [Net (creation "Team")]).
Proof.
  destruct (creators_propagate_api_errors failing_service "primary" "Team"
              "2023-09-13T10:00:00" "2023-09-13T11:00:00" "" "" true initial
              (HttpError 500 "Backend Error")) as [_ Hcreate].
  destruct (creators_propagate_api_errors failing_service "primary" "Meeting"
              "2023-09-13T10:00:00" "2023-09-13T11:00:00" "" "" true initial
              (HttpError 500 "Backend Error")) as [Hadd _].
  split.
  - apply Hadd; reflexivity.
  - apply Hcreate; [discriminate | reflexivity].
Defined.

(** X10. A call of [create_calendar] that completes evaluates to [None].
    It had a session and a non-empty title and executed exactly one
    request, the creation of a calendar with that title and the time zone
    'Asia/Jerusalem'; the identifier and the title in the service's answer
    are only printed, when [verbosity] is set. *)
Theorem create_calendar_success_returns_none
    (service : option Session) (summary : string)
    (verbosity : bool) (st st' : state) (r : value) :
  create_calendar service summary verbosity st = (Ok r, st') ->
  r = VNone /\
  summary <> "" /\
  exists svc created,
    service = Some svc /\
    api svc (requests (trace st))
        (Calendars_insert
           (VDict [ ("summary", VStr summary);
                    ("timeZone", VStr "Asia/Jerusalem") ]))
      = Ok created /\
    token_json st' = token_json st /\
    (if verbosity
     then exists title id,
         py_getitem created "summary" = Ok title /\
         py_getitem created "id" = Ok id /\
         trace st' = trace st ++ [Net (creation summary);
                                  Stdout [Lit "Created calendar: "; Interp title;
                                          Lit ", ID: "; Interp id]]
     else trace st' = trace st ++ [Net (creation summary)]).
Proof.
  unfold create_calendar, creation, calendar_body. intros Hrun.
  destruct service as [svc |]; unfold_monad; [| discriminate].
  destruct (truthy (VStr summary)) eqn:Htruthy; [| discriminate].
  assert (Hne : summary <> "") by (intros ->; discriminate).
  destruct (api svc (requests (trace st)) _) as [created | e] eqn:Hapi;
    [| discriminate].
  destruct verbosity.
  - destruct (py_getitem created "summary") as [title | e] eqn:Ht;
      [| discriminate].
    destruct (py_getitem created "id") as [id | e] eqn:Hi; [| discriminate].
    injection Hrun as <- <-.
    split; [reflexivity |]. split; [exact Hne |].
    exists svc, created. split; [reflexivity |]. split; [exact Hapi |].
    split; [reflexivity |].
    exists title, id. split; [exact Ht |]. split; [exact Hi |].
    unfold log; cbn [trace]. rewrite <- app_assoc. reflexivity.
  - injection Hrun as <- <-.
    split; [reflexivity |]. split; [exact Hne |].
    exists svc, created. split; [reflexivity |]. split; [exact Hapi |].
    split; reflexivity.
Qed.

Lemma create_calendar_success_returns_none_witness :
  create_calendar (Some demo_service) "Team" true initial
  = (Ok VNone,
     mkState None
       [ Net (creation "Team");
         Stdout [ Lit "Created calendar: "; Interp (VStr "Team");
                  Lit ", ID: "; Interp (VStr "cal1") ] ])
  /\ VNone = VNone /\ "Team" <> "".
Proof.
  split; [reflexivity |].
  pose proof (create_calendar_success_returns_none
                (Some demo_service) "Team" true initial _ VNone eq_refl)
    as (Hr & Hs & _).
  auto.
Defined.

(* ================================================================== *)
(** * Event Fetcher: further properties *)
(* ================================================================== *)

Lemma appending_effects (env : Env) (verbosity : bool) (k : nat) :
  Forall (fun e => fetch_effect env verbosity e /\ forall msg, e <> Warn msg)
         (appending env k).
Proof.
  unfold appending. destruct (append_warning env) as [msg |] eqn:Hmsg;
    [| constructor].
  induction k as [| k IH]; cbn [repeat]; constructor; [| exact IH].
  split; [exact Hmsg | discriminate].
Qed.

Lemma calendar_events_trace (env : Env) (svc : Session)
    (time_min time_max : string)
    (verbosity : bool) (calendar : value) (df : DataFrame)
    (st st' : state) (r : result DataFrame) :
  calendar_events env svc time_min time_max verbosity calendar df st = (r, st') ->
  token_json st' = token_json st /\
  exists new,
    trace st' = trace st ++ new /\
    Forall (fun e => fetch_effect env verbosity e /\ forall msg, e <> Warn msg) new.
Proof.
  rewrite calendar_events_run. intros Hrun.
  assert (Hnet : forall id : value,
            fetch_effect env verbosity (Net (list_request time_min time_max id)) /\
            forall msg, Net (list_request time_min time_max id) <> Warn msg).
  { intros id. split; [exact I | discriminate]. }
  destruct (py_getitem calendar "id") as [id | e].
  2: { injection Hrun as <- <-. split; [reflexivity |].
       exists []. rewrite app_nil_r. auto. }
  destruct (py_getitem calendar "summary") as [name | e].
  2: { injection Hrun as <- <-. split; [reflexivity |].
       exists []. rewrite app_nil_r. auto. }
  cbv zeta in Hrun.
  destruct (api svc (requests (trace st)) _) as [events_result | e].
  2: { injection Hrun as <- <-. split; [reflexivity |].
       exists [Net (list_request time_min time_max id)]. auto. }
  destruct (py_get events_result "items" (VList [])) as [items | e].
  2: { injection Hrun as <- <-. split; [reflexivity |].
       exists [Net (list_request time_min time_max id)]. auto. }
  assert (Hst2 : forall st2,
            st2 = (if negb (truthy items) && verbosity
                   then log (no_events_line name)
                          (log (Net (list_request time_min time_max id)) st)
                   else log (Net (list_request time_min time_max id)) st) ->
            token_json st2 = token_json st /\
            exists new,
              trace st2 = trace st ++ new /\
              Forall (fun e => fetch_effect env verbosity e
                               /\ forall msg, e <> Warn msg) new).
  { intros st2 ->. destruct (negb (truthy items)); cbn [andb].
    - destruct verbosity.
      + split; [reflexivity |].
        exists [Net (list_request time_min time_max id); no_events_line name].
        split; [unfold log; cbn [trace]; rewrite <- app_assoc; reflexivity |].
        repeat constructor; try discriminate.
      + split; [reflexivity |].
        exists [Net (list_request time_min time_max id)]. auto.
    - split; [reflexivity |].
      exists [Net (list_request time_min time_max id)]. auto. }
  destruct (py_iter items) as [events | e].
  - injection Hrun as _ <-.
    destruct (Hst2 _ eq_refl) as (Htok2 & new2 & Htrace2 & Hall2).
    split; [exact Htok2 |].
    exists (new2 ++ appending env (length (projected name events))).
    split; [unfold appended; cbn [trace]; rewrite Htrace2, app_assoc;
            reflexivity |].
    apply Forall_app. split; [exact Hall2 | apply appending_effects].
  - injection Hrun as _ <-. apply Hst2. reflexivity.
Qed.

Lemma calendars_loop_trace (env : Env) (svc : Session) (time_min time_max : string)
    (verbosity : bool) (calendar_list : list value) :
  forall (df : DataFrame) (st st' : state) (r : result DataFrame),
    for_each calendar_list df
      (calendar_events env svc time_min time_max verbosity) st = (r, st') ->
    token_json st' = token_json st /\
    exists new,
      trace st' = trace st ++ new /\
      Forall (fun e => fetch_effect env verbosity e /\ forall msg, e <> Warn msg)
             new.
Proof.
  induction calendar_list as [| calendar calendar_list IH];
    intros df st st' r Hrun.
  - injection Hrun as <- <-. split; [reflexivity |].
    exists []. rewrite app_nil_r. auto.
  - cbn [for_each] in Hrun. unfold bind in Hrun.
    destruct (calendar_events env svc time_min time_max verbosity calendar df st)
      as [[df1 | e] st1] eqn:Hbody;
      apply calendar_events_trace in Hbody as (Htok1 & new1 & Htrace1 & Hall1).
    + apply IH in Hrun as (Htok & new & Htrace & Hall).
      split; [congruence |].
      exists (new1 ++ new). split.
      * rewrite Htrace, Htrace1, app_assoc. reflexivity.
      * apply Forall_app. auto.
    + injection Hrun as <- <-. split; [exact Htok1 |]. eauto.
Qed.

(** What a call of [fetch_events] adds to the trace. *)
Lemma fetch_events_trace (env : Env) (service : option Session)
    (date : string) (verbosity : bool) (st st' : state)
    (r : result DataFrame) :
  fetch_events env service date verbosity st = (r, st') ->
  token_json st' = token_json st /\
  exists new,
    trace st' = trace st ++ new /\
    Forall (fetch_effect env verbosity) new /\
    forall msg,
      In (Warn msg) new <->
      msg = "No events found for the specified date." /\ r = Ok [].
Proof.
  assert (Hnothing : forall e,
            (Raise e, st) = (r, st') ->
            token_json st' = token_json st /\
            exists new,
              trace st' = trace st ++ new /\
              Forall (fetch_effect env verbosity) new /\
              forall msg,
                In (Warn msg) new <->
                msg = "No events found for the specified date." /\ r = Ok []).
  { intros e H. injection H as <- <-. split; [reflexivity |].
    exists []. rewrite app_nil_r. split; [reflexivity |]. split; [constructor |].
    intros msg. split; [intros [] | intros [_ H]; discriminate]. }
  destruct service as [svc |]; [| exact (Hnothing _)].
  rewrite fetch_events_run.
  destruct (calendar_day env date) as [dt | e]; [| exact (Hnothing e)].
  clear Hnothing. cbv zeta. intros Hrun.
  set (st0 := if verbosity then log (fetching_line date) st else st) in *.
  assert (H0 : token_json st0 = token_json st /\
               exists pre, trace st0 = trace st ++ pre /\
                           Forall (fun e => fetch_effect env verbosity e
                                            /\ forall msg, e <> Warn msg) pre).
  { unfold st0. destruct verbosity.
    - split; [reflexivity |]. exists [fetching_line date].
      split; [reflexivity |]. repeat constructor; try discriminate.
    - split; [reflexivity |]. exists []. rewrite app_nil_r. auto. }
  destruct H0 as (Htok0 & pre & Htrace0 & Hpre).
  assert (Hstop : forall e,
            (Raise e, log (Net CalendarList_list) st0) = (r, st') ->
            token_json st' = token_json st /\
            exists new,
              trace st' = trace st ++ new /\
              Forall (fetch_effect env verbosity) new /\
              forall msg,
                In (Warn msg) new <->
                msg = "No events found for the specified date." /\ r = Ok []).
  { intros e H. injection H as <- <-. split; [exact Htok0 |].
    exists (pre ++ [Net CalendarList_list]).
    split; [unfold log; cbn [trace]; rewrite Htrace0, app_assoc; reflexivity |].
    split.
    - apply Forall_app. split; [| repeat constructor].
      eapply Forall_impl; [| exact Hpre]. intros a [Ha _]. exact Ha.
    - intros msg. split; [| intros [_ H]; discriminate].
      intros Hin. apply in_app_or in Hin as [Hin | [Hin | []]];
        [| discriminate].
      rewrite Forall_forall in Hpre. destruct (Hpre _ Hin) as [_ Hno].
      elim (Hno msg). reflexivity. }
  destruct (api svc (requests (trace st)) CalendarList_list)
    as [response | e]; [| exact (Hstop e Hrun)].
  destruct (items_of response) as [calendar_list | e]; [| exact (Hstop e Hrun)].
  clear Hstop.
  match type of Hrun with
  | context [@for_each ?A ?S ?xs ?acc ?body ?s] =>
      destruct (@for_each A S xs acc body s) as [r2 st2] eqn:Hloop
  end.
  apply calendars_loop_trace in Hloop as (Htok2 & new2 & Htrace2 & Hall2).
  cbn [token_json log] in Htok2.
  assert (Hcore : trace st2 = trace st ++ (pre ++ Net CalendarList_list :: new2)).
  { rewrite Htrace2. unfold log; cbn [trace].
    rewrite Htrace0, <- !app_assoc. reflexivity. }
  assert (Hcore_all : Forall (fun e => fetch_effect env verbosity e
                                       /\ forall msg, e <> Warn msg)
                             (pre ++ Net CalendarList_list :: new2)).
  { apply Forall_app. split; [exact Hpre |].
    constructor; [split; [exact I | discriminate] | exact Hall2]. }
  assert (Hno_warn : forall msg,
            ~ In (Warn msg) (pre ++ Net CalendarList_list :: new2)).
  { intros msg Hin. rewrite Forall_forall in Hcore_all.
    destruct (Hcore_all _ Hin) as [_ Hno]. elim (Hno msg). reflexivity. }
  assert (Hcore_eff : Forall (fetch_effect env verbosity)
                             (pre ++ Net CalendarList_list :: new2)).
  { eapply Forall_impl; [| exact Hcore_all]. intros a [Ha _]. exact Ha. }
  destruct r2 as [df | e].
  - destruct df as [| row df]; cbn [empty] in Hrun; injection Hrun as <- <-.
    + split; [cbn [token_json log]; congruence |].
      exists ((pre ++ Net CalendarList_list :: new2) ++ [no_events_warning]).
      split; [unfold log; cbn [trace]; rewrite Hcore, <- !app_assoc;
              reflexivity |].
      split.
      * apply Forall_app. split; [exact Hcore_eff |].
        repeat constructor.
      * intros msg. split.
        -- intros Hin. apply in_app_or in Hin as [Hin | [Hin | []]].
           ++ elim (Hno_warn msg Hin).
           ++ injection Hin as <-. auto.
        -- intros [-> _]. apply in_or_app. right. left. reflexivity.
    + split; [congruence |].
      exists (pre ++ Net CalendarList_list :: new2).
      split; [exact Hcore |]. split; [exact Hcore_eff |].
      intros msg. split; [intros Hin; elim (Hno_warn msg Hin) |].
      intros [_ H]. discriminate.
  - injection Hrun as <- <-. split; [congruence |].
    exists (pre ++ Net CalendarList_list :: new2).
    split; [exact Hcore |]. split; [exact Hcore_eff |].
    intros msg. split; [intros Hin; elim (Hno_warn msg Hin) |].
    intros [_ H]. discriminate.
Qed.

(** X11. [fetch_events] only reads: whatever its arguments and outcome,
    it leaves token.json alone, starts neither a refresh nor a consent
    flow, and every request it executes is the enumeration of the
    calendars or a listing of events; it never inserts or creates. *)
Theorem fetch_events_only_reads
    (env : Env) (service : option Session) (date : string)
    (verbosity : bool) (st : state) :
  token_json (snd (fetch_events env service date verbosity st)) = token_json st
  /\ exists new,
       trace (snd (fetch_events env service date verbosity st))
       = trace st ++ new /\
       ~ In Refresh new /\ ~ In Consent new /\
       forall r, In r (requests new) ->
         r = CalendarList_list \/
         exists id time_min time_max single order,
           r = Events_list id time_min time_max single order.
Proof.
  destruct (fetch_events env service date verbosity st) as [r st'] eqn:Hrun.
  apply fetch_events_trace in Hrun as (Htok & new & Htrace & Hall & _).
  cbn [snd]. split; [exact Htok |].
  exists new. split; [exact Htrace |].
  rewrite Forall_forall in Hall.
  split; [intros Hin; exact (Hall _ Hin) |].
  split; [intros Hin; exact (Hall _ Hin) |].
  intros q Hq.
  assert (Hin : In (Net q) new).
  { clear - Hq. induction new as [| e new IH]; [destruct Hq |].
    destruct e; cbn in Hq; try (right; apply IH; exact Hq).
    destruct Hq as [-> | Hq]; [left; reflexivity | right; apply IH; exact Hq]. }
  specialize (Hall _ Hin).
  destruct q; cbn in Hall; try contradiction; [left; reflexivity |].
  right. eauto 6.
Qed.

Lemma project_all_projected (calendar_name : value) (events : list value) :
  forall rows,
    project_all calendar_name events = Ok rows ->
    projected calendar_name events = rows.
Proof.
  induction events as [| event events IH]; intros rows H.
  - injection H as <-. reflexivity.
  - cbn [project_all projected] in *. unfold rbind in H.
    destruct (event_data calendar_name event) as [row |]; [| discriminate].
    destruct (project_all calendar_name events) as [rows' |]; [| discriminate].
    injection H as <-. rewrite (IH rows' eq_refl). reflexivity.
Qed.

Lemma library_warnings_app (t u : list effect) :
  library_warnings (t ++ u) = library_warnings t ++ library_warnings u.
Proof. apply filter_app. Qed.

Lemma library_warnings_log (e : effect) (st : state) :
  is_future_warning e = false ->
  library_warnings (trace (log e st)) = library_warnings (trace st).
Proof.
  intros He. unfold log; cbn [trace]. rewrite library_warnings_app.
  unfold library_warnings at 2. cbn [filter]. rewrite He. apply app_nil_r.
Qed.

Lemma library_warnings_appending (env : Env) (k : nat) :
  library_warnings (appending env k) = appending env k.
Proof.
  unfold appending. destruct (append_warning env) as [msg |]; [| reflexivity].
  induction k as [| k IH]; [reflexivity |].
  cbn [repeat]. unfold library_warnings in *. cbn [filter is_future_warning].
  rewrite IH. reflexivity.
Qed.

Lemma appending_add (env : Env) (j k : nat) :
  appending env (j + k) = appending env j ++ appending env k.
Proof.
  unfold appending. destruct (append_warning env) as [msg |]; [| reflexivity].
  apply repeat_app.
Qed.

(** A loop that completes has had [DataFrame.append] called once for each
    row it has added. *)
Lemma calendars_loop_warnings (env : Env) (svc : Session)
    (time_min time_max : string) (verbosity : bool)
    (calendar_list : list value) :
  forall (df df' : DataFrame) (st st' : state),
    for_each calendar_list df
      (calendar_events env svc time_min time_max verbosity) st = (Ok df', st') ->
    exists rows,
      df' = df ++ rows /\
      library_warnings (trace st')
      = library_warnings (trace st) ++ appending env (length rows).
Proof.
  induction calendar_list as [| calendar calendar_list IH];
    intros df df' st st' Hrun.
  - injection Hrun as <- <-. exists []. rewrite app_nil_r.
    split; [reflexivity |]. unfold appending.
    destruct (append_warning env); cbn [length repeat];
      rewrite app_nil_r; reflexivity.
  - cbn [for_each] in Hrun. unfold bind in Hrun.
    rewrite calendar_events_run in Hrun.
    destruct (py_getitem calendar "id") as [id |]; [| discriminate].
    destruct (py_getitem calendar "summary") as [name |]; [| discriminate].
    cbv zeta in Hrun.
    destruct (api svc (requests (trace st)) _) as [events_result |];
      [| discriminate].
    destruct (py_get events_result "items" (VList [])) as [items |];
      [| discriminate].
    destruct (py_iter items) as [events |]; [| discriminate].
    unfold rbind in Hrun.
    destruct (project_all name events) as [rows |] eqn:Hrows; [| discriminate].
    rewrite (project_all_projected name events rows Hrows) in Hrun.
    apply IH in Hrun as (rows' & -> & Hwarn).
    exists (rows ++ rows'). split; [symmetry; apply app_assoc |].
    rewrite Hwarn. unfold appended; cbn [trace].
    rewrite library_warnings_app, library_warnings_appending.
    rewrite length_app, appending_add, <- app_assoc. f_equal.
    destruct (negb (truthy items) && verbosity);
      rewrite !library_warnings_log by reflexivity; reflexivity.
Qed.

Lemma fetch_events_library_warnings (env : Env) (service : option Session)
    (date : string) (verbosity : bool) (st st' : state) (df : DataFrame) :
  fetch_events env service date verbosity st = (Ok df, st') ->
  library_warnings (trace st')
  = library_warnings (trace st) ++ appending env (length df).
Proof.
  destruct service as [svc |]; [| discriminate].
  rewrite fetch_events_run.
  destruct (calendar_day env date) as [dt |]; [| discriminate].
  cbv zeta.
  destruct (api svc (requests (trace st)) CalendarList_list)
    as [response |]; [| discriminate].
  destruct (items_of response) as [calendar_list |]; [| discriminate].
  match goal with
  | |- context [@for_each ?A ?S ?xs ?acc ?body ?s] =>
      destruct (@for_each A S xs acc body s) as [[df0 | e] st2] eqn:Hloop;
      [| discriminate]
  end.
  intros Hrun. injection Hrun as <- <-.
  apply calendars_loop_warnings in Hloop as (rows & -> & Hwarn).
  cbn [app].
  assert (Hst2 : library_warnings (trace st2)
                 = library_warnings (trace st) ++ appending env (length rows)).
  { rewrite Hwarn. f_equal.
    rewrite library_warnings_log by reflexivity.
    destruct verbosity; [apply library_warnings_log |]; reflexivity. }
  destruct (empty rows); [| exact Hst2].
  rewrite library_warnings_log by reflexivity. exact Hst2.
Qed.

(** X12. The warning of the program goes with the empty frame and with
    nothing else: a call of [fetch_events] issues the warning "No events
    found for the specified date." exactly when it returns an empty frame,
    and no other warning of its own.  The only other warnings of a call
    are those of [DataFrame.append], where the installed release
    deprecates the method: a call that returns a frame has caused one for
    each row of the frame, and none where the release issues none. *)
Theorem fetch_events_warns_exactly_when_empty
    (env : Env) (service : option Session) (date : string)
    (verbosity : bool) (st : state) :
  exists new,
    trace (snd (fetch_events env service date verbosity st)) = trace st ++ new /\
    (forall msg,
       In (Warn msg) new <->
       msg = "No events found for the specified date." /\
       fst (fetch_events env service date verbosity st) = Ok []) /\
    (forall msg,
       In (FutureWarning msg) new -> append_warning env = Some msg) /\
    (forall df,
       fst (fetch_events env service date verbosity st) = Ok df ->
       library_warnings new = appending env (length df)).
Proof.
  destruct (fetch_events env service date verbosity st) as [r st'] eqn:Hrun.
  pose proof Hrun as Hrun'.
  apply fetch_events_trace in Hrun as (_ & new & Htrace & Hall & Hwarn).
  exists new. split; [exact Htrace |]. split; [exact Hwarn |]. split.
  - intros msg Hin. rewrite Forall_forall in Hall. exact (Hall _ Hin).
  - cbn [fst]. intros df ->.
    apply fetch_events_library_warnings in Hrun'.
    rewrite Htrace, library_warnings_app in Hrun'.
    apply app_inv_head in Hrun'. exact Hrun'.
Qed.

Lemma fetch_events_warns_exactly_when_empty_witness :
  fst (fetch_events deprecating_env (Some demo_service) "2023-09-13"
                    false initial)
  = Ok [standup_row]
  /\ library_warnings
       (trace (snd (fetch_events deprecating_env (Some demo_service)
                                 "2023-09-13" false initial)))
     = [FutureWarning "The frame.append method is deprecated and will be removed from pandas in a future version. Use pandas.concat instead."]
  /\ ~ In (Warn "No events found for the specified date.")
          (trace (snd (fetch_events deprecating_env (Some demo_service)
                                    "2023-09-13" false initial))).
Proof.
  destruct (fetch_events_warns_exactly_when_empty
              deprecating_env (Some demo_service) "2023-09-13" false initial)
    as (new & Htrace & Hwarn & _ & Hlib).
  split; [reflexivity |]. rewrite Htrace.
  change (trace initial ++ new) with new. split.
  - rewrite (Hlib [standup_row] eq_refl). reflexivity.
  - intros Hin. apply Hwarn in Hin as [_ H]. discriminate H.
Defined.

(** A frame of one row under a release of pandas that deprecates
    [DataFrame.append]: one warning, after the listing that gave the row. *)
Example fetch_events_deprecated_append :
  fetch_events deprecating_env (Some demo_service) "2023-09-13" false initial
  = (Ok [standup_row],
     mkState None
       [ Net CalendarList_list;
         Net (list_request "2023-09-13T00:00:00+02:00"
                           "2023-09-13T23:59:59+02:00"
                           (VStr "work@example.com"));
         FutureWarning "The frame.append method is deprecated and will be removed from pandas in a future version. Use pandas.concat instead.";
         Net (list_request "2023-09-13T00:00:00+02:00"
                           "2023-09-13T23:59:59+02:00"
                           (VStr "me@example.com")) ]).
Proof. reflexivity. Qed.

Lemma midnight_errors (y m d : Z) :
  existing_day y m d = false ->
  exists msg, midnight y m d = Raise (ValueError msg).
Proof.
  unfold existing_day, midnight. intros H.
  destruct ((1 <=? y)%Z && (y <=? 9999)%Z) eqn:Hy; cbn [negb andb] in *;
    [| eauto].
  rewrite <- andb_assoc in H.
  destruct ((1 <=? m)%Z && (m <=? 12)%Z) eqn:Hm; cbn [negb andb] in *;
    [| eauto].
  rewrite H. cbn [negb]. eauto.
Qed.

(** X13. A date that is not valid stops [fetch_events] at once: the call
    fails with the error of the parser or of the zone and leaves the state
    as it found it; no request is executed and, even with [verbosity] set,
    nothing is printed.  An argument of the form YYYY-MM-DD that names no
    existing day is such a date, and the error is a [ValueError]. *)
Theorem fetch_events_invalid_date
    (env : Env) (svc : Session) (date : string) (verbosity : bool)
    (st : state) :
  ~ valid_date env date ->
  exists e,
    calendar_day env date = Raise e /\
    fetch_events env (Some svc) date verbosity st = (Raise e, st) /\
    (forall y m d,
       parse_calendar_day date = Some (y, m, d) ->
       existing_day y m d = false ->
       exists msg, e = ValueError msg).
Proof.
  intros Hinvalid. rewrite fetch_events_run.
  destruct (calendar_day env date) as [dt | e] eqn:Hday.
  - elim Hinvalid. exists dt. exact Hday.
  - exists e. split; [reflexivity |]. split; [reflexivity |].
    intros y m d Hform Hnone.
    unfold calendar_day, fromisoformat, rbind in Hday. rewrite Hform in Hday.
    destruct (midnight_errors y m d Hnone) as [msg Hmid].
    rewrite Hmid in Hday. injection Hday as <-. exists msg. reflexivity.
Qed.

Lemma fetch_events_invalid_date_witness :
  ~ valid_date demo_env "2023-02-30" /\
  (parse_calendar_day "2023-02-30" = Some (2023, 2, 30)%Z /\
   existing_day 2023 2 30 = false) /\
  fetch_events demo_env (Some demo_service) "2023-02-30" true initial
  = (Raise (ValueError "day is out of range for month"), initial) /\
  exists e,
    calendar_day demo_env "2023-02-30" = Raise e /\
    fetch_events demo_env (Some demo_service) "2023-02-30" true initial
    = (Raise e, initial) /\
    (forall y m d,
       parse_calendar_day "2023-02-30" = Some (y, m, d) ->
       existing_day y m d = false ->
       exists msg, e = ValueError msg).
Proof.
  assert (Hinvalid : ~ valid_date demo_env "2023-02-30").
  { intros [dt H]. discriminate. }
  split; [exact Hinvalid |]. split; [split; reflexivity |].
  split; [reflexivity |].
  exact (fetch_events_invalid_date demo_env demo_service "2023-02-30" true
           initial Hinvalid).
Defined.

(** X14. When the enumeration of the calendars fails, [fetch_events]
    ends with the error of the service after that single request: no
    listing is attempted and no warning is issued. *)
Theorem fetch_events_enumeration_failure
    (env : Env) (svc : Session) (date : string) (verbosity : bool)
    (st : state) (e : exn) :
  valid_date env date ->
  api svc (requests (trace st)) CalendarList_list = Raise e ->
  fetch_events env (Some svc) date verbosity st
  = (Raise e,
     mkState (token_json st)
             (trace st ++ (if verbosity then [fetching_line date] else [])
                ++ [Net CalendarList_list])).
Proof.
  intros [dt Hday] Hapi.
  rewrite fetch_events_run, Hday. cbv zeta. rewrite Hapi.
  destruct verbosity; unfold log; cbn [trace token_json];
    rewrite <- ?app_assoc; reflexivity.
Qed.

Lemma fetch_events_enumeration_failure_witness :
  valid_date demo_env "2023-09-13" /\
  fetch_events demo_env (Some failing_service) "2023-09-13" true initial
  = (Raise (HttpError 500 "Backend Error"),
     mkState None [fetching_line "2023-09-13"; Net CalendarList_list]).
Proof.
  assert (Hvalid : valid_date demo_env "2023-09-13").
  { exists (mkDatetime 2023 9 13 0 0 0 0 (Some 180%Z)). reflexivity. }
  split; [exact Hvalid |].
  exact (fetch_events_enumeration_failure demo_env failing_service
           "2023-09-13" true initial (HttpError 500 "Backend Error")
           Hvalid eq_refl).
Defined.

Lemma for_each_app {A S} (xs ys : list A) (body : A -> S -> M S) :
  forall (acc : S) (st : state),
    for_each (xs ++ ys) acc body st =
    match for_each xs acc body st with
    | (Ok acc', st') => for_each ys acc' body st'
    | (Raise e, st') => (Raise e, st')
    end.
Proof.
  induction xs as [| x xs IH]; intros acc st; [reflexivity |].
  cbn [app for_each]. unfold bind.
  destruct (body x acc st) as [[acc1 | e] st1]; [apply IH | reflexivity].
Qed.

(** X15. A listing that fails makes the whole call fail: when the service
    answers the calendars before some calendar and raises an error for
    that one, [fetch_events] ends with this error; the calendars before it
    have been listed, the ones after it are not asked for, and the rows
    gathered so far are not returned. *)
Theorem fetch_events_listing_failure
    (env : Env) (svc : Session) (date : string) (verbosity : bool)
    (st : state) (response : value)
    (before after : list value) (calendar id name : value) (e : exn) :
  valid_date env date ->
  api svc (requests (trace st)) CalendarList_list = Ok response ->
  items_of response = Ok (before ++ calendar :: after) ->
  Forall (served_calendar svc (time_min_of env date) (time_max_of env date)) before ->
  py_getitem calendar "id" = Ok id ->
  py_getitem calendar "summary" = Ok name ->
  (forall history,
     api svc history (list_request (time_min_of env date) (time_max_of env date) id)
     = Raise e) ->
  exists st' ids,
    fetch_events env (Some svc) date verbosity st = (Raise e, st') /\
    Forall2 (fun c i => py_getitem c "id" = Ok i) before ids /\
    requests (trace st')
    = requests (trace st)
      ++ CalendarList_list
         :: map (list_request (time_min_of env date) (time_max_of env date)) ids
      ++ [list_request (time_min_of env date) (time_max_of env date) id].
Proof.
  intros [dt Hday] Hapi Hitems Hserved Hid Hname Hfail.
  rewrite fetch_events_run, Hday. cbv zeta. rewrite Hapi, Hitems.
  rewrite for_each_app.
  set (st1 := log (Net CalendarList_list)
                  (if verbosity then log (fetching_line date) st else st)).
  assert (Hst1 : requests (trace st1) = requests (trace st) ++ [CalendarList_list]).
  { unfold st1. rewrite requests_log_net. f_equal.
    destruct verbosity; [apply requests_log_stdout | reflexivity]. }
  destruct (calendars_loop_completes env svc (time_min_of env date) (time_max_of env date)
              verbosity before Hserved [] st1) as (df & st2 & Hloop).
  rewrite Hloop.
  apply calendars_loop_requests in Hloop as (_ & ids & Hreq & Hids).
  cbn [for_each]. unfold bind. rewrite calendar_events_run, Hid, Hname.
  cbv zeta. rewrite Hfail.
  eexists. exists ids. split; [reflexivity |].
  split; [exact (Hids df eq_refl) |].
  rewrite requests_log_net, Hreq, Hst1, <- !app_assoc. reflexivity.
Qed.

Lemma fetch_events_listing_failure_witness :
  valid_date demo_env "2023-09-13" /\
  exists st' ids,
    fetch_events demo_env (Some flaky_service) "2023-09-13" false initial
    = (Raise (HttpError 500 "Backend Error"), st') /\
    Forall2 (fun c i => py_getitem c "id" = Ok i) [work_calendar] ids /\
    requests (trace st')
    = requests (trace initial)
      ++ CalendarList_list
         :: map (list_request (time_min_of demo_env "2023-09-13")
                              (time_max_of demo_env "2023-09-13")) ids
      ++ [list_request (time_min_of demo_env "2023-09-13") (time_max_of demo_env "2023-09-13")
                       (VStr "me@example.com")].
Proof.
  assert (Hvalid : valid_date demo_env "2023-09-13").
  { exists (mkDatetime 2023 9 13 0 0 0 0 (Some 180%Z)). reflexivity. }
  split; [exact Hvalid |].
  apply (fetch_events_listing_failure demo_env flaky_service "2023-09-13"
           false initial
           (VDict [("items", VList [work_calendar; personal_calendar])])
           [work_calendar] [] personal_calendar
           (VStr "me@example.com") (VStr "Personal")
           (HttpError 500 "Backend Error") Hvalid);
    try reflexivity.
  constructor; [| constructor].
  exists (VStr "work@example.com"), (VStr "Work").
  split; [reflexivity |]. split; [reflexivity |].
  intros history.
  exists (VDict [("items",
                  VList [demo_event "Standup" "2023-09-13T09:00:00+02:00"
                                              "2023-09-13T10:00:00+02:00"])]),
         [demo_event "Standup" "2023-09-13T09:00:00+02:00"
                               "2023-09-13T10:00:00+02:00"].
  split; [reflexivity |]. split; [reflexivity |].
  constructor; [| constructor].
  exists [ ("summary", VStr "Standup");
           ("start", VDict [("dateTime", VStr "2023-09-13T09:00:00+02:00")]);
           ("end", VDict [("dateTime", VStr "2023-09-13T10:00:00+02:00")]) ],
         [("dateTime", VStr "2023-09-13T09:00:00+02:00")],
         [("dateTime", VStr "2023-09-13T10:00:00+02:00")].
  repeat split.
Defined.

Lemma standup_is_well_formed (title start end_ : string) :
  well_formed_event (demo_event title start end_).
Proof.
  unfold well_formed_event, demo_event.
  do 3 eexists. split; [reflexivity |]. split; reflexivity.
Qed.

Lemma fetch_events_completes_witness :
  valid_date demo_env "2023-09-13" /\
  exists df st',
    fetch_events demo_env (Some standup_service) "2023-09-13" false initial
    = (Ok df, st').
Proof.
  assert (Hvalid : valid_date demo_env "2023-09-13").
  { exists (mkDatetime 2023 9 13 0 0 0 0 (Some 180%Z)). reflexivity. }
  split; [exact Hvalid |].
  apply (fetch_events_completes demo_env standup_service "2023-09-13" false
           initial (VDict [("items", VList [work_calendar])]) [work_calendar]
           Hvalid eq_refl eq_refl).
  constructor; [| constructor].
  exists (VStr "work@example.com"), (VStr "Work").
  split; [reflexivity |]. split; [reflexivity |].
  intros history.
  exists (VDict [("items",
                  VList [demo_event "Standup" "2023-09-13T09:00:00+02:00"
                                              "2023-09-13T10:00:00+02:00"])]),
         [demo_event "Standup" "2023-09-13T09:00:00+02:00"
                               "2023-09-13T10:00:00+02:00"].
  split; [reflexivity |]. split; [reflexivity |].
  constructor; [apply standup_is_well_formed | constructor].
Defined.

Lemma project_all_without_start (calendar_name : value)
    (earlier later : list value) (e : list (string * value)) :
  Forall well_formed_event earlier ->
  lookup "start" e = None ->
  project_all calendar_name (earlier ++ VDict e :: later)
  = Raise (KeyError "start").
Proof.
  intros Hwf Hstart. induction Hwf as [| event earlier Hevent _ IH].
  - cbn [app project_all]. unfold event_data, event_time, rbind.
    cbn [py_get py_getitem]. rewrite Hstart. reflexivity.
  - destruct (project_all_well_formed calendar_name [event])
      as [rows Hrows]; [constructor; [exact Hevent | constructor] |].
    cbn [app project_all] in *. unfold rbind in *.
    destruct (event_data calendar_name event) as [row |]; [| discriminate].
    rewrite IH. reflexivity.
Qed.

(** X21. One event without a start spoils the report: when the service
    lists, for some calendar, an event that carries no 'start' (after any
    number of regular events, and after calendars it answered regularly),
    [fetch_events] fails with [KeyError] 'start' and returns no row at
    all. *)
Theorem fetch_events_event_without_start
    (env : Env) (svc : Session) (date : string) (verbosity : bool)
    (st : state) (response : value)
    (before after : list value) (calendar id name : value) :
  valid_date env date ->
  api svc (requests (trace st)) CalendarList_list = Ok response ->
  items_of response = Ok (before ++ calendar :: after) ->
  Forall (served_calendar svc (time_min_of env date) (time_max_of env date)) before ->
  py_getitem calendar "id" = Ok id ->
  py_getitem calendar "summary" = Ok name ->
  (forall history, exists events_result earlier e later,
     api svc history (list_request (time_min_of env date) (time_max_of env date) id)
     = Ok events_result /\
     items_of events_result = Ok (earlier ++ VDict e :: later) /\
     Forall well_formed_event earlier /\
     lookup "start" e = None) ->
  exists st',
    fetch_events env (Some svc) date verbosity st
    = (Raise (KeyError "start"), st').
Proof.
  intros [dt Hday] Hapi Hitems Hserved Hid Hname Hbad.
  rewrite fetch_events_run, Hday. cbv zeta. rewrite Hapi, Hitems.
  rewrite for_each_app.
  match goal with
  | |- context [@for_each ?A ?S before ?acc ?body ?s] =>
      destruct (calendars_loop_completes env svc (time_min_of env date)
                  (time_max_of env date) verbosity before Hserved acc s)
        as (df & st2 & Hloop)
  end.
  rewrite Hloop.
  destruct (Hbad (requests (trace st2)))
    as (events_result & earlier & e & later & Hlist & Hevents & Hwf & Hstart).
  cbn [for_each]. unfold bind. rewrite calendar_events_run, Hid, Hname.
  cbv zeta. rewrite Hlist.
  unfold items_of, rbind in Hevents.
  destruct (py_get events_result "items" (VList [])) as [items |];
    [| discriminate].
  rewrite Hevents, (project_all_without_start name earlier later e Hwf Hstart).
  cbn [rbind]. eexists. reflexivity.
Qed.

Lemma fetch_events_event_without_start_witness :
  valid_date demo_env "2023-09-13" /\
  exists st',
    fetch_events demo_env (Some undated_service) "2023-09-13" false initial
    = (Raise (KeyError "start"), st').
Proof.
  assert (Hvalid : valid_date demo_env "2023-09-13").
  { exists (mkDatetime 2023 9 13 0 0 0 0 (Some 180%Z)). reflexivity. }
  split; [exact Hvalid |].
  apply (fetch_events_event_without_start demo_env undated_service
           "2023-09-13" false initial
           (VDict [("items", VList [work_calendar])])
           [] [] work_calendar (VStr "work@example.com") (VStr "Work")
           Hvalid eq_refl eq_refl (Forall_nil _) eq_refl eq_refl).
  intros history.
  exists (VDict [("items",
                  VList [demo_event "Standup" "2023-09-13T09:00:00+02:00"
                                              "2023-09-13T10:00:00+02:00";
                         VDict [("summary", VStr "Cancelled");
                                ("status", VStr "cancelled")]])]),
         [demo_event "Standup" "2023-09-13T09:00:00+02:00"
                               "2023-09-13T10:00:00+02:00"],
         [("summary", VStr "Cancelled"); ("status", VStr "cancelled")],
         [].
  split; [reflexivity |]. split; [reflexivity |].
  split; [| reflexivity].
  constructor; [apply standup_is_well_formed | constructor].
Defined.

(* ================================================================== *)
(** * The verbosity flag: further properties *)
(* ================================================================== *)

Lemma silent_log (e : effect) (st : state) :
  silent (trace (log e st)) = silent (trace st) ++ silent [e].
Proof. unfold log; cbn [trace]. apply silent_app. Qed.

Lemma same_effects_requests (st1 st2 : state) :
  same_effects st1 st2 -> requests (trace st1) = requests (trace st2).
Proof.
  intros [_ H]. rewrite <- (requests_silent (trace st1)), H.
  apply requests_silent.
Qed.

Lemma same_effects_log (e : effect) (st1 st2 : state) :
  same_effects st1 st2 -> same_effects (log e st1) (log e st2).
Proof.
  intros [Htok H]. split; [exact Htok |]. rewrite !silent_log, H. reflexivity.
Qed.

Lemma same_effects_print (line : list piece) (st1 st2 : state) :
  same_effects st1 st2 -> same_effects (log (Stdout line) st1) st2.
Proof.
  intros [Htok H]. split; [exact Htok |].
  rewrite silent_log, H. cbn. apply app_nil_r.
Qed.

Lemma filter_stdout_lines (lines : list (list piece)) :
  filter is_stdout (map Stdout lines) = map Stdout lines.
Proof.
  induction lines as [| line lines IH]; [reflexivity |].
  cbn [map filter is_stdout]. rewrite IH. reflexivity.
Qed.

Lemma same_effects_appended (env : Env) (k : nat) (st1 st2 : state) :
  same_effects st1 st2 ->
  same_effects (appended env k st1) (appended env k st2).
Proof.
  intros [Htok H]. split; [exact Htok |].
  unfold appended; cbn [trace]. rewrite !silent_app, H. reflexivity.
Qed.

Lemma calendars_loop_same_effects (env : Env) (svc : Session) (time_min time_max : string)
    (calendar_list : list value) :
  forall (df : DataFrame) (st1 st2 : state),
    same_effects st1 st2 ->
    let loud := for_each calendar_list df
                  (calendar_events env svc time_min time_max true) st1 in
    let quiet := for_each calendar_list df
                   (calendar_events env svc time_min time_max false) st2 in
    fst loud = fst quiet /\ same_effects (snd loud) (snd quiet).
Proof.
  induction calendar_list as [| calendar calendar_list IH];
    intros df st1 st2 Hsame; cbv zeta.
  - simpl. auto.
  - cbn [for_each]. unfold bind. rewrite !calendar_events_run.
    pose proof (same_effects_requests st1 st2 Hsame) as Hreq.
    destruct (py_getitem calendar "id") as [id | e];
      [| split; [reflexivity | exact Hsame]].
    destruct (py_getitem calendar "summary") as [name | e];
      [| split; [reflexivity | exact Hsame]].
    cbv zeta. rewrite Hreq.
    pose proof (same_effects_log (Net (list_request time_min time_max id))
                  st1 st2 Hsame) as Hsame1.
    destruct (api svc (requests (trace st2)) _) as [events_result | e];
      [| split; [reflexivity | exact Hsame1]].
    destruct (py_get events_result "items" (VList [])) as [items | e];
      [| split; [reflexivity | exact Hsame1]].
    rewrite andb_false_r, andb_true_r.
    assert (Hsame2 : same_effects
                       (if negb (truthy items)
                        then log (no_events_line name)
                               (log (Net (list_request time_min time_max id)) st1)
                        else log (Net (list_request time_min time_max id)) st1)
                       (log (Net (list_request time_min time_max id)) st2)).
    { destruct (negb (truthy items)); [| exact Hsame1].
      apply same_effects_print. exact Hsame1. }
    destruct (py_iter items) as [events | e];
      [| split; [reflexivity | exact Hsame2]].
    apply (same_effects_appended env (length (projected name events)))
      in Hsame2.
    unfold rbind.
    destruct (project_all name events) as [rows | e];
      [| split; [reflexivity | exact Hsame2]].
    apply IH. exact Hsame2.
Qed.

Lemma fetch_events_same_effects (env : Env) (service : option Session)
    (date : string) (st : state) :
  same_effects (snd (fetch_events env service date true st))
               (snd (fetch_events env service date false st)).
Proof.
  assert (Hrefl : same_effects st st) by (split; reflexivity).
  destruct service as [svc |]; [| exact Hrefl].
  rewrite !fetch_events_run.
  destruct (calendar_day env date) as [dt | e]; [| exact Hrefl].
  cbv zeta.
  assert (Hsame : same_effects
                    (log (Net CalendarList_list) (log (fetching_line date) st))
                    (log (Net CalendarList_list) st)).
  { apply same_effects_log. apply same_effects_print. exact Hrefl. }
  destruct (api svc (requests (trace st)) CalendarList_list)
    as [response | e]; [| exact Hsame].
  destruct (items_of response) as [calendar_list | e]; [| exact Hsame].
  pose proof (calendars_loop_same_effects env svc (time_min_of env date)
                (time_max_of env date) calendar_list [] _ _ Hsame)
    as [Hfst Hsnd].
  cbv zeta in Hfst, Hsnd.
  match goal with
  | |- same_effects (snd (match ?loud with _ => _ end))
                    (snd (match ?quiet with _ => _ end)) =>
      destruct loud as [[df1 | e1] s1]; destruct quiet as [[df2 | e2] s2];
      cbn [fst snd] in *; try discriminate; try exact Hsnd
  end.
  injection Hfst as <-.
  destruct (empty df1); [apply same_effects_log |]; exact Hsnd.
Qed.

Lemma get_calendar_service_same_effects (env : Env) (st : state) :
  same_effects (snd (get_calendar_service env true st))
               (snd (get_calendar_service env false st)).
Proof.
  assert (Hrefl : forall s, same_effects s s) by (split; reflexivity).
  rewrite !get_calendar_service_run.
  destruct (stored_credentials env st) as [creds | e]; [| apply Hrefl].
  match goal with
  | |- context [let (_, _) := ?m in _] =>
      destruct m as [[c | e] st1]; [| apply Hrefl]
  end.
  destruct (build env c) as [service | e]; [| apply Hrefl].
  cbn [snd]. apply same_effects_print. apply Hrefl.
Qed.

Lemma add_event_same_effects (service : option Session)
    (calendar_id summary start_time end_time description location : string)
    (st : state) :
  same_effects
    (snd (add_event service calendar_id summary start_time end_time
                    description location true st))
    (snd (add_event service calendar_id summary start_time end_time
                    description location false st)).
Proof.
  assert (Hrefl : forall s, same_effects s s) by (split; reflexivity).
  unfold add_event.
  destruct service as [svc |]; unfold_monad; [| apply Hrefl].
  destruct (truthy (VStr calendar_id) && truthy (VStr summary)
            && truthy (VStr start_time) && truthy (VStr end_time));
    [| apply Hrefl].
  destruct (api svc (requests (trace st)) _) as [reference | e];
    [| apply Hrefl].
  destruct (py_get reference "htmlLink" VNone) as [link | e];
    cbn [snd]; [apply same_effects_print |]; apply Hrefl.
Qed.

Lemma create_calendar_same_effects (service : option Session)
    (summary : string) (st : state) :
  same_effects (snd (create_calendar service summary true st))
               (snd (create_calendar service summary false st)).
Proof.
  assert (Hrefl : forall s, same_effects s s) by (split; reflexivity).
  unfold create_calendar.
  destruct service as [svc |]; unfold_monad; [| apply Hrefl].
  destruct (truthy (VStr summary)); [| apply Hrefl].
  destruct (api svc (requests (trace st)) _) as [created | e];
    [| apply Hrefl].
  destruct (py_getitem created "summary") as [title | e];
    [| cbn [snd]; apply Hrefl].
  destruct (py_getitem created "id") as [id | e];
    cbn [snd]; [apply same_effects_print |]; apply Hrefl.
Qed.

(** X16. The flag only adds printed lines.  For each of the four
    operations, the calls with and without [verbosity] leave the same
    token.json and, the printed lines apart, the same trace: the same
    requests in the same order, the same renewal steps, the same
    warnings. *)
Theorem verbosity_only_adds_lines
    (env : Env) (service : option Session) (date : string)
    (calendar_id summary start_time end_time description location : string)
    (st : state) :
  same_effects (snd (get_calendar_service env true st))
               (snd (get_calendar_service env false st))
  /\ same_effects (snd (fetch_events env service date true st))
                  (snd (fetch_events env service date false st))
  /\ same_effects
       (snd (add_event service calendar_id summary start_time end_time
                       description location true st))
       (snd (add_event service calendar_id summary start_time end_time
                       description location false st))
  /\ same_effects (snd (create_calendar service summary true st))
                  (snd (create_calendar service summary false st)).
Proof.
  split; [apply get_calendar_service_same_effects |].
  split; [apply fetch_events_same_effects |].
  split; [apply add_event_same_effects | apply create_calendar_same_effects].
Qed.

(** X17. Without [verbosity] the program prints nothing itself:
    [fetch_events], [add_event] and [create_calendar] add no line to
    standard output, whatever their outcome, and the only lines a call of
    [get_calendar_service] adds are those the consent flow prints on its
    own account, when it is run; a call that runs no consent flow adds
    none. *)
Theorem quiet_calls_print_nothing
    (env : Env) (service : option Session) (date : string)
    (calendar_id summary start_time end_time description location : string)
    (st : state) :
  let printed st' := filter is_stdout (trace st') in
  (exists new,
      trace (snd (get_calendar_service env false st)) = trace st ++ new /\
      ((~ In Consent new /\ filter is_stdout new = [])
       \/ (In Consent new /\
           filter is_stdout new = map Stdout (consent_prompt env))))
  /\ printed (snd (fetch_events env service date false st)) = printed st
  /\ printed (snd (add_event service calendar_id summary start_time end_time
                             description location false st)) = printed st
  /\ printed (snd (create_calendar service summary false st)) = printed st.
Proof.
  cbv zeta.
  assert (Hlog : forall e s, is_stdout e = false ->
            filter is_stdout (trace (log e s)) = filter is_stdout (trace s)).
  { intros e s He. unfold log; cbn [trace]. rewrite filter_app. cbn.
    rewrite He. apply app_nil_r. }
  split; [| split; [| split]].
  - destruct (get_calendar_service env false st) as [r st'] eqn:Hrun.
    apply get_calendar_service_step
      in Hrun as (core & line & st1 & (Htrace & Hcore & _) & Hline & _ & Hl).
    cbn [snd]. exists core.
    destruct Hl as [-> | [_ H]]; [| discriminate].
    rewrite app_nil_r in Hline. split; [congruence |].
    destruct Hcore as [-> | [-> | ->]].
    + left. split; [intros [] | reflexivity].
    + left. split; [| reflexivity].
      intros [H | []]. discriminate.
    + right. split; [left; reflexivity |].
      cbn [filter is_stdout]. apply filter_stdout_lines.
  - destruct (fetch_events env service date false st) as [r st'] eqn:Hrun.
    apply fetch_events_trace in Hrun as (_ & new & Htrace & Hall & _).
    cbn [snd]. rewrite Htrace, filter_app.
    replace (filter is_stdout new) with (@nil effect);
      [apply app_nil_r |].
    clear - Hall. induction Hall as [| e new He _ IH]; [reflexivity |].
    destruct e; cbn in *; try exact IH. discriminate.
  - unfold add_event.
    destruct service as [svc |]; unfold_monad; [| reflexivity].
    destruct (truthy (VStr calendar_id) && truthy (VStr summary)
              && truthy (VStr start_time) && truthy (VStr end_time));
      [| reflexivity].
    destruct (api svc (requests (trace st)) _) as [reference | e];
      cbn [snd]; apply Hlog; reflexivity.
  - unfold create_calendar.
    destruct service as [svc |]; unfold_monad; [| reflexivity].
    destruct (truthy (VStr summary)); [| reflexivity].
    destruct (api svc (requests (trace st)) _) as [created | e];
      cbn [snd]; apply Hlog; reflexivity.
Qed.

Lemma quiet_calls_print_nothing_witness :
  filter is_stdout (trace (snd (get_calendar_service demo_env false initial)))
  = [ Stdout [ Lit "Please visit this URL to authorize this application: ";
               Interp (VStr "https://accounts.example/o/oauth2/auth") ] ]
  /\ filter is_stdout
       (trace (snd (get_calendar_service demo_env false fresh_token_state)))
     = []
  /\ filter is_stdout
       (trace (snd (fetch_events demo_env (Some demo_service) "2023-09-13"
                                 false initial)))
     = [].
Proof.
  destruct (quiet_calls_print_nothing
              demo_env (Some demo_service) "2023-09-13"
              "primary" "Team" "2023-09-13T10:00:00" "2023-09-13T11:00:00"
              "" "" initial)
    as ((new & Htrace & Hcases) & Hfetch & _).
  destruct (quiet_calls_print_nothing
              demo_env (Some demo_service) "2023-09-13"
              "primary" "Team" "2023-09-13T10:00:00" "2023-09-13T11:00:00"
              "" "" fresh_token_state)
    as ((new' & Htrace' & Hcases') & _).
  split; [| split; [| exact Hfetch]].
  - rewrite Htrace. change (trace initial ++ new) with new.
    assert (Hnew : In Consent new).
    { change (In Consent (trace initial ++ new)). rewrite <- Htrace.
      left. reflexivity. }
    destruct Hcases as [[Hno _] | [_ H]]; [elim (Hno Hnew) | exact H].
  - rewrite Htrace'. change (trace fresh_token_state ++ new') with new'.
    assert (Hnew : ~ In Consent new').
    { change (~ In Consent (trace fresh_token_state ++ new')).
      rewrite <- Htrace'. intros []. }
    destruct Hcases' as [[_ H] | [Hyes _]]; [exact H | elim (Hnew Hyes)].
Defined.

(* ================================================================== *)
(** * Inserting and fetching against a storing double *)
(* ================================================================== *)

Lemma inserted_into_app (id : value) (h1 h2 : list request) :
  inserted_into id (h1 ++ h2) = inserted_into id h1 ++ inserted_into id h2.
Proof.
  induction h1 as [| r h1 IH]; [reflexivity |].
  destruct r; cbn [app inserted_into]; try exact IH.
  destruct (same_calendar id calendarId); [cbn; f_equal |]; exact IH.
Qed.

Lemma inserted_into_in (id : value) (history : list request) (body : value) :
  In body (inserted_into id history) ->
  exists calendar_id, In (Events_insert calendar_id body) history.
Proof.
  induction history as [| r history IH]; [intros [] |].
  destruct r; cbn [inserted_into]; intros Hin;
    try (destruct (IH Hin) as [c Hc]; exists c; right; exact Hc).
  destruct (same_calendar id calendarId).
  - destruct Hin as [<- | Hin].
    + exists calendarId. left. reflexivity.
    + destruct (IH Hin) as [c Hc]. exists c. right. exact Hc.
  - destruct (IH Hin) as [c Hc]. exists c. right. exact Hc.
Qed.

(** Against the double, the loop over the calendars completes and gives,
    for every calendar, the projections of what the store holds for it. *)
Lemma store_loop (env : Env) (calendars : list value)
    (time_min time_max : string)
    (verbosity : bool) (store : value -> list value)
    (calendar_list : list value) :
  (forall id, Forall well_formed_event (store id)) ->
  Forall (fun c => exists id name, c = calendar_entry id name) calendar_list ->
  forall (df : DataFrame) (st : state),
    (forall id, inserted_into id (requests (trace st)) = store id) ->
    exists rowss st',
      for_each calendar_list df
        (calendar_events env (store_service calendars) time_min time_max
                         verbosity)
        st = (Ok (df ++ concat rowss), st') /\
      Forall2 (fun c rows =>
                 exists id name,
                   c = calendar_entry id name /\
                   project_all (VStr name) (store (VStr id)) = Ok rows)
              calendar_list rowss.
Proof.
  intros Hwf Hentries.
  induction Hentries as [| c calendar_list (id & name & ->) _ IH];
    intros df st Hstore.
  - exists [], st. cbn. rewrite app_nil_r. split; [reflexivity | constructor].
  - destruct (project_all_well_formed (VStr name) (store (VStr id)) (Hwf _))
      as [rows Hrows].
    cbn [for_each]. unfold bind. rewrite calendar_events_run.
    cbn [calendar_entry py_getitem lookup String.eqb Ascii.eqb Bool.eqb].
    cbv zeta.
    cbn [store_service api list_request py_get lookup String.eqb Ascii.eqb
         Bool.eqb py_iter].
    rewrite Hstore, Hrows. cbn [rbind].
    match goal with
    | |- context [for_each calendar_list (df ++ rows) ?body ?s] =>
        destruct (IH (df ++ rows) s) as (rowss & st' & Hloop & Hall)
    end.
    { intros id0.
      assert (Hnet : forall s0 q,
                inserted_into id0 (requests (trace s0)) = store id0 ->
                (forall calendar_id body, q <> Events_insert calendar_id body) ->
                inserted_into id0 (requests (trace (log (Net q) s0)))
                = store id0).
      { intros s0 q Hs0 Hq. rewrite requests_log_net, inserted_into_app, Hs0.
        destruct q; cbn; try apply app_nil_r.
        elim (Hq calendarId body). reflexivity. }
      rewrite requests_appended.
      destruct (negb (truthy (VList (store (VStr id)))) && verbosity).
      - unfold no_events_line. rewrite requests_log_stdout.
        apply Hnet; [apply Hstore | discriminate].
      - apply Hnet; [apply Hstore | discriminate]. }
    exists (rows :: rowss), st'. split.
    + rewrite Hloop. cbn [concat]. rewrite app_assoc. reflexivity.
    + constructor; [| exact Hall]. exists id, name. auto.
Qed.

Lemma Forall2_forall_l {A B} (R : A -> B -> Prop) (xs : list A) (ys : list B) :
  Forall2 R xs ys -> forall x, In x xs -> exists y, In y ys /\ R x y.
Proof.
  induction 1 as [| x y xs ys Hxy _ IH]; intros x' Hin; [destruct Hin |].
  destruct Hin as [<- | Hin].
  - exists y. split; [left; reflexivity | exact Hxy].
  - destruct (IH x' Hin) as (y' & Hy' & HR).
    exists y'. split; [right; exact Hy' | exact HR].
Qed.

Lemma event_body_well_formed
    (summary start_time end_time description location : string) :
  well_formed_event
    (event_body summary start_time end_time description location).
Proof.
  unfold well_formed_event, event_body.
  do 3 eexists. split; [reflexivity |]. split; reflexivity.
Qed.

(** What the projection of [fetch_events] reads in the body that
    [add_event] builds. *)
Lemma event_data_event_body (calendar_name : value)
    (summary start_time end_time description location : string) :
  event_data calendar_name
    (event_body summary start_time end_time description location)
  = Ok (mkEventRow calendar_name (VStr summary)
                   (VStr start_time) (VStr end_time)).
Proof. reflexivity. Qed.

(** X18. Round trip against a double that stores what is inserted: after
    [add_event] has put an event into one of the enumerated calendars,
    [fetch_events] completes and its frame holds a row with the name of
    that calendar and the title, start and end exactly as they were passed
    to [add_event]. *)
Theorem add_event_then_fetch_events
    (env : Env) (calendars : list value)
    (calendar_id name summary start_time end_time description location : string)
    (date : string) (verbose_add verbose_fetch : bool) (st : state) :
  valid_date env date ->
  calendar_id <> "" -> summary <> "" -> start_time <> "" -> end_time <> "" ->
  Forall (fun c => exists id nm, c = calendar_entry id nm) calendars ->
  In (calendar_entry calendar_id name) calendars ->
  stored_events_well_formed (requests (trace st)) ->
  exists st1 df st2,
    add_event (Some (store_service calendars)) calendar_id summary
              start_time end_time description location verbose_add st
    = (Ok VNone, st1) /\
    fetch_events env (Some (store_service calendars)) date verbose_fetch st1
    = (Ok df, st2) /\
    In (mkEventRow (VStr name) (VStr summary) (VStr start_time) (VStr end_time))
       df.
Proof.
  intros [dt Hday] Hc Hs Hb He Hentries Hcal Hwf.
  assert (Htruthy : forall s, s <> "" -> truthy (VStr s) = true).
  { intros s H. simpl. destruct (String.eqb s "") eqn:E; [| reflexivity].
    apply String.eqb_eq in E. contradiction. }
  set (ins := insertion calendar_id summary start_time end_time
                        description location).
  set (history := requests (trace st) ++ [ins]).
  (* the insertion *)
  assert (Hadd : exists st1,
             add_event (Some (store_service calendars)) calendar_id summary
                       start_time end_time description location verbose_add st
             = (Ok VNone, st1) /\
             requests (trace st1) = history).
  { unfold add_event. unfold_monad.
    rewrite (Htruthy _ Hc), (Htruthy _ Hs), (Htruthy _ Hb), (Htruthy _ He).
    cbn [andb store_service api].
    destruct verbose_add.
    - cbn [event_body py_get lookup String.eqb Ascii.eqb Bool.eqb].
      eexists. split; [reflexivity |].
      rewrite requests_log_stdout. apply requests_log_net.
    - eexists. split; [reflexivity |]. apply requests_log_net. }
  destruct Hadd as (st1 & Hadd & Hhistory).
  exists st1.
  (* what the store holds afterwards *)
  assert (Hstore_wf : forall id, Forall well_formed_event
                                        (inserted_into id history)).
  { intros id. apply Forall_forall. intros body Hin.
    apply inserted_into_in in Hin as [c Hin].
    unfold history in Hin. apply in_app_or in Hin as [Hin | [Hin | []]].
    - exact (Hwf c body Hin).
    - injection Hin as _ <-. apply event_body_well_formed. }
  assert (Hstored : In (event_body summary start_time end_time
                                   description location)
                       (inserted_into (VStr calendar_id) history)).
  { unfold history. rewrite inserted_into_app. apply in_or_app. right.
    cbn. rewrite String.eqb_refl. left. reflexivity. }
  (* the fetch *)
  rewrite fetch_events_run, Hday. cbv zeta.
  cbn [store_service api].
  cbn [items_of py_get lookup String.eqb Ascii.eqb Bool.eqb rbind py_iter].
  match goal with
  | |- context [@for_each ?A ?S ?xs ?acc ?body ?s] =>
      destruct (store_loop env calendars (time_min_of env date) (time_max_of env date)
                  verbose_fetch (fun id => inserted_into id history)
                  calendars Hstore_wf Hentries acc s)
        as (rowss & st' & Hloop & Hall)
  end.
  { intros id. rewrite requests_log_net, inserted_into_app.
    cbn. rewrite app_nil_r.
    destruct verbose_fetch.
    - unfold fetching_line. rewrite requests_log_stdout, Hhistory. reflexivity.
    - rewrite Hhistory. reflexivity. }
  rewrite Hloop. cbn [app].
  do 2 eexists. split; [exact Hadd |]. split; [reflexivity |].
  apply (Forall2_forall_l _ _ _ Hall) in Hcal
    as (rows & Hrows & id & nm & Heq & Hproj).
  injection Heq as <- <-.
  apply project_all_each in Hproj.
  apply (Forall2_forall_l _ _ _ Hproj) in Hstored as (row & Hrow & Hdata).
  rewrite event_data_event_body in Hdata. injection Hdata as <-.
  apply in_concat. exists rows. split; assumption.
Qed.

Lemma add_event_then_fetch_events_witness :
  valid_date demo_env "2023-09-13" /\
  exists st1 df st2,
    add_event (Some (store_service [calendar_entry "primary" "Main"]))
              "primary" "Meeting" "2023-09-13T10:00:00" "2023-09-13T11:00:00"
              "" "" false initial
    = (Ok VNone, st1) /\
    fetch_events demo_env (Some (store_service [calendar_entry "primary" "Main"]))
                 "2023-09-13" false st1
    = (Ok df, st2) /\
    In (mkEventRow (VStr "Main") (VStr "Meeting")
                   (VStr "2023-09-13T10:00:00") (VStr "2023-09-13T11:00:00"))
       df.
Proof.
  assert (Hvalid : valid_date demo_env "2023-09-13").
  { exists (mkDatetime 2023 9 13 0 0 0 0 (Some 180%Z)). reflexivity. }
  split; [exact Hvalid |].
  apply (add_event_then_fetch_events demo_env
           [calendar_entry "primary" "Main"] "primary" "Main" "Meeting"
           "2023-09-13T10:00:00" "2023-09-13T11:00:00" "" ""
           "2023-09-13" false false initial Hvalid);
    try discriminate.
  - constructor; [| constructor]. exists "primary", "Main". reflexivity.
  - left. reflexivity.
  - intros id body [].
Defined.

(* ================================================================== *)
(** * The entry point *)
(* ================================================================== *)

Lemma get_calendar_service_requests (env : Env) (verbosity : bool)
    (st st' : state) (r : result Session) :
  get_calendar_service env verbosity st = (r, st') ->
  requests (trace st') = requests (trace st).
Proof.
  intros Hrun.
  apply get_calendar_service_step
    in Hrun as (core & line & st1 & (Htrace & Hcore & _) & Hline & _ & Hl).
  rewrite Hline, Htrace, !requests_app.
  assert (Hprompt : requests (Consent :: map Stdout (consent_prompt env)) = [])
    by apply requests_lines.
  destruct Hl as [-> | [-> _]]; destruct Hcore as [-> | [-> | ->]];
    rewrite ?Hprompt; cbn; rewrite ?app_nil_r; reflexivity.
Qed.

Lemma fetch_events_requests (env : Env) (svc : Session) (date : string)
    (verbosity : bool) (st st' : state) (r : result DataFrame) :
  valid_date env date ->
  fetch_events env (Some svc) date verbosity st = (r, st') ->
  exists ids,
    requests (trace st')
    = requests (trace st)
      ++ CalendarList_list
         :: map (list_request (time_min_of env date) (time_max_of env date)) ids.
Proof.
  intros [dt Hday]. rewrite fetch_events_run, Hday. cbv zeta.
  assert (Hst1 : requests (trace (log (Net CalendarList_list)
                    (if verbosity then log (fetching_line date) st else st)))
                 = requests (trace st) ++ [CalendarList_list]).
  { rewrite requests_log_net. f_equal.
    destruct verbosity; [apply requests_log_stdout | reflexivity]. }
  destruct (api svc (requests (trace st)) CalendarList_list) as [response | e].
  2: { intros H. injection H as _ <-. exists []. exact Hst1. }
  destruct (items_of response) as [calendar_list | e].
  2: { intros H. injection H as _ <-. exists []. exact Hst1. }
  match goal with
  | |- context [@for_each ?A ?S ?xs ?acc ?body ?s] =>
      destruct (@for_each A S xs acc body s) as [r2 st2] eqn:Hloop
  end.
  apply calendars_loop_requests in Hloop as (_ & ids & Hreq & _).
  intros Hrun. exists ids.
  assert (Hsame : requests (trace st') = requests (trace st2)).
  { destruct r2 as [df | e]; injection Hrun as _ <-; [| reflexivity].
    destruct (empty df); [apply requests_log_warn | reflexivity]. }
  rewrite Hsame, Hreq, Hst1, <- app_assoc. reflexivity.
Qed.

Lemma demo_date_valid (env : Env) : valid_date env "2023-09-13".
Proof.
  exists (mkDatetime 2023 9 13 0 0 0 0
            (Some (utcoffset (pytz_timezone env "Asia/Jerusalem")
                             (mkDatetime 2023 9 13 0 0 0 0 None)))).
  reflexivity.
Qed.

Lemma main_steps (env : Env) (st : state) :
  main env st =
  match get_calendar_service env true st with
  | (Raise e, st1) => (Raise e, st1)
  | (Ok service, st1) =>
      match fetch_events env (Some service) "2023-09-13" true st1 with
      | (Raise e, st2) => (Raise e, st2)
      | (Ok df, st2) => (Ok tt, log (Stdout [Interp (frame_value df)]) st2)
      end
  end.
Proof.
  unfold main, bind.
  destruct (get_calendar_service env true st) as [[service | e] st1];
    [| reflexivity].
  destruct (fetch_events env (Some service) "2023-09-13" true st1)
    as [[df | e] st2]; reflexivity.
Qed.

(** X19. The entry point.  When authentication fails the program ends
    with that error and has asked the calendar service nothing.
    Otherwise all it asks the service is the enumeration of the calendars
    and listings over 13 September 2023, it leaves token.json as the
    Authenticator left it, and when the fetch completes it prints the
    frame and ends normally. *)
Theorem main_run (env : Env) (st : state) :
  match get_calendar_service env true st with
  | (Raise e, st1) =>
      main env st = (Raise e, st1) /\
      requests (trace st1) = requests (trace st)
  | (Ok service, st1) =>
      (exists ids,
          requests (trace (snd (main env st)))
          = requests (trace st)
            ++ CalendarList_list
               :: map (list_request "2023-09-13T00:00:00+02:00"
                                    "2023-09-13T23:59:59+02:00") ids) /\
      token_json (snd (main env st)) = token_json st1 /\
      (forall df st2,
          fetch_events env (Some service) "2023-09-13" true st1 = (Ok df, st2) ->
          main env st = (Ok tt, log (Stdout [Interp (frame_value df)]) st2))
  end.
Proof.
  rewrite !main_steps.
  destruct (get_calendar_service env true st) as [[service | e] st1] eqn:Hauth;
    pose proof (get_calendar_service_requests env true st _ _ Hauth) as Hreq;
    [| split; [reflexivity | exact Hreq]].
  destruct (fetch_events env (Some service) "2023-09-13" true st1)
    as [[df | e] st2] eqn:Hfetch;
    destruct (fetch_events_requests env service "2023-09-13" true st1 st2 _
                (demo_date_valid env) Hfetch) as [ids Hids];
    pose proof (fetch_events_trace env (Some service) "2023-09-13" true
                  st1 st2 _ Hfetch) as [Htok _];
    cbn [snd].
  - split; [| split].
    + exists ids. rewrite requests_log_stdout, Hids, Hreq. reflexivity.
    + exact Htok.
    + intros df' st2' H. injection H as <- <-. reflexivity.
  - split; [| split].
    + exists ids. rewrite Hids, Hreq. reflexivity.
    + exact Htok.
    + intros df' st2' H. discriminate.
Qed.

Lemma main_run_witness :
  main demo_env initial
  = (Ok tt,
     mkState (Some "{token}")
       [ Consent;
         Stdout [ Lit "Please visit this URL to authorize this application: ";
                  Interp (VStr "https://accounts.example/o/oauth2/auth") ];
         authenticated_line;
         fetching_line "2023-09-13";
         Net CalendarList_list;
         Net (list_request "2023-09-13T00:00:00+02:00"
                           "2023-09-13T23:59:59+02:00"
                           (VStr "work@example.com"));
         Net (list_request "2023-09-13T00:00:00+02:00"
                           "2023-09-13T23:59:59+02:00"
                           (VStr "me@example.com"));
         no_events_line (VStr "Personal");
         Stdout [Interp (frame_value [standup_row])] ])
  /\ main unconfigured_env initial
     = (Raise (FileNotFoundError "credentials.json"), initial).
Proof.
  split.
  - pose proof (main_run demo_env initial) as H.
    change (get_calendar_service demo_env true initial)
      with (Ok demo_service,
            mkState (Some "{token}")
              [ Consent;
                Stdout [ Lit "Please visit this URL to authorize this application: ";
                         Interp (VStr "https://accounts.example/o/oauth2/auth") ];
                authenticated_line ]) in H.
    cbv beta iota in H. destruct H as (_ & _ & H).
    exact (H [standup_row] _ eq_refl).
  - pose proof (main_run unconfigured_env initial) as H.
    change (get_calendar_service unconfigured_env true initial)
      with (@Raise Session (FileNotFoundError "credentials.json"), initial) in H.
    cbv beta iota in H. exact (proj1 H).
Defined.
